(** * oanda-downloader: a shallow embedding of [downloader.py]

    The development follows the source top-down: Python values and
    exceptions, the time utilities ([time_crop_fraction], [time_to_unix]),
    [progress_bar], the Batch Fetcher ([download_batch]), the Range
    Downloader ([download]), the CSV writer ([write]) and the top level. *)

From Stdlib Require Import ZArith List Bool Ascii String Lia QArith.
From Stdlib Require Import DecimalString Sorted.
Import ListNotations.

Local Open Scope Z_scope.

(** ** Python values, exceptions and results *)

(** The values that flow through the time utilities and the request:
    [None], an [int], or a [str]. *)
Inductive pyval : Type :=
| PyNone
| PyInt (z : Z)
| PyStr (s : string).

(** The exception classes the program defines, catches or can run into.
    [MaxCountError], [APIError] and [ConnectionError] are the three classes
    declared in the module; [V20ConnectionError] and [V20Timeout] are the
    two connection-level errors of the API client; the rest are built-in. *)
Inductive exn : Type :=
| MaxCountError
| APIError (msg : string)
| ConnectionError
| V20ConnectionError
| V20Timeout
| KeyError
| IndexError
| ValueError
| TypeError
| AttributeError
| ZeroDivisionError
| IOError (msg : string)
| FileNotFoundError (msg : string)
| KeyboardInterrupt.

Inductive pyres (A : Type) : Type :=
| Ok (a : A)
| Raise (e : exn).
Arguments Ok {A} a.
Arguments Raise {A} e.

Definition rbind {A B : Type} (r : pyres A) (k : A -> pyres B) : pyres B :=
  match r with
  | Ok a => k a
  | Raise e => Raise e
  end.

Declare Scope result_scope.
Delimit Scope result_scope with res.
Notation "x <- r ;; k" := (rbind r (fun x => k))
  (at level 61, r at next level, right associativity) : result_scope.

(** ** Characters *)

Definition chars (s : string) : list ascii := list_ascii_of_string s.

Definition is_digit (c : ascii) : bool :=
  let n := N_of_ascii c in (48 <=? n)%N && (n <=? 57)%N.

Definition digit_val (c : ascii) : Z := Z.of_N (N_of_ascii c) - 48.

(** Whitespace as [int()] and [str.strip] see it (ASCII range). *)
Definition is_space (c : ascii) : bool :=
  let n := N_of_ascii c in
  (n =? 32)%N || ((9 <=? n)%N && (n <=? 13)%N)
  || ((28 <=? n)%N && (n <=? 31)%N).

Definition lower (c : ascii) : ascii :=
  let n := N_of_ascii c in
  if (65 <=? n)%N && (n <=? 90)%N then ascii_of_N (n + 32) else c.

(** ** [time_crop_fraction]

    [re.sub('\..*', '', time)]: every match of a dot followed by the rest
    of its line is deleted. [.] does not match a newline, so a match ends
    at the next newline, which is kept. *)
Fixpoint crop_chars (skipping : bool) (s : list ascii) : list ascii :=
  match s with
  | [] => []
  | c :: r =>
      if skipping then
        if Ascii.eqb c "010"%char then c :: crop_chars false r
        else crop_chars true r
      else if Ascii.eqb c "."%char then crop_chars true r
      else c :: crop_chars false r
  end.

Definition time_crop_fraction (time : string) : string :=
  string_of_list_ascii (crop_chars false (chars time)).

(** ** [int(str)]

    Surrounding whitespace is stripped, one sign is allowed, and the digits
    may be separated by single underscores. *)
Fixpoint lstrip (s : list ascii) : list ascii :=
  match s with
  | c :: r => if is_space c then lstrip r else s
  | [] => []
  end.

Definition strip (s : list ascii) : list ascii :=
  rev (lstrip (rev (lstrip s))).

Fixpoint int_digits (acc : Z) (prev_digit : bool) (s : list ascii) : option Z :=
  match s with
  | [] => if prev_digit then Some acc else None
  | c :: r =>
      if is_digit c then int_digits (acc * 10 + digit_val c) true r
      else if Ascii.eqb c "_"%char then
        (if prev_digit then int_digits acc false r else None)
      else None
  end.

Definition int_of_chars (s : list ascii) : pyres Z :=
  let body :=
    match strip s with
    | c :: r =>
        if Ascii.eqb c "-"%char then option_map Z.opp (int_digits 0 false r)
        else if Ascii.eqb c "+"%char then int_digits 0 false r
        else int_digits 0 false (c :: r)
    | [] => None
    end in
  match body with
  | Some z => Ok z
  | None => Raise ValueError
  end.

(** [int(x)] for the values [time_to_unix] can be given. *)
Definition py_int (v : pyval) : pyres Z :=
  match v with
  | PyInt z => Ok z
  | PyStr s => int_of_chars (chars s)
  | PyNone => Raise TypeError
  end.

(** ** [datetime.strptime]

    The format is compiled to a regular expression that is matched at the
    start of the string, ignoring case; the match must consume the whole
    string. Each directive is an ordered list of alternatives, tried in
    order with backtracking. *)
Inductive cls : Type :=
| Dig (lo hi : Z)   (* a digit in [lo-hi] *)
| Blank.            (* a space *)

Inductive item : Type :=
| Lit (c : ascii)
| Dir (alts : list (list cls)).

Definition in_cls (k : cls) (c : ascii) : bool :=
  match k with
  | Dig lo hi => is_digit c && (lo <=? digit_val c) && (digit_val c <=? hi)
  | Blank => Ascii.eqb c " "%char
  end.

Fixpoint match_alt (a : list cls) (s : list ascii)
  : option (list ascii * list ascii) :=
  match a with
  | [] => Some ([], s)
  | k :: a' =>
      match s with
      | c :: r =>
          if in_cls k c then
            match match_alt a' r with
            | Some (m, rest) => Some (c :: m, rest)
            | None => None
            end
          else None
      | [] => None
      end
  end.

(** All matches of a pattern at the start of [s], best first: the captured
    directive texts and the unconverted remainder. *)
Fixpoint match_pat (p : list item) (s : list ascii)
  : list (list (list ascii) * list ascii) :=
  match p with
  | [] => [([], s)]
  | Lit c :: p' =>
      match s with
      | x :: r => if Ascii.eqb (lower c) (lower x) then match_pat p' r else []
      | [] => []
      end
  | Dir alts :: p' =>
      flat_map (fun a =>
        match match_alt a s with
        | Some (m, r) => map (fun cr => (m :: fst cr, snd cr)) (match_pat p' r)
        | None => []
        end) alts
  end.

Definition d09 : cls := Dig 0 9.
Definition dir_Y : item := Dir [[d09; d09; d09; d09]].
Definition dir_m : item := Dir [[Dig 1 1; Dig 0 2]; [Dig 0 0; Dig 1 9]; [Dig 1 9]].
Definition dir_d : item :=
  Dir [[Dig 3 3; Dig 0 1]; [Dig 1 2; d09]; [Dig 0 0; Dig 1 9]; [Dig 1 9];
       [Blank; Dig 1 9]].
Definition dir_H : item := Dir [[Dig 2 2; Dig 0 3]; [Dig 0 1; d09]; [d09]].
Definition dir_M : item := Dir [[Dig 0 5; d09]; [d09]].
Definition dir_S : item := Dir [[Dig 6 6; Dig 0 1]; [Dig 0 5; d09]; [d09]].

(** ['%Y-%m-%dT%H:%M:%S'] *)
Definition fmt_datetime : list item :=
  [dir_Y; Lit "-"; dir_m; Lit "-"; dir_d; Lit "T";
   dir_H; Lit ":"; dir_M; Lit ":"; dir_S].

(** ['%Y-%m-%d'] *)
Definition fmt_date : list item := [dir_Y; Lit "-"; dir_m; Lit "-"; dir_d].

(** A naive [datetime]. *)
Record datetime : Type := mkDatetime {
  year : Z; month : Z; day : Z; hour : Z; minute : Z; second : Z
}.

Definition is_leap (y : Z) : bool :=
  (y mod 4 =? 0) && (negb (y mod 100 =? 0) || (y mod 400 =? 0)).

Definition days_in_month (y m : Z) : Z :=
  if m =? 2 then (if is_leap y then 29 else 28)
  else if (m =? 4) || (m =? 6) || (m =? 9) || (m =? 11) then 30
  else 31.

Definition days_before_year (y : Z) : Z :=
  let p := y - 1 in p * 365 + p / 4 - p / 100 + p / 400.

Fixpoint days_before_month_aux (y : Z) (n : nat) : Z :=
  match n with
  | O => 0
  | S k => days_before_month_aux y k + days_in_month y (Z.of_nat (S k))
  end.

Definition days_before_month (y m : Z) : Z :=
  days_before_month_aux y (Z.to_nat (m - 1)).

(** The proleptic Gregorian ordinal of a date; 1970-01-01 is 719163. *)
Definition ordinal (y m d : Z) : Z :=
  days_before_year y + days_before_month y m + d.

(** The text of a directive as a number ([int] skips the blank that [%d]
    allows). *)
Definition cap_val (m : list ascii) : Z :=
  fold_left (fun acc c => if is_digit c then acc * 10 + digit_val c else acc)
            m 0.

(** [datetime(...)] checks its fields: years start at 1, the day must exist
    in its month, and a second of 60 or 61, which the pattern accepts, is
    rejected. *)
Definition datetime_valid (t : datetime) : bool :=
  (1 <=? year t) && (year t <=? 9999)
  && (1 <=? month t) && (month t <=? 12)
  && (1 <=? day t) && (day t <=? days_in_month (year t) (month t))
  && (0 <=? hour t) && (hour t <=? 23)
  && (0 <=? minute t) && (minute t <=? 59)
  && (0 <=? second t) && (second t <=? 59).

Definition build_datetime (caps : list (list ascii)) : datetime :=
  let v := fun i => cap_val (nth i caps []) in
  mkDatetime (v 0%nat) (v 1%nat) (v 2%nat) (v 3%nat) (v 4%nat) (v 5%nat).

Definition strptime (v : pyval) (fmt : list item) : pyres datetime :=
  match v with
  | PyStr s =>
      match match_pat fmt (chars s) with
      | (caps, []) :: _ =>
          let t := build_datetime caps in
          if datetime_valid t then Ok t else Raise ValueError
      | (_, _ :: _) :: _ => Raise ValueError   (* unconverted data remains *)
      | [] => Raise ValueError                 (* does not match the format *)
      end
  | _ => Raise TypeError                       (* strptime() needs a str *)
  end.

(** Seconds between 1970-01-01T00:00:00 and the naive datetime, both read
    on the same clock. *)
Definition naive_seconds (t : datetime) : Z :=
  (ordinal (year t) (month t) (day t) - 719163) * 86400
  + hour t * 3600 + minute t * 60 + second t.

(** [int(t.timestamp())]: a naive datetime is read as local time.
    [utcoffset] gives the local zone's offset from UTC, in seconds east,
    at a naive local time. *)
Definition timestamp (utcoffset : Z -> Z) (t : datetime) : Z :=
  naive_seconds t - utcoffset (naive_seconds t).

Definition catches_value_type (e : exn) : bool :=
  match e with
  | ValueError | TypeError => true
  | _ => false
  end.

(** ** [time_to_unix] *)
Definition time_to_unix (utcoffset : Z -> Z) (time : pyval) : pyres pyval :=
  match time with
  | PyNone => Ok PyNone
  | _ =>
      match strptime time fmt_datetime with
      | Ok t => Ok (PyInt (timestamp utcoffset t))
      | Raise e =>
          if catches_value_type e then
            match strptime time fmt_date with
            | Ok t => Ok (PyInt (timestamp utcoffset t))
            | Raise e' =>
                if catches_value_type e' then
                  match py_int time with
                  | Ok z => Ok (PyInt z)
                  | Raise e'' => Raise e''
                  end
                else Raise e'
            end
          else Raise e
      end
  end.

Definition utc : Z -> Z := fun _ => 0.

(** ** [progress_bar]

    Python computes the percentage in floating point; here it is the exact
    rational, so the zero test and the sign are those of the source. *)

Definition Zstr (z : Z) : string := NilZero.string_of_int (Z.to_int z).

(** [round(x)]: to the nearest integer, ties to the even one. *)
Definition round_half_even (q : Q) : Z :=
  let n := Qnum q in
  let d := Zpos (Qden q) in
  let fl := n / d in
  let r := 2 * (n mod d) in
  if r <? d then fl
  else if d <? r then fl + 1
  else if Z.even fl then fl else fl + 1.

(** ['c' * n]: empty when [n] is not positive. *)
Definition str_repeat (c : ascii) (n : Z) : string :=
  string_of_list_ascii (repeat c (Z.to_nat n)).

(** [f"{x:.1f}"]: one decimal. A float carries its sign even when it is
    zero or rounds to zero, so the sign is passed along. *)
Definition format_1f (neg : bool) (x : Q) : string :=
  let a := Z.abs (round_half_even (x * 10)) in
  ((if neg then "-" else "") ++ Zstr (a / 10) ++ "." ++ Zstr (a mod 10))%string.

(** [a - b] on the values that reach [progress_bar]. *)
Definition py_sub (a b : pyval) : pyres Z :=
  match a, b with
  | PyInt x, PyInt y => Ok (x - y)
  | _, _ => Raise TypeError
  end.

(** [num / den * 100] *)
Definition percentage_of (num den : Z) : Q := (inject_Z num / inject_Z den) * 100.

(** The sign of the float [num / den]: negative when the signs differ,
    a zero numerator counting as positive. *)
Definition negative (num den : Z) : bool := xorb (num <? 0) (den <? 0).

Definition render_bar (neg : bool) (percentage : Q) : string :=
  let bar := str_repeat "#" (round_half_even (percentage / 2)) in
  let empty := str_repeat "." (50 - round_half_even (percentage / 2)) in
  ("[" ++ bar ++ empty ++ "] " ++ format_1f neg percentage ++ "%")%string.

Definition progress_bar (start current end_ : pyval) : pyres string :=
  (num <- py_sub current start ;;
   den <- py_sub end_ start ;;
   if den =? 0 then Raise ZeroDivisionError
   else Ok (render_bar (negative num den) (percentage_of num den)))%res.

(** ** The data model *)

(** A maximum number of candles which the server can return. *)
Definition MAX_API_CANDLES : Z := 5000.

(** A starting time if it is not specified. *)
Definition MIN_TIME : Z := 1020800000.

(** Prices are carried through as the API client delivers them. *)
Definition price_value : Type := string.

Record ohlc : Type := mkOhlc {
  ohlc_o : price_value; ohlc_h : price_value;
  ohlc_l : price_value; ohlc_c : price_value
}.

(** A candlestick object of the API client: the price components that
    were not requested are [None]. *)
Record candlestick : Type := mkCandlestick {
  cs_time : string;
  cs_ask : option ohlc;
  cs_bid : option ohlc;
  cs_mid : option ohlc;
  cs_volume : Z
}.

(** A candle record is a [dict]; its keys keep their insertion order, which
    the CSV header depends on. *)
Definition candle : Type := list (string * pyval).

Fixpoint lookup (k : string) (d : candle) : pyres pyval :=
  match d with
  | [] => Raise KeyError
  | (k', v) :: r => if String.eqb k k' then Ok v else lookup k r
  end.

Definition keys (d : candle) : list string := map fst d.

(** The configuration [dict]. The key ['count'] is the only one whose
    presence the program tests. *)
Record config : Type := mkConfig {
  hostname : string;
  token : string;
  datetime_format : string;
  instrument : string;
  price : string;
  granularity : string;
  smooth : bool;
  daily_alignment : Z;
  alignment_timezone : string;
  weekly_alignment : string;
  from_time : pyval;
  to_time : pyval;
  count : option Z;
  output : string
}.

Definition set_from_time (v : pyval) (cfg : config) : config :=
  mkConfig (hostname cfg) (token cfg) (datetime_format cfg) (instrument cfg)
    (price cfg) (granularity cfg) (smooth cfg) (daily_alignment cfg)
    (alignment_timezone cfg) (weekly_alignment cfg) v (to_time cfg)
    (count cfg) (output cfg).

Definition set_to_time (v : pyval) (cfg : config) : config :=
  mkConfig (hostname cfg) (token cfg) (datetime_format cfg) (instrument cfg)
    (price cfg) (granularity cfg) (smooth cfg) (daily_alignment cfg)
    (alignment_timezone cfg) (weekly_alignment cfg) (from_time cfg) v
    (count cfg) (output cfg).

Definition set_count (n : Z) (cfg : config) : config :=
  mkConfig (hostname cfg) (token cfg) (datetime_format cfg) (instrument cfg)
    (price cfg) (granularity cfg) (smooth cfg) (daily_alignment cfg)
    (alignment_timezone cfg) (weekly_alignment cfg) (from_time cfg)
    (to_time cfg) (Some n) (output cfg).

(** The keyword arguments of one "get candles" call. Exactly one of
    [kw_count] and [kw_toTime] is present. *)
Record kwargs : Type := mkKwargs {
  kw_instrument : string;
  kw_price : string;
  kw_granularity : string;
  kw_smooth : bool;
  kw_includeFirst : bool;
  kw_dailyAlignment : Z;
  kw_alignmentTimezone : string;
  kw_weeklyAlignment : string;
  kw_fromTime : pyval;
  kw_count : option Z;
  kw_toTime : option pyval
}.

(** A response: the status and the body, a [dict] whose keys may be
    missing. *)
Record response : Type := mkResponse {
  status : Z;
  errorMessage : option string;
  candles : option (list candlestick)
}.

Inductive api_outcome : Type :=
| Returns (r : response)
| Throws (e : exn).

(** ** The environment and the state

    The remote API answers the [n]-th request it receives; the local zone,
    the clock, the file system and the config loader complete what the
    program reads from outside. [open_error name] is the message of the
    error that opening [name] for writing meets, if any. *)
Record env : Type := mkEnv {
  api : nat -> kwargs -> api_outcome;
  utcoffset : Z -> Z;
  clock : Z;
  open_error : string -> option string;
  run_path : string -> option config
}.

Inductive event : Type :=
| EFetch (kw : kwargs)     (* the Batch Fetcher is entered with this request *)
| ERequest (kw : kwargs)   (* one request goes to the API *)
| EPrint (s : string)      (* print(s) *)
| EStdout (s : string)     (* sys.stdout.write(s) *)
| EOpen (name : string)    (* the output file is opened for writing *)
| ERow (cells : list pyval). (* one CSV row is written *)

(** The configuration is one mutable [dict] shared by the top level, the
    Range Downloader and the Batch Fetcher. *)
Record state : Type := mkState {
  cfg : config;
  requests : nat;
  trace : list event
}.

Definition emit (e : event) (st : state) : state :=
  mkState (cfg st) (requests st) (trace st ++ [e]).

Definition update_cfg (f : config -> config) (st : state) : state :=
  mkState (f (cfg st)) (requests st) (trace st).

(** ** [download_batch] *)

Definition build_kwargs (cf : config) : kwargs :=
  mkKwargs (instrument cf) (price cf) (granularity cf) (smooth cf) false
    (daily_alignment cf) (alignment_timezone cf) (weekly_alignment cf)
    (from_time cf)
    (count cf)
    (match count cf with Some _ => None | None => Some (to_time cf) end).

Definition connection_level (e : exn) : bool :=
  match e with
  | V20ConnectionError | V20Timeout => true
  | _ => false
  end.

(** [api.instrument.candles( **kwargs )] *)
Definition call_api (E : env) (kw : kwargs) (st : state)
  : api_outcome * state :=
  (api E (requests st) kw,
   mkState (cfg st) (S (requests st)) (trace st ++ [ERequest kw])).

(** The retry loop: [attempts] iterations are left; falling out of the
    loop is the [else] branch. *)
Fixpoint get_response (attempts : nat) (E : env) (kw : kwargs) (st : state)
  : pyres response * state :=
  match attempts with
  | O => (Raise ConnectionError, st)
  | S k =>
      let '(out, st') := call_api E kw st in
      match out with
      | Returns r => (Ok r, st')
      | Throws e =>
          if connection_level e then get_response k E kw st'
          else (Raise e, st')
      end
  end.

Definition contains (ch : ascii) (s : string) : bool :=
  existsb (Ascii.eqb ch) (chars s).

(** [candle.ask.o] and the like: an attribute of [None] does not exist. *)
Definition component (x : option ohlc) : pyres ohlc :=
  match x with
  | Some v => Ok v
  | None => Raise AttributeError
  end.

Definition price_fields (pr : string) (ch : ascii) (x : option ohlc)
  (names : string * string * string * string) : pyres candle :=
  if contains ch pr then
    (v <- component x ;;
     let '(no, nh, nl, nc) := names in
     Ok [(no, PyStr (ohlc_o v)); (nh, PyStr (ohlc_h v));
         (nl, PyStr (ohlc_l v)); (nc, PyStr (ohlc_c v))])%res
  else Ok [].

Definition convert_candle (pr : string) (cs : candlestick) : pyres candle :=
  (a <- price_fields pr "A" (cs_ask cs)
         ("openAsk", "highAsk", "lowAsk", "closeAsk")%string ;;
   b <- price_fields pr "B" (cs_bid cs)
         ("openBid", "highBid", "lowBid", "closeBid")%string ;;
   m <- price_fields pr "M" (cs_mid cs)
         ("open", "high", "low", "close")%string ;;
   Ok ((("time"%string, PyStr (time_crop_fraction (cs_time cs))) :: a)
         ++ b ++ m ++ [("volume"%string, PyInt (cs_volume cs))]))%res.

Fixpoint convert_candles (pr : string) (l : list candlestick)
  : pyres (list candle) :=
  match l with
  | [] => Ok []
  | cs :: r =>
      (x <- convert_candle pr cs ;;
       xs <- convert_candles pr r ;;
       Ok (x :: xs))%res
  end.

Definition too_many : string := "Maximum value for 'count' exceeded".

Definition body_get {A : Type} (x : option A) : pyres A :=
  match x with
  | Some v => Ok v
  | None => Raise KeyError
  end.

(** What follows the retry loop. *)
Definition read_response (pr : string) (r : response) : pyres (list candle) :=
  if negb (status r =? 200) then
    (error_message <- body_get (errorMessage r) ;;
     if String.eqb error_message too_many then Raise MaxCountError
     else Raise (APIError error_message))%res
  else
    (cl <- body_get (candles r) ;; convert_candles pr cl)%res.

Definition download_batch (E : env) (st : state)
  : pyres (list candle) * state :=
  let kw := build_kwargs (cfg st) in
  let '(r, st') := get_response 5 E kw (emit (EFetch kw) st) in
  match r with
  | Ok resp => (read_response (price (cfg st)) resp, st')
  | Raise e => (Raise e, st')
  end.

(** ** [download] *)

(** The two control sequences written to the terminal: ["\033[F"] moves
    the cursor up one line, ["\033[K"] clears the line. *)
Definition cursor_up : string := String "027"%char "[F".
Definition clear_line : string := String "027"%char "[K".

(** [a <= b] where [a] comes out of [time_to_unix]: both sides must be
    integers. *)
Definition py_le (a b : pyval) : pyres bool :=
  match a, b with
  | PyInt x, PyInt y => Ok (x <=? y)
  | _, _ => Raise TypeError
  end.

(** [time_to_unix(candle['time'])] *)
Definition candle_unix (E : env) (cd : candle) : pyres pyval :=
  (t <- lookup "time" cd ;; time_to_unix (utcoffset E) t)%res.

(** The inner [for] loop: the candles before the first one later than
    [to_time]. *)
Fixpoint truncate (E : env) (to_time : pyval) (batch : list candle)
  : pyres (list candle) :=
  match batch with
  | [] => Ok []
  | cd :: r =>
      (last_candle_time <- candle_unix E cd ;;
       keep <- py_le last_candle_time to_time ;;
       if keep then (rest <- truncate E to_time r ;; Ok (cd :: rest))
       else Ok [])%res
  end.

Definition is_none (v : pyval) : bool :=
  match v with PyNone => true | _ => false end.

(** What one iteration does with a batch that is not empty: either the
    loop is left with the final result, or it goes on with the new
    accumulated result and the [from_time] of the progress bar. *)
Inductive step_outcome : Type :=
| Stop (result : list candle)
| Continue (result : list candle) (from_time : pyval).

Definition move_window (E : env) (from_time : pyval)
  (is_first_batch : bool) (result batch : list candle)
  (last_candle_time to_time : pyval) (st : state)
  : pyres step_outcome * state :=
  match lookup "time" (last batch []) with
  | Raise e => (Raise e, st)
  | Ok t =>
      let st1 := update_cfg (set_from_time t) st in
      match (if is_first_batch then candle_unix E (hd [] batch)
             else Ok from_time) with
      | Raise e => (Raise e, st1)
      | Ok from_time' =>
          match progress_bar from_time' last_candle_time to_time with
          | Raise e => (Raise e, st1)
          | Ok bar =>
              (Ok (Continue result from_time'),
               emit (EStdout cursor_up) (emit (EPrint bar) st1))
          end
      end
  end.

Definition process_batch (E : env) (to_time from_time : pyval)
  (is_first_batch : bool) (result batch : list candle) (st : state)
  : pyres step_outcome * state :=
  match candle_unix E (last batch []) with
  | Raise e => (Raise e, st)
  | Ok last_candle_time =>
      if negb (is_none to_time) then
        match py_le last_candle_time to_time with
        | Raise e => (Raise e, st)
        | Ok true =>
            move_window E from_time is_first_batch (result ++ batch) batch
              last_candle_time to_time st
        | Ok false =>
            match truncate E to_time batch with
            | Raise e => (Raise e, st)
            | Ok kept => (Ok (Stop (result ++ kept)), st)
            end
        end
      else
        move_window E from_time is_first_batch (result ++ batch) batch
          last_candle_time to_time st
  end.

(** The [while True] loop; [fuel] bounds the number of iterations, and
    [None] means that the bound was reached. *)
Fixpoint paginate (fuel : nat) (E : env) (to_time from_time : pyval)
  (is_first_batch : bool) (result : list candle) (st : state)
  : option (pyres (list candle) * state) :=
  match fuel with
  | O => None
  | S k =>
      let '(rb, st1) := download_batch E st in
      match rb with
      | Raise e => Some (Raise e, st1)
      | Ok [] => Some (Ok result, st1)
      | Ok batch =>
          match process_batch E to_time from_time is_first_batch result
                  batch st1 with
          | (Raise e, st2) => Some (Raise e, st2)
          | (Ok (Stop res), st2) => Some (Ok res, st2)
          | (Ok (Continue res from_time'), st2) =>
              paginate k E to_time from_time' false res st2
          end
      end
  end.

Definition is_MaxCountError (e : exn) : bool :=
  match e with MaxCountError => true | _ => false end.

Definition download (fuel : nat) (E : env) (st : state)
  : option (pyres (list candle) * state) :=
  let '(r, st1) := download_batch E st in
  match r with
  | Ok res => Some (Ok res, st1)
  | Raise e =>
      if is_MaxCountError e then
        let to_time := to_time (cfg st1) in
        let from_time := from_time (cfg st1) in
        let st2 := update_cfg (fun cf => set_count MAX_API_CANDLES
                                           (set_to_time PyNone cf)) st1 in
        paginate fuel E to_time from_time true [] st2
      else Some (Raise e, st1)
  end.

(** ** [write] *)

Definition get_cell (line : candle) (key : string) : pyval :=
  match lookup key line with
  | Ok v => v
  | Raise _ => PyStr ""
  end.

Definition mem_string (k : string) (ks : list string) : bool :=
  existsb (String.eqb k) ks.

(** [writer.writerow(line)]: a key that is not a field name is refused, a
    missing one is written as the empty string. *)
Definition writerow (fieldnames : list string) (line : candle) (st : state)
  : pyres unit * state :=
  if forallb (fun k => mem_string k fieldnames) (keys line) then
    (Ok tt, emit (ERow (map (get_cell line) fieldnames)) st)
  else (Raise ValueError, st).

Fixpoint write_rows (fieldnames : list string) (lines : list candle)
  (st : state) : pyres unit * state :=
  match lines with
  | [] => (Ok tt, st)
  | line :: r =>
      match writerow fieldnames line st with
      | (Ok _, st') => write_rows fieldnames r st'
      | (Raise e, st') => (Raise e, st')
      end
  end.

Definition write (E : env) (name : string) (candles : list candle)
  (st : state) : pyres unit * state :=
  match open_error E name with
  | Some msg => (Raise (IOError msg), st)
  | None =>
      let st1 := emit (EOpen name) st in
      match candles with
      | [] => (Raise IndexError, st1)              (* candles[0] *)
      | first :: _ =>
          let fieldnames := keys first in
          write_rows fieldnames candles
            (emit (ERow (map PyStr fieldnames)) st1)
      end
  end.

(** ** The top level *)

(** How the process ends: the script runs to its end, or an exception
    leaves it with a traceback. *)
Inductive exit_status : Type :=
| Normal
| Unhandled (e : exn).

(** The handlers of the inner [try]: the message each one prints.
    [FileNotFoundError] is an [IOError]. *)
Definition handler (cf : config) (e : exn) : option string :=
  match e with
  | APIError msg => Some ("API error occured: " ++ msg)%string
  | IOError msg | FileNotFoundError msg =>
      Some ("Can't write to an output csv file: " ++ msg)%string
  | KeyError => Some "No results."%string
  | ConnectionError =>
      Some ("Could not connect to " ++ hostname cf ++ ".")%string
  | KeyboardInterrupt =>
      Some (String "010"%char "Keyboard interrupt. Exiting without saving.")
  | _ => None
  end.

(** An exception reaches the handlers of the inner [try]; what they do not
    catch meets the outer [try], which has nothing left to catch. *)
Definition finish (e : exn) (st : state) : exit_status * list event :=
  match handler (cfg st) e with
  | Some msg => (Normal, trace st ++ [EPrint msg])
  | None => (Unhandled e, trace st)
  end.

(** The body of the inner [try]. *)
Definition run (fuel : nat) (E : env) (st : state)
  : option (exit_status * list event) :=
  match download fuel E (emit (EPrint "Downloading candles...") st) with
  | None => None
  | Some (Raise e, st1) => Some (finish e st1)
  | Some (Ok candles, st1) =>
      let st2 :=
        emit (EPrint "Writing to csv file...") (emit (EStdout clear_line) st1) in
      match write E (output (cfg st2)) candles st2 with
      | (Ok _, st3) => Some (Normal, trace (emit (EPrint "Done.") st3))
      | (Raise e, st3) => Some (finish e st3)
      end
  end.

(** The normalisation of the two times before the download starts. *)
Definition normalise (E : env) (cf : config) : pyres config :=
  let cf1 := if is_none (from_time cf)
             then set_from_time (PyInt MIN_TIME) cf else cf in
  let cf2 := if is_none (to_time cf1)
             then set_to_time (PyInt (clock E)) cf1 else cf1 in
  (f <- time_to_unix (utcoffset E) (from_time cf2) ;;
   let cf3 := set_from_time f cf2 in
   t <- time_to_unix (utcoffset E) (to_time cf3) ;;
   Ok (set_to_time t cf3))%res.

Definition main (fuel : nat) (E : env) (config_file : string)
  : option (exit_status * list event) :=
  match run_path E config_file with
  | None => Some (Normal, [EPrint "Can't find a config."])
  | Some cf =>
      match normalise E cf with
      | Raise e => Some (Unhandled e, [])
      | Ok cf' => run fuel E (mkState cf' 0 [])
      end
  end.

(** ** A model of the remote service

    The service holds the candles of one instrument, oldest first. A
    request selects the candles strictly after [fromTime] ([includeFirst]
    is false); with [count] it answers with the first [count] of them, with
    [toTime] with those up to [toTime]. More than [limit] candles in one
    answer are refused. The service reads a time the way the client
    does. *)

Definition unix_of (off : Z -> Z) (v : pyval) : option Z :=
  match time_to_unix off v with
  | Ok (PyInt z) => Some z
  | _ => None
  end.

(** The timestamp of a candlestick, as the program computes it from the
    record it makes of it. *)
Definition stamp (off : Z -> Z) (cs : candlestick) : Z :=
  match unix_of off (PyStr (time_crop_fraction (cs_time cs))) with
  | Some z => z
  | None => 0
  end.

Definition bad_request (msg : string) : api_outcome :=
  Returns (mkResponse 400 (Some msg) None).

Definition serve (off : Z -> Z) (limit : Z) (data : list candlestick)
  (kw : kwargs) : api_outcome :=
  match unix_of off (kw_fromTime kw) with
  | None => bad_request "Invalid value specified for 'from'"
  | Some f =>
      let after :=
        filter (fun cs => if kw_includeFirst kw then f <=? stamp off cs
                          else f <? stamp off cs) data in
      match kw_count kw with
      | Some n =>
          if limit <? n then bad_request too_many
          else Returns (mkResponse 200 None (Some (firstn (Z.to_nat n) after)))
      | None =>
          let upto :=
            match kw_toTime kw with
            | Some v =>
                match unix_of off v with
                | Some t => filter (fun cs => stamp off cs <=? t) after
                | None => after
                end
            | None => after
            end in
          if limit <? Z.of_nat (List.length upto) then bad_request too_many
          else Returns (mkResponse 200 None (Some upto))
      end
  end.

Definition service (off : Z -> Z) (limit : Z) (data : list candlestick)
  : nat -> kwargs -> api_outcome :=
  fun _ kw => serve off limit data kw.

(** ** Notions the properties are stated with *)

(** A bare integer string: decimal digits, at least one. *)
Definition bare_integer (s : string) : bool :=
  negb (String.eqb s "") && forallb is_digit (chars s).

(** The number a string of decimal digits denotes. *)
Definition decimal_value (s : string) : Z :=
  fold_left (fun acc ch => acc * 10 + digit_val ch) (chars s) 0.

(** The normalisation a candle time goes through: the fraction is cropped
    when the record is made, and the record's time is converted. *)
Definition normalise_time (off : Z -> Z) (s : string) : pyres pyval :=
  time_to_unix off (PyStr (time_crop_fraction s)).

(** A local zone one hour east of UTC. *)
Definition one_hour_east : Z -> Z := fun _ => 3600.

(** The attempt that is the [i]-th request overall fails at the connection
    level. *)
Definition conn_fails (E : env) (kw : kwargs) (i : nat) : bool :=
  match api E i kw with
  | Throws e => connection_level e
  | Returns _ => false
  end.

(** The three exception classes of the module; the API client knows
    nothing of them and cannot raise them. *)
Definition module_exn (e : exn) : bool :=
  match e with
  | MaxCountError | APIError _ | ConnectionError => true
  | _ => false
  end.

Definition client_api (E : env) : Prop :=
  forall n kw e, api E n kw = Throws e -> module_exn e = false.

(** The events that touch the output file. *)
Definition is_file_event (ev : event) : bool :=
  match ev with
  | EOpen _ | ERow _ => true
  | _ => false
  end.

Definition file_events (tr : list event) : list event := filter is_file_event tr.

(** The lines printed, in order. *)
Definition printed (tr : list event) : list string :=
  flat_map (fun ev => match ev with EPrint s => [s] | _ => [] end) tr.

(** The exception classes that the handlers of the top level name. *)
Definition is_caught (e : exn) : bool :=
  match e with
  | APIError _ | IOError _ | FileNotFoundError _ | KeyError | ConnectionError
  | KeyboardInterrupt => true
  | _ => false
  end.

(** The effective start time of a paginated download that begins in
    state [st]: the time of the first candle of the first batch. *)
Definition effective_start (E : env) (st : state) : pyres pyval :=
  match fst (download_batch E st) with
  | Ok (cd :: _) => candle_unix E cd
  | Ok [] => Raise IndexError
  | Raise e => Raise e
  end.

(** The bar at zero percent. *)
Definition empty_bar : string :=
  ("[" ++ str_repeat "." 50 ++ "] 0.0%")%string.

(** The timestamp of a candle record, when it has one. *)
Definition stamp_of (E : env) (cd : candle) : option Z :=
  match candle_unix E cd with
  | Ok (PyInt x) => Some x
  | _ => None
  end.

(** The candle is later than [t]. *)
Definition exceeds (E : env) (t : Z) (cd : candle) : bool :=
  match stamp_of E cd with
  | Some x => t <? x
  | None => false
  end.

(** No candle of the list is later than [t]. *)
Definition within (E : env) (t : Z) (l : list candle) : bool :=
  forallb (fun cd => negb (exceeds E t cd)) l.

Definition not_before (E : env) (x : Z) (cd : candle) : bool :=
  match stamp_of E cd with
  | Some y => x <=? y
  | None => false
  end.

(** A batch is ordered, oldest first: every candle has a timestamp, and
    none is earlier than a candle before it. *)
Fixpoint ascending (E : env) (l : list candle) : bool :=
  match l with
  | [] => true
  | cd :: r =>
      match stamp_of E cd with
      | Some x => forallb (not_before E x) r && ascending E r
      | None => false
      end
  end.

(** The contract of the Batch Fetcher: its output is ordered. *)
Definition ordered_batches (E : env) : Prop :=
  forall st batch st1,
    download_batch E st = (Ok batch, st1) -> ascending E batch = true.

(** The remote API keeps to the end time of a request that carries one. *)
Definition honours_to_time (E : env) : Prop :=
  forall st batch st1 t,
    download_batch E st = (Ok batch, st1) ->
    kw_toTime (build_kwargs (cfg st)) = Some (PyInt t) ->
    within E t batch = true.

(** The candlesticks the service holds: their times can be read, the
    requested price components are there, and the timestamps increase
    strictly. *)
Definition parseable (off : Z -> Z) (cs : candlestick) : bool :=
  match unix_of off (PyStr (time_crop_fraction (cs_time cs))) with
  | Some _ => true
  | None => false
  end.

Definition supplied (pr : string) (cs : candlestick) : bool :=
  match convert_candle pr cs with
  | Ok _ => true
  | Raise _ => false
  end.

Fixpoint increasing (l : list Z) : bool :=
  match l with
  | [] => true
  | x :: r =>
      match r with
      | [] => true
      | y :: _ => (x <? y) && increasing r
      end
  end.

Definition well_formed (off : Z -> Z) (pr : string) (data : list candlestick)
  : bool :=
  forallb (parseable off) data && forallb (supplied pr) data
  && increasing (map (stamp off) data).

(** The record the Batch Fetcher makes of a candlestick. *)
Definition record (pr : string) (cs : candlestick) : candle :=
  match convert_candle pr cs with
  | Ok r => r
  | Raise _ => []
  end.

(** What a single call without a bound on the number of candles and
    without an end time answers: everything strictly after [f]. *)
Definition unbounded_fetch (off : Z -> Z) (f : Z) (data : list candlestick)
  : list candlestick :=
  filter (fun cs => f <? stamp off cs) data.

(** The candlesticks of [l] whose timestamp lies in [[lo, hi]]. *)
Definition restrict (off : Z -> Z) (lo hi : Z) (l : list candlestick)
  : list candlestick :=
  filter (fun cs => (lo <=? stamp off cs) && (stamp off cs <=? hi)) l.

(** The timestamp of the earliest candle the service holds. *)
Definition earliest_available (off : Z -> Z) (data : list candlestick) : Z :=
  match data with
  | cs :: _ => stamp off cs
  | [] => 0
  end.

(** The candlesticks of the requested range: strictly after [f], not
    later than [t]. *)
Definition window (off : Z -> Z) (f t : Z) (data : list candlestick)
  : list candlestick :=
  filter (fun cs => stamp off cs <=? t) (unbounded_fetch off f data).

(** The order of two elements by an integer key. *)
Definition key_lt (A : Type) (key : A -> Z) (a b : A) : Prop := key a < key b.

(** The characters before the first dot. *)
Fixpoint before_dot (s : list ascii) : list ascii :=
  match s with
  | [] => []
  | ch :: r => if Ascii.eqb ch "."%char then [] else ch :: before_dot r
  end.

Definition single_line (s : list ascii) : bool :=
  forallb (fun ch => negb (Ascii.eqb ch "010"%char)) s.

Definition dot_free (s : list ascii) : bool :=
  forallb (fun ch => negb (Ascii.eqb ch "."%char)) s.

(** The keys of the records of one download, as the price classes
    requested determine them. *)
Definition field_names (pr : string) : list string :=
  ("time" :: (if contains "A" pr
              then ["openAsk"; "highAsk"; "lowAsk"; "closeAsk"] else [])
     ++ (if contains "B" pr
         then ["openBid"; "highBid"; "lowBid"; "closeBid"] else [])
     ++ (if contains "M" pr then ["open"; "high"; "low"; "close"] else [])
     ++ ["volume"])%string.

Definition is_some {A : Type} (x : option A) : bool :=
  match x with Some _ => true | None => false end.

(** The candlestick carries every price class that was requested. *)
Definition requested_present (pr : string) (cs : candlestick) : bool :=
  (negb (contains "A" pr) || is_some (cs_ask cs))
  && (negb (contains "B" pr) || is_some (cs_bid cs))
  && (negb (contains "M" pr) || is_some (cs_mid cs)).

(** The keys of the line are all field names of the writer. *)
Definition row_fits (fieldnames : list string) (line : candle) : bool :=
  forallb (fun k => mem_string k fieldnames) (keys line).

(** The configuration with another start time and nothing else changed. *)
Definition moved_window (cf cf' : config) : Prop :=
  cf' = set_from_time (from_time cf') cf.

(** ** Sample inputs *)

Definition sample_config (f t : pyval) : config :=
  mkConfig "api-fxtrade.oanda.com" "secret" "UNIX" "EUR_USD" "M" "M1" false
    17 "America/New_York" "Friday" f t None "candles.csv".

(** An environment in UTC whose output file can be opened and whose config
    file exists. *)
Definition sample_env (a : nat -> kwargs -> api_outcome) (cf : config) : env :=
  mkEnv a utc 2000000000 (fun _ => None) (fun _ => Some cf).

Definition empty_answer : api_outcome := Returns (mkResponse 200 None (Some [])).

(** Two timeouts, then an answer. *)
Definition flaky_api : nat -> kwargs -> api_outcome :=
  fun n _ => if (n <? 2)%nat then Throws V20Timeout else empty_answer.

(** A candlestick with midpoint prices only. *)
Definition mid_stick (time : string) (volume : Z) : candlestick :=
  mkCandlestick time None None
    (Some (mkOhlc "1.13370"%string "1.13400"%string "1.13350"%string
             "1.13390"%string)) volume.

(** A service that refuses a request by range and answers a request by
    count with a single candle at 2019-02-20T09:00:00Z. *)
Definition lone_candle_api : nat -> kwargs -> api_outcome :=
  fun _ kw =>
    match kw_count kw with
    | Some _ =>
        Returns (mkResponse 200 None
                   (Some [mid_stick "1550653200.000000000" 7]))
    | None => bad_request too_many
    end.

(** Three candles, one minute apart. *)
Definition three_sticks : list candlestick :=
  [mid_stick "1550653200.000000000" 7; mid_stick "1550653260.000000000" 3;
   mid_stick "1550653320.000000000" 5].

(** A service that cannot be reached. *)
Definition unreachable_api : nat -> kwargs -> api_outcome :=
  fun _ _ => Throws V20ConnectionError.

(** [n] candlesticks one minute apart, the first at [base], their times
    written as the API writes UNIX times. *)
Definition minute_sticks (base : Z) (n : nat) : list candlestick :=
  map (fun i => mid_stick (Zstr (base + 60 * Z.of_nat i) ++ ".000000000")
                  (Z.of_nat i))
      (seq 0 n).

(** 5200 minutes from 2019-02-12T19:33:20Z on. *)
Definition long_series : list candlestick :=
  minute_sticks 1550000000 (Z.to_nat 5200).

(** A request that is interrupted from the keyboard. *)
Definition interrupted_api : nat -> kwargs -> api_outcome :=
  fun _ _ => Throws KeyboardInterrupt.

(** An answer of status 200 whose body has no candles. *)
Definition bare_api : nat -> kwargs -> api_outcome :=
  fun _ _ => Returns (mkResponse 200 None None).

(** An environment like [sample_env] whose output file cannot be opened. *)
Definition locked_env (a : nat -> kwargs -> api_outcome) (cf : config) : env :=
  mkEnv a utc 2000000000 (fun _ => Some "[Errno 13] Permission denied"%string)
    (fun _ => Some cf).

(** * Properties *)

(** ** The time utilities on the inputs of the documentation *)

Example crop_rfc3339 :
  time_crop_fraction "2019-02-20T09:00:00.000000000Z" = "2019-02-20T09:00:00"%string.
Proof. reflexivity. Qed.

Example crop_unix :
  time_crop_fraction "1549886400.000000000" = "1549886400"%string.
Proof. reflexivity. Qed.

Example t2u_1 : time_to_unix utc (PyStr "2019-02-20T09:00:00") = Ok (PyInt 1550653200).
Proof. vm_compute. reflexivity. Qed.

Example t2u_2 : time_to_unix utc (PyStr "2019-02-20T09:00:00.000000000Z") = Raise ValueError.
Proof. vm_compute. reflexivity. Qed.

Example t2u_3 : time_to_unix utc (PyStr "2019-02-20") = Ok (PyInt 1550620800).
Proof. vm_compute. reflexivity. Qed.

Example t2u_4 : time_to_unix utc (PyStr "1550653200") = Ok (PyInt 1550653200).
Proof. vm_compute. reflexivity. Qed.

Example progress_bar_half :
  progress_bar (PyInt 0) (PyInt 50) (PyInt 100)
  = Ok "[#########################.........................] 50.0%"%string.
Proof. vm_compute. reflexivity. Qed.

Example progress_bar_third :
  progress_bar (PyInt 10) (PyInt 20) (PyInt 40)
  = Ok "[#################.................................] 33.3%"%string.
Proof. vm_compute. reflexivity. Qed.

(** ** [time_to_unix] on digit strings *)

Lemma digit_in_d09 (ch : ascii) : is_digit ch = true -> in_cls d09 ch = true.
Proof.
  destruct ch as [[] [] [] [] [] [] [] []]; vm_compute; congruence.
Qed.

Lemma digit_not_dash (ch : ascii) :
  is_digit ch = true -> Ascii.eqb (lower "-") (lower ch) = false.
Proof.
  destruct ch as [[] [] [] [] [] [] [] []]; vm_compute; congruence.
Qed.

Lemma digit_not_space (ch : ascii) : is_digit ch = true -> is_space ch = false.
Proof.
  destruct ch as [[] [] [] [] [] [] [] []]; vm_compute; congruence.
Qed.

Lemma digit_not_sign (ch : ascii) :
  is_digit ch = true ->
  Ascii.eqb ch "-"%char = false /\ Ascii.eqb ch "+"%char = false.
Proof.
  destruct ch as [[] [] [] [] [] [] [] []]; vm_compute; split; congruence.
Qed.

(** A string of digits has no dash after its fourth character, so neither
    format matches it. *)
Lemma digits_match_no_date (rest : list item) (s : list ascii) :
  forallb is_digit s = true ->
  match_pat (dir_Y :: Lit "-" :: rest) s = [].
Proof.
  intros Hd.
  assert (Hall : forall x, In x s -> in_cls d09 x = true).
  { intros x Hx. apply digit_in_d09. revert x Hx. now apply forallb_forall. }
  unfold dir_Y.
  destruct s as [|c1 [|c2 [|c3 [|c4 [|x r']]]]];
    cbn [match_pat flat_map match_alt];
    repeat (rewrite Hall by (simpl; tauto));
    cbn [match_pat flat_map match_alt map app]; try reflexivity.
  rewrite digit_not_dash; [reflexivity|].
  rewrite forallb_forall in Hd. apply Hd. simpl. tauto.
Qed.

Lemma lstrip_digits (s : list ascii) : forallb is_digit s = true -> lstrip s = s.
Proof.
  destruct s as [|ch r]; simpl; [reflexivity|].
  intros H. apply andb_prop in H. destruct H as [H _].
  now rewrite (digit_not_space ch H).
Qed.

Lemma strip_digits (s : list ascii) : forallb is_digit s = true -> strip s = s.
Proof.
  intros H. unfold strip. rewrite (lstrip_digits s H).
  rewrite lstrip_digits; [apply rev_involutive|].
  apply forallb_forall. intros x Hx. apply in_rev in Hx.
  revert x Hx. now apply forallb_forall.
Qed.

Lemma int_digits_value (s : list ascii) :
  forall acc b,
    forallb is_digit s = true -> (s <> [] \/ b = true) ->
    int_digits acc b s
    = Some (fold_left (fun a ch => a * 10 + digit_val ch) s acc).
Proof.
  induction s as [|ch r IH]; intros acc b Hd Hne; simpl.
  - destruct Hne as [Hne | ->]; [congruence|reflexivity].
  - simpl in Hd. apply andb_prop in Hd. destruct Hd as [Hc Hr].
    rewrite Hc. apply IH; auto.
Qed.

Lemma int_of_digits (s : string) :
  bare_integer s = true -> int_of_chars (chars s) = Ok (decimal_value s).
Proof.
  unfold bare_integer, decimal_value, int_of_chars. intros H.
  apply andb_prop in H. destruct H as [Hne Hd].
  rewrite (strip_digits _ Hd).
  destruct s as [|ch r]; [discriminate|].
  assert (Hc : is_digit ch = true).
  { rewrite forallb_forall in Hd. apply Hd. left. reflexivity. }
  change (chars (String ch r)) with (ch :: chars r) in *.
  destruct (digit_not_sign ch Hc) as [-> ->].
  rewrite int_digits_value; [reflexivity|exact Hd|left; discriminate].
Qed.

Lemma time_to_unix_digits (off : Z -> Z) (s : string) :
  bare_integer s = true ->
  time_to_unix off (PyStr s) = Ok (PyInt (decimal_value s)).
Proof.
  intros H. pose proof H as H'. unfold bare_integer in H'.
  apply andb_prop in H'. destruct H' as [_ Hd].
  unfold time_to_unix, strptime, fmt_datetime, fmt_date.
  rewrite !(digits_match_no_date _ _ Hd). simpl.
  now rewrite (int_of_digits s H).
Qed.

(** ** C5 *)




(** ** The Batch Fetcher *)

Lemma get_response_spec (a : nat) (E : env) (kw : kwargs) :
  forall st,
  exists n : nat,
    (n <= a)%nat
    /\ cfg (snd (get_response a E kw st)) = cfg st
    /\ requests (snd (get_response a E kw st)) = (requests st + n)%nat
    /\ trace (snd (get_response a E kw st))
       = trace st ++ repeat (ERequest kw) n
    /\ (forall i, (S i < n)%nat -> conn_fails E kw (requests st + i) = true)
    /\ match fst (get_response a E kw st) with
       | Ok resp =>
           (1 <= n)%nat /\ api E (requests st + (n - 1)) kw = Returns resp
       | Raise e =>
           (n = a /\ e = ConnectionError
            /\ forall i, (i < n)%nat -> conn_fails E kw (requests st + i) = true)
           \/ ((1 <= n)%nat /\ api E (requests st + (n - 1)) kw = Throws e
               /\ connection_level e = false)
       end.
Proof.
  induction a as [|k IH]; intros st.
  - exists 0%nat. simpl. rewrite app_nil_r, Nat.add_0_r.
    split; [lia|]. split; [reflexivity|]. split; [reflexivity|].
    split; [reflexivity|]. split; [intros i Hi; lia|].
    left. split; [reflexivity|]. split; [reflexivity|]. intros i Hi. lia.
  - cbn [get_response call_api].
    destruct (api E (requests st) kw) as [resp|e] eqn:Hapi.
    + exists 1%nat. cbn [fst snd cfg requests trace repeat].
      rewrite Nat.add_0_r.
      split; [lia|]. split; [reflexivity|]. split; [lia|].
      split; [reflexivity|]. split; [intros i Hi; lia|].
      split; [lia|exact Hapi].
    + destruct (connection_level e) eqn:Hc.
      * set (st1 := mkState (cfg st) (S (requests st))
                      (trace st ++ [ERequest kw])).
        destruct (IH st1) as (n & Hn & Hcfg & Hreq & Htr & Hpre & Hres).
        exists (S n). rewrite Hcfg, Hreq, Htr. subst st1.
        cbn [cfg requests trace] in *.
        assert (Hfirst : conn_fails E kw (requests st) = true).
        { unfold conn_fails. now rewrite Hapi. }
        assert (Hshift : forall j, (requests st + S j)%nat
                                   = (S (requests st) + j)%nat) by (intros; lia).
        split; [lia|]. split; [reflexivity|]. split; [lia|].
        split; [now rewrite <- app_assoc|].
        split.
        { intros i Hi. destruct i as [|j].
          - now rewrite Nat.add_0_r.
          - rewrite Hshift. apply Hpre. lia. }
        destruct (fst (get_response k E kw _)) as [resp|e'].
        -- destruct Hres as [Hge Hlast]. split; [lia|].
           replace (S n - 1)%nat with (S (n - 1)) by lia.
           rewrite Hshift. exact Hlast.
        -- destruct Hres as [(-> & -> & Hall)|(Hge & Hlast & Hnc)].
           ++ left. split; [reflexivity|]. split; [reflexivity|].
              intros i Hi. destruct i as [|j].
              ** now rewrite Nat.add_0_r.
              ** rewrite Hshift. apply Hall. lia.
           ++ right. split; [lia|]. split; [|exact Hnc].
              replace (S n - 1)%nat with (S (n - 1)) by lia.
              rewrite Hshift. exact Hlast.
      * exists 1%nat. cbn [fst snd cfg requests trace repeat].
        rewrite Nat.add_0_r.
        split; [lia|]. split; [reflexivity|]. split; [lia|].
        split; [reflexivity|]. split; [intros i Hi; lia|].
        right. split; [lia|]. split; [exact Hapi|exact Hc].
Qed.

Lemma convert_candles_raises (pr : string) (cl : list candlestick) (e : exn) :
  convert_candles pr cl = Raise e -> e = AttributeError.
Proof.
  induction cl as [|cs r IH]; simpl; [discriminate|].
  unfold convert_candle, price_fields, component.
  repeat match goal with
         | |- context [if ?b then _ else _] => destruct b
         | |- context [match ?x with Some _ => _ | None => _ end] => destruct x
         end; simpl; try congruence;
    destruct (convert_candles pr r); simpl; try congruence; auto.
Qed.

Lemma read_response_raises (pr : string) (r : response) (e : exn) :
  read_response pr r = Raise e ->
  e = KeyError \/ e = MaxCountError \/ (exists m, e = APIError m)
  \/ e = AttributeError.
Proof.
  unfold read_response, body_get.
  destruct (negb (status r =? 200)).
  - destruct (errorMessage r) as [m|]; simpl.
    + destruct (String.eqb m too_many); intros H; inversion H; eauto.
    + intros H; inversion H; auto.
  - destruct (candles r) as [cl|]; simpl.
    + intros H. apply convert_candles_raises in H. auto.
    + intros H; inversion H; auto.
Qed.

(** What one call of the Batch Fetcher leaves behind: the configuration is
    untouched, and the trace grows by the entry and the requests. *)
Lemma download_batch_spec (E : env) (st : state) :
  let kw := build_kwargs (cfg st) in
  exists n : nat,
    (1 <= n <= 5)%nat
    /\ cfg (snd (download_batch E st)) = cfg st
    /\ requests (snd (download_batch E st)) = (requests st + n)%nat
    /\ trace (snd (download_batch E st))
       = trace st ++ EFetch kw :: repeat (ERequest kw) n
    /\ (forall i, (S i < n)%nat -> conn_fails E kw (requests st + i) = true)
    /\ ((exists resp,
           api E (requests st + (n - 1)) kw = Returns resp
           /\ fst (download_batch E st) = read_response (price (cfg st)) resp)
        \/ (n = 5%nat /\ fst (download_batch E st) = Raise ConnectionError
            /\ forall i, (i < 5)%nat ->
                         conn_fails E kw (requests st + i) = true)
        \/ (exists e,
              api E (requests st + (n - 1)) kw = Throws e
              /\ connection_level e = false
              /\ fst (download_batch E st) = Raise e)).
Proof.
  intros kw. unfold download_batch. fold kw.
  destruct (get_response_spec 5 E kw (emit (EFetch kw) st))
    as (n & Hn & Hcfg & Hreq & Htr & Hpre & Hres).
  destruct (get_response 5 E kw (emit (EFetch kw) st)) as [r st'] eqn:Hget.
  cbn [fst snd emit cfg requests trace] in *.
  exists n.
  assert (Htr' : trace (snd (match r with
                             | Ok resp => (read_response (price (cfg st)) resp, st')
                             | Raise e => (Raise e, st')
                             end))
                 = trace st ++ EFetch kw :: repeat (ERequest kw) n).
  { destruct r; cbn [snd]; rewrite Htr, <- app_assoc; reflexivity. }
  destruct r as [resp|e]; cbn [fst snd] in *.
  - destruct Hres as [Hge Hlast].
    repeat (split; [solve [auto | lia]|]). left. exists resp. auto.
  - destruct Hres as [(-> & -> & Hall)|(Hge & Hlast & Hnc)].
    + repeat (split; [solve [auto | lia]|]). right. left. auto.
    + repeat (split; [solve [auto | lia]|]). right. right. exists e. auto.
Qed.

(** ** C6 *)

(** C6. The Batch Fetcher sends the same request again after a connection
    error or a timeout, at most five times in all: every request of one
    call is the request built from the configuration, all attempts before
    the last failed at the connection level, ConnectionError is raised
    exactly when all five attempts fail at the connection level, and the
    answer of the first attempt that succeeds is the one that is read. *)
Theorem C6_retry_policy (E : env) (st : state) :
  client_api E ->
  let kw := build_kwargs (cfg st) in
  exists n : nat,
    (1 <= n <= 5)%nat
    /\ trace (snd (download_batch E st))
       = trace st ++ EFetch kw :: repeat (ERequest kw) n
    /\ requests (snd (download_batch E st)) = (requests st + n)%nat
    /\ (forall i, (S i < n)%nat -> conn_fails E kw (requests st + i) = true)
    /\ (fst (download_batch E st) = Raise ConnectionError
        <-> forall i, (i < 5)%nat -> conn_fails E kw (requests st + i) = true)
    /\ (forall resp,
          api E (requests st + (n - 1)) kw = Returns resp ->
          fst (download_batch E st) = read_response (price (cfg st)) resp).
Proof.
  intros Hclient kw.
  destruct (download_batch_spec E st)
    as (n & Hn & Hcfg & Hreq & Htr & Hpre & Hres).
  fold kw in Htr, Hpre, Hres.
  exists n. repeat (split; [solve [auto | lia]|]).
  split; [split|].
  - intros Hraise i Hi.
    destruct Hres as [(resp & Hlast & Hr)|[(-> & Hr & Hall)|(e & Hlast & Hnc & Hr)]].
    + rewrite Hr in Hraise. apply read_response_raises in Hraise.
      destruct Hraise as [H|[H|[[m H]|H]]]; discriminate.
    + now apply Hall.
    + rewrite Hr in Hraise. inversion Hraise; subst e.
      apply Hclient in Hlast. discriminate.
  - intros Hall.
    destruct Hres as [(resp & Hlast & Hr)|[(-> & Hr & _)|(e & Hlast & Hnc & Hr)]].
    + specialize (Hall (n - 1)%nat ltac:(lia)).
      unfold conn_fails in Hall. rewrite Hlast in Hall. discriminate.
    + exact Hr.
    + specialize (Hall (n - 1)%nat ltac:(lia)).
      unfold conn_fails in Hall. rewrite Hlast, Hnc in Hall. discriminate.
  - intros resp Hresp.
    destruct Hres as [(resp' & Hlast & Hr)|[(-> & Hr & Hall)|(e & Hlast & Hnc & Hr)]].
    + rewrite Hlast in Hresp. inversion Hresp; subst. exact Hr.
    + specialize (Hall 4%nat ltac:(lia)).
      unfold conn_fails in Hall. cbn [Nat.sub] in Hresp.
      rewrite Hresp in Hall. discriminate.
    + rewrite Hlast in Hresp. discriminate.
Qed.

Lemma flaky_api_client (cf : config) : client_api (sample_env flaky_api cf).
Proof.
  intros n kw e. cbn [api sample_env]. unfold flaky_api, empty_answer.
  destruct (n <? 2)%nat; intros H; inversion H; reflexivity.
Qed.

(** Against an API that times out twice before it answers. *)
Lemma C6_retry_policy_witness :
  exists n : nat,
    (1 <= n <= 5)%nat
    /\ requests (snd (download_batch
                        (sample_env flaky_api (sample_config (PyInt 0) (PyInt 9)))
                        (mkState (sample_config (PyInt 0) (PyInt 9)) 0 [])))
       = (0 + n)%nat.
Proof.
  destruct (C6_retry_policy
              (sample_env flaky_api (sample_config (PyInt 0) (PyInt 9)))
              (mkState (sample_config (PyInt 0) (PyInt 9)) 0 [])
              (flaky_api_client _))
    as (n & Hn & _ & Hreq & _).
  exists n. split; [exact Hn|exact Hreq].
Defined.
(** ** C3 *)

(** C3. When the first call of the Batch Fetcher does not raise
    MaxCountError, the Range Downloader is that one call: it returns what
    the call returned (or raises what it raised), the configuration is as
    it was, and the trace has grown by one entry to the Batch Fetcher and
    its requests only, so nothing was printed. *)
Theorem C3_single_batch (fuel : nat) (E : env) (st : state) :
  fst (download_batch E st) <> Raise MaxCountError ->
  download fuel E st = Some (download_batch E st)
  /\ cfg (snd (download_batch E st)) = cfg st
  /\ exists n : nat,
       trace (snd (download_batch E st))
       = trace st ++ EFetch (build_kwargs (cfg st))
                  :: repeat (ERequest (build_kwargs (cfg st))) n.
Proof.
  intros Hno.
  destruct (download_batch_spec E st)
    as (n & _ & Hcfg & _ & Htr & _).
  split; [|split; [exact Hcfg|exists n; exact Htr]].
  unfold download.
  destruct (download_batch E st) as [r st1]. cbn [fst] in Hno.
  destruct r as [res|e]; [reflexivity|].
  destruct e; cbn [is_MaxCountError]; try reflexivity.
  congruence.
Qed.

(** Three candles held by the service, all fetched by one call. *)
Lemma C3_single_batch_witness :
  download 0 (sample_env (service utc 5000 three_sticks)
                         (sample_config (PyInt 1550653200) (PyInt 1550653320)))
           (mkState (sample_config (PyInt 1550653200) (PyInt 1550653320)) 0 [])
  = Some (download_batch
            (sample_env (service utc 5000 three_sticks)
                        (sample_config (PyInt 1550653200) (PyInt 1550653320)))
            (mkState (sample_config (PyInt 1550653200) (PyInt 1550653320)) 0 [])).
Proof.
  apply (C3_single_batch 0
           (sample_env (service utc 5000 three_sticks)
                       (sample_config (PyInt 1550653200) (PyInt 1550653320)))
           (mkState (sample_config (PyInt 1550653200) (PyInt 1550653320)) 0 [])).
  vm_compute. discriminate.
Defined.

(** ** C10 *)

Lemma progress_bar_ints (s cur e : Z) :
  progress_bar (PyInt s) (PyInt cur) (PyInt e)
  = if e - s =? 0 then Raise ZeroDivisionError
    else Ok (render_bar (negative (cur - s) (e - s))
               (percentage_of (cur - s) (e - s))).
Proof. reflexivity. Qed.

Lemma candle_unix_has_time (E : env) (cd : candle) (v : pyval) :
  candle_unix E cd = Ok v -> exists t, lookup "time" cd = Ok t.
Proof.
  unfold candle_unix. destruct (lookup "time" cd) as [t|e]; simpl.
  - eauto.
  - discriminate.
Qed.

(** C10. [progress_bar] returns a bar exactly when the end differs from
    the start and fails with ZeroDivisionError when they are equal; in the
    Range Downloader this happens when the first batch lies within the
    range and its first candle is at the requested end time. *)
Theorem C10_progress_bar_domain :
  (forall s cur e,
     progress_bar (PyInt s) (PyInt cur) (PyInt e) = Raise ZeroDivisionError
     <-> e = s)
  /\ (forall s cur e,
        e <> s ->
        progress_bar (PyInt s) (PyInt cur) (PyInt e)
        = Ok (render_bar (negative (cur - s) (e - s))
                (percentage_of (cur - s) (e - s))))
  /\ (forall k E t tl from acc st batch st1,
        download_batch E st = (Ok batch, st1) ->
        batch <> [] ->
        candle_unix E (hd [] batch) = Ok (PyInt t) ->
        candle_unix E (last batch []) = Ok (PyInt tl) ->
        tl <= t ->
        exists st2,
          paginate (S k) E (PyInt t) from true acc st
          = Some (Raise ZeroDivisionError, st2)).
Proof.
  split; [|split].
  - intros s cur e. rewrite progress_bar_ints.
    destruct (e - s =? 0) eqn:H.
    + apply Z.eqb_eq in H. split; [intros _; lia|reflexivity].
    + apply Z.eqb_neq in H. split; [discriminate|intros; lia].
  - intros s cur e Hne. rewrite progress_bar_ints.
    destruct (e - s =? 0) eqn:H; [|reflexivity].
    apply Z.eqb_eq in H. lia.
  - intros k E t tl from acc st batch st1 Hb Hne Hhd Hlast Hle.
    cbn [paginate]. rewrite Hb.
    destruct batch as [|cd r]; [congruence|].
    unfold process_batch. rewrite Hlast. cbn [is_none negb py_le].
    apply Z.leb_le in Hle. rewrite Hle.
    unfold move_window.
    destruct (candle_unix_has_time _ _ _ Hlast) as [tv ->].
    rewrite Hhd. rewrite progress_bar_ints, Z.sub_diag. cbn [Z.eqb].
    eauto.
Qed.

(** A service that holds one candle, at the requested end time. *)
Lemma C10_progress_bar_domain_witness :
  exists st2,
    paginate 1 (sample_env lone_candle_api
                  (sample_config (PyInt 1550000000) (PyInt 1550653200)))
      (PyInt 1550653200) (PyInt 1550000000) true []
      (mkState (set_count MAX_API_CANDLES
                  (set_to_time PyNone
                     (sample_config (PyInt 1550000000) (PyInt 1550653200))))
         1 [])
    = Some (Raise ZeroDivisionError, st2).
Proof.
  eapply (proj2 (proj2 C10_progress_bar_domain)) with (tl := 1550653200).
  - vm_compute. reflexivity.
  - discriminate.
  - vm_compute. reflexivity.
  - vm_compute. reflexivity.
  - lia.
Defined.
(** ** What the Range Downloader leaves in the trace *)

Lemma file_events_app (a b : list event) :
  file_events (a ++ b) = file_events a ++ file_events b.
Proof. apply filter_app. Qed.

Lemma file_events_requests (kw : kwargs) (n : nat) :
  file_events (repeat (ERequest kw) n) = [].
Proof. induction n as [|n IH]; simpl; auto. Qed.

Lemma download_batch_no_files (E : env) (st : state) :
  file_events (trace (snd (download_batch E st))) = file_events (trace st).
Proof.
  destruct (download_batch_spec E st) as (n & _ & _ & _ & Htr & _).
  rewrite Htr, file_events_app. cbn [file_events filter is_file_event].
  fold (file_events (repeat (ERequest (build_kwargs (cfg st))) n)).
  now rewrite file_events_requests, app_nil_r.
Qed.

Lemma move_window_no_files (E : env) (from : pyval) (first : bool)
  (res batch : list candle) (lct to : pyval) (st : state) :
  file_events (trace (snd (move_window E from first res batch lct to st)))
  = file_events (trace st).
Proof.
  unfold move_window.
  destruct (lookup "time" (last batch [])); [|reflexivity].
  destruct (if first then candle_unix E (hd [] batch) else Ok from);
    [|reflexivity].
  destruct (progress_bar _ _ _); [|reflexivity].
  cbn [snd emit trace update_cfg]. rewrite !file_events_app.
  cbn. now rewrite !app_nil_r.
Qed.

Lemma process_batch_no_files (E : env) (to from : pyval) (first : bool)
  (res batch : list candle) (st : state) :
  file_events (trace (snd (process_batch E to from first res batch st)))
  = file_events (trace st).
Proof.
  unfold process_batch.
  destruct (candle_unix E (last batch [])) as [lct|]; [|reflexivity].
  destruct (negb (is_none to)).
  - destruct (py_le lct to) as [[|]|]; try reflexivity.
    + apply move_window_no_files.
    + destruct (truncate E to batch); reflexivity.
  - apply move_window_no_files.
Qed.

Lemma paginate_no_files (E : env) (to : pyval) (fuel : nat) :
  forall from first res st r st',
    paginate fuel E to from first res st = Some (r, st') ->
    file_events (trace st') = file_events (trace st).
Proof.
  induction fuel as [|k IH]; intros from first res st r st' H;
    [discriminate|].
  cbn [paginate] in H.
  pose proof (download_batch_no_files E st) as Hb.
  destruct (download_batch E st) as [rb st1]. cbn [snd] in Hb.
  destruct rb as [batch|e].
  - destruct batch as [|cd rest].
    + inversion H; subst. exact Hb.
    + pose proof (process_batch_no_files E to from first res (cd :: rest) st1)
        as Hp.
      destruct (process_batch E to from first res (cd :: rest) st1)
        as [rp st2]. cbn [snd] in Hp.
      destruct rp as [[res'|res' from']|e].
      * inversion H; subst. congruence.
      * apply IH in H. congruence.
      * inversion H; subst. congruence.
  - inversion H; subst. exact Hb.
Qed.

Lemma download_no_files (E : env) (fuel : nat) (st : state) r st' :
  download fuel E st = Some (r, st') ->
  file_events (trace st') = file_events (trace st).
Proof.
  unfold download. intros H.
  pose proof (download_batch_no_files E st) as Hb.
  destruct (download_batch E st) as [rb st1]. cbn [snd] in Hb.
  destruct rb as [res|e].
  - inversion H; subst. exact Hb.
  - destruct (is_MaxCountError e).
    + apply paginate_no_files in H. cbn [update_cfg trace] in H. congruence.
    + inversion H; subst. exact Hb.
Qed.

(** ** The exceptions of the time utilities *)

Lemma strptime_raises (v : pyval) (fmt : list item) (e : exn) :
  strptime v fmt = Raise e -> catches_value_type e = true.
Proof.
  unfold strptime. destruct v as [|z|s]; try (intros H; inversion H; reflexivity).
  destruct (match_pat fmt (chars s)) as [|[caps [|x r]] m];
    try (intros H; inversion H; reflexivity).
  destruct (datetime_valid (build_datetime caps));
    intros H; inversion H; reflexivity.
Qed.

Lemma py_int_raises (v : pyval) (e : exn) :
  py_int v = Raise e -> catches_value_type e = true.
Proof.
  destruct v as [|z|s]; simpl; try (intros H; inversion H; reflexivity).
  unfold int_of_chars.
  match goal with |- context [match ?b with Some _ => _ | None => _ end] =>
    destruct b end; intros H; inversion H; reflexivity.
Qed.

Lemma time_to_unix_raises (off : Z -> Z) (v : pyval) (e : exn) :
  time_to_unix off v = Raise e -> catches_value_type e = true.
Proof.
  unfold time_to_unix. destruct v as [|z|s]; [discriminate| |].
  all: match goal with |- context [strptime ?x fmt_datetime] =>
         destruct (strptime x fmt_datetime) as [t|e1] eqn:H1 end;
    [discriminate|];
    rewrite (strptime_raises _ _ _ H1);
    match goal with |- context [strptime ?x fmt_date] =>
      destruct (strptime x fmt_date) as [t|e2] eqn:H2 end;
    [discriminate|];
    rewrite (strptime_raises _ _ _ H2);
    match goal with |- context [py_int ?x] =>
      destruct (py_int x) as [n|e3] eqn:H3 end;
    [discriminate|];
    intros H; inversion H; subst; exact (py_int_raises _ _ H3).
Qed.

Lemma normalise_raises (E : env) (cf : config) (e : exn) :
  normalise E cf = Raise e -> is_caught e = false.
Proof.
  unfold normalise.
  match goal with |- context [time_to_unix ?o ?x] =>
    destruct (time_to_unix o x) as [f|e1] eqn:H1 end; cbn [rbind].
  - match goal with |- context [time_to_unix ?o ?x] =>
      destruct (time_to_unix o x) as [t|e2] eqn:H2 end; cbn [rbind];
      [discriminate|].
    intros H; inversion H; subst. apply time_to_unix_raises in H2.
    destruct e; try discriminate; reflexivity.
  - intros H; inversion H; subst. apply time_to_unix_raises in H1.
    destruct e; try discriminate; reflexivity.
Qed.

Lemma handler_caught (cf : config) (e : exn) :
  handler cf e = None <-> is_caught e = false.
Proof. destruct e; simpl; split; congruence. Qed.

Lemma finish_status (e : exn) (st : state) status tr :
  finish e st = (status, tr) ->
  match status with
  | Normal => exists msg, last tr (EStdout "") = EPrint msg
  | Unhandled e' => is_caught e' = false
  end.
Proof.
  unfold finish. destruct (handler (cfg st) e) as [msg|] eqn:Hh;
    intros H; inversion H; subst.
  - exists msg. apply last_last.
  - now apply (handler_caught (cfg st)).
Qed.

(** ** C4 *)



(** ** C7 *)

(** C7. A batch call that raises ends the pagination loop at once with
    that exception, whatever has been accumulated; a first attempt that
    raises ConnectionError or APIError ends the download likewise; and at
    the top level such a failure prints its one message and ends normally,
    the output file neither opened nor written. *)
Theorem C7_all_or_nothing (E : env) :
  (forall k to from first acc st e st1,
     download_batch E st = (Raise e, st1) ->
     paginate (S k) E to from first acc st = Some (Raise e, st1))
  /\ (forall fuel st e st1,
        download_batch E st = (Raise e, st1) ->
        e = ConnectionError \/ (exists m, e = APIError m) ->
        download fuel E st = Some (Raise e, st1))
  /\ (forall fuel st e st1,
        download fuel E (emit (EPrint "Downloading candles...") st)
        = Some (Raise e, st1) ->
        e = ConnectionError \/ (exists m, e = APIError m) ->
        exists msg,
          handler (cfg st1) e = Some msg
          /\ run fuel E st = Some (Normal, trace st1 ++ [EPrint msg])
          /\ file_events (trace st1 ++ [EPrint msg]) = file_events (trace st)).
Proof.
  split; [|split].
  - intros k to from first acc st e st1 H. cbn [paginate]. now rewrite H.
  - intros fuel st e st1 H He. unfold download. rewrite H.
    destruct He as [->|[m ->]]; reflexivity.
  - intros fuel st e st1 H He.
    assert (Hh : exists msg, handler (cfg st1) e = Some msg).
    { destruct He as [->|[m ->]]; cbn [handler]; eauto. }
    destruct Hh as [msg Hh]. exists msg. split; [exact Hh|]. split.
    + unfold run. rewrite H. unfold finish. now rewrite Hh.
    + apply download_no_files in H. cbn [emit trace] in H.
      rewrite file_events_app in H |- *. rewrite H.
      cbn. now rewrite !app_nil_r.
Qed.

(** A service that cannot be reached: five attempts, one message, no file. *)
Lemma C7_all_or_nothing_witness :
  exists tr,
    run 1 (sample_env unreachable_api (sample_config (PyInt 0) (PyInt 9)))
        (mkState (sample_config (PyInt 0) (PyInt 9)) 0 [])
    = Some (Normal, tr)
    /\ file_events tr = []
    /\ last tr (EStdout "") = EPrint "Could not connect to api-fxtrade.oanda.com.".
Proof.
  destruct (proj2 (proj2 (C7_all_or_nothing
                            (sample_env unreachable_api
                               (sample_config (PyInt 0) (PyInt 9)))))
              1%nat (mkState (sample_config (PyInt 0) (PyInt 9)) 0 [])
              ConnectionError
              (snd (download_batch
                      (sample_env unreachable_api
                         (sample_config (PyInt 0) (PyInt 9)))
                      (emit (EPrint "Downloading candles...")
                         (mkState (sample_config (PyInt 0) (PyInt 9)) 0 []))))
              eq_refl (or_introl eq_refl))
    as (msg & Hmsg & Hrun & Hfiles).
  eexists. split; [exact Hrun|]. split; [exact Hfiles|].
  rewrite last_last. f_equal.
  cbn [handler] in Hmsg. inversion Hmsg. reflexivity.
Defined.

(** ** C8 *)

Lemma write_empty (E : env) (name : string) (st : state) :
  open_error E name = None ->
  write E name [] st = (Raise IndexError, emit (EOpen name) st).
Proof. unfold write. now intros ->. Qed.

(** An empty download result is not reported as "No results.": the output
    file is opened, [candles[0]] raises IndexError, and no handler of the
    top level names that class. *)
Lemma run_empty_result (fuel : nat) (E : env) (st st1 : state) :
  download fuel E (emit (EPrint "Downloading candles...") st)
  = Some (Ok [], st1) ->
  open_error E (output (cfg st1)) = None ->
  run fuel E st
  = Some (Unhandled IndexError,
          trace st1 ++ [EStdout clear_line; EPrint "Writing to csv file...";
                        EOpen (output (cfg st1))]).
Proof.
  intros Hd Ho. unfold run. rewrite Hd.
  cbn [emit cfg]. rewrite write_empty by exact Ho.
  cbn [finish handler emit trace cfg]. now rewrite <- !app_assoc.
Qed.

(** C8 (what the code does instead). A range that holds no candle: the
    service answers the one request with an empty list, the program opens
    the output file and ends with IndexError unhandled; "No results." is
    not printed. *)
Theorem C8_empty_result :
  exists tr,
    main 1 (sample_env (service utc 5000 three_sticks)
              (sample_config (PyInt 1550660000) (PyInt 1550670000)))
         "config.py"
    = Some (Unhandled IndexError, tr)
    /\ printed tr = ["Downloading candles..."; "Writing to csv file..."]%string
    /\ file_events tr = [EOpen "candles.csv"].
Proof.
  eexists. split; [|split].
  - vm_compute. reflexivity.
  - vm_compute. reflexivity.
  - vm_compute. reflexivity.
Qed.
(** ** One iteration of the pagination loop *)

(** An iteration that goes on has appended the whole batch, moved the
    window to the last candle and printed one bar; the start of the bar is
    the first candle of this batch on the first iteration and the start
    it was given otherwise. *)
Lemma process_batch_continue (E : env) (to from : pyval) (first : bool)
  (acc batch : list candle) (st st' : state) (res : list candle)
  (from' : pyval) :
  process_batch E to from first acc batch st = (Ok (Continue res from'), st') ->
  exists lct tlast bar,
    candle_unix E (last batch []) = Ok lct
    /\ lookup "time" (last batch []) = Ok tlast
    /\ (if first then candle_unix E (hd [] batch) else Ok from) = Ok from'
    /\ progress_bar from' lct to = Ok bar
    /\ res = acc ++ batch
    /\ st' = emit (EStdout cursor_up)
               (emit (EPrint bar) (update_cfg (set_from_time tlast) st)).
Proof.
  unfold process_batch.
  destruct (candle_unix E (last batch [])) as [lct|] eqn:Hl; [|discriminate].
  assert (Hmove :
    move_window E from first (acc ++ batch) batch lct to st
    = (Ok (Continue res from'), st') ->
    exists lct0 tlast bar,
      Ok lct = Ok lct0
      /\ lookup "time" (last batch []) = Ok tlast
      /\ (if first then candle_unix E (hd [] batch) else Ok from) = Ok from'
      /\ progress_bar from' lct0 to = Ok bar
      /\ res = acc ++ batch
      /\ st' = emit (EStdout cursor_up)
                 (emit (EPrint bar) (update_cfg (set_from_time tlast) st))).
  { unfold move_window.
    destruct (lookup "time" (last batch [])) as [tlast|]; [|discriminate].
    destruct (if first then candle_unix E (hd [] batch) else Ok from)
      as [f0|]; [|discriminate].
    destruct (progress_bar f0 lct to) as [bar|] eqn:Hbar; [|discriminate].
    intros H. inversion H; subst.
    exists lct, tlast, bar. auto 10. }
  destruct (negb (is_none to)).
  - destruct (py_le lct to) as [[|]|]; try discriminate.
    + exact Hmove.
    + destruct (truncate E to batch); discriminate.
  - exact Hmove.
Qed.

(** An iteration that does not go on prints nothing. *)
Lemma process_batch_quiet (E : env) (to from : pyval) (first : bool)
  (acc batch : list candle) (st : state) :
  (forall res from',
     fst (process_batch E to from first acc batch st) <> Ok (Continue res from')) ->
  trace (snd (process_batch E to from first acc batch st)) = trace st.
Proof.
  unfold process_batch.
  destruct (candle_unix E (last batch [])) as [lct|]; [|reflexivity].
  assert (Hmove :
    (forall res from',
       fst (move_window E from first (acc ++ batch) batch lct to st)
       <> Ok (Continue res from')) ->
    trace (snd (move_window E from first (acc ++ batch) batch lct to st))
    = trace st).
  { unfold move_window.
    destruct (lookup "time" (last batch [])); [|reflexivity].
    destruct (if first then candle_unix E (hd [] batch) else Ok from);
      [|reflexivity].
    destruct (progress_bar _ _ _); [|reflexivity].
    intros H. exfalso. eapply H. reflexivity. }
  destruct (negb (is_none to)).
  - destruct (py_le lct to) as [[|]|]; try reflexivity.
    + exact Hmove.
    + destruct (truncate E to batch); reflexivity.
  - exact Hmove.
Qed.

Lemma printed_app (a b : list event) : printed (a ++ b) = printed a ++ printed b.
Proof. apply flat_map_app. Qed.

Lemma printed_requests (kw : kwargs) (n : nat) :
  printed (EFetch kw :: repeat (ERequest kw) n) = [].
Proof. cbn. induction n as [|n IH]; simpl; auto. Qed.

(** Once the start of the bar is fixed, every bar of the rest of the run
    is drawn from it. *)
Lemma paginate_bars_later (E : env) (to : pyval) (fuel : nat) :
  forall from acc st r st',
    paginate fuel E to from false acc st = Some (r, st') ->
    exists tl,
      trace st' = trace st ++ tl
      /\ forall bar, In bar (printed tl) ->
                     exists lct, progress_bar from lct to = Ok bar.
Proof.
  induction fuel as [|k IH]; intros from acc st r st' H; [discriminate|].
  cbn [paginate] in H.
  destruct (download_batch_spec E st) as (n & _ & _ & _ & Htr & _).
  destruct (download_batch E st) as [rb st1]. cbn [snd] in Htr.
  assert (Hquiet : forall x, In x (printed (EFetch (build_kwargs (cfg st))
                     :: repeat (ERequest (build_kwargs (cfg st))) n)) -> False).
  { intros x. now rewrite printed_requests. }
  destruct rb as [[|cd rest]|e].
  - inversion H; subst. eexists. split; [exact Htr|].
    intros bar Hin. destruct (Hquiet _ Hin).
  - destruct (process_batch E to from false acc (cd :: rest) st1)
      as [rp st2] eqn:Hp.
    destruct rp as [[res|res from']|e].
    + pose proof (process_batch_quiet E to from false acc (cd :: rest) st1)
        as Hq. rewrite Hp in Hq. cbn [fst snd] in Hq.
      inversion H; subst. eexists. split.
      * rewrite Hq by discriminate. exact Htr.
      * intros bar Hin. destruct (Hquiet _ Hin).
    + destruct (process_batch_continue _ _ _ _ _ _ _ _ _ _ Hp)
        as (lct & tlast & bar0 & _ & _ & Hfrom & Hbar & _ & Hst).
      inversion Hfrom; subst from'.
      apply IH in H. destruct H as (tl & Htl & Hbars).
      exists ((EFetch (build_kwargs (cfg st))
               :: repeat (ERequest (build_kwargs (cfg st))) n)
              ++ [EPrint bar0; EStdout cursor_up] ++ tl).
      split.
      * rewrite Htl, Hst. cbn [emit trace update_cfg].
        rewrite Htr. now rewrite <- !app_assoc.
      * intros bar Hin. rewrite !printed_app in Hin.
        apply in_app_or in Hin. destruct Hin as [Hin|Hin];
          [destruct (Hquiet _ Hin)|].
        apply in_app_or in Hin. destruct Hin as [Hin|Hin].
        -- cbn in Hin. destruct Hin as [<-|[]]. eauto.
        -- auto.
    + pose proof (process_batch_quiet E to from false acc (cd :: rest) st1)
        as Hq. rewrite Hp in Hq. cbn [fst snd] in Hq.
      inversion H; subst. eexists. split.
      * rewrite Hq by discriminate. exact Htr.
      * intros bar Hin. destruct (Hquiet _ Hin).
  - inversion H; subst. eexists. split; [exact Htr|].
    intros bar Hin. destruct (Hquiet _ Hin).
Qed.

Lemma paginate_bars (E : env) (to : pyval) (fuel : nat) :
  forall from acc st r st',
    paginate fuel E to from true acc st = Some (r, st') ->
    exists tl,
      trace st' = trace st ++ tl
      /\ forall bar, In bar (printed tl) ->
                     exists start lct,
                       effective_start E st = Ok start
                       /\ progress_bar start lct to = Ok bar.
Proof.
  destruct fuel as [|k]; intros from acc st r st' H; [discriminate|].
  cbn [paginate] in H. unfold effective_start.
  destruct (download_batch_spec E st) as (n & _ & _ & _ & Htr & _).
  destruct (download_batch E st) as [rb st1]. cbn [fst snd] in *.
  assert (Hquiet : forall x, In x (printed (EFetch (build_kwargs (cfg st))
                     :: repeat (ERequest (build_kwargs (cfg st))) n)) -> False).
  { intros x. now rewrite printed_requests. }
  destruct rb as [[|cd rest]|e].
  - inversion H; subst. eexists. split; [exact Htr|].
    intros bar Hin. destruct (Hquiet _ Hin).
  - destruct (process_batch E to from true acc (cd :: rest) st1)
      as [rp st2] eqn:Hp.
    destruct rp as [[res|res from']|e].
    + pose proof (process_batch_quiet E to from true acc (cd :: rest) st1)
        as Hq. rewrite Hp in Hq. cbn [fst snd] in Hq.
      inversion H; subst. eexists. split.
      * rewrite Hq by discriminate. exact Htr.
      * intros bar Hin. destruct (Hquiet _ Hin).
    + destruct (process_batch_continue _ _ _ _ _ _ _ _ _ _ Hp)
        as (lct & tlast & bar0 & _ & _ & Hfrom & Hbar & _ & Hst).
      cbn [hd] in Hfrom.
      apply paginate_bars_later in H. destruct H as (tl & Htl & Hbars).
      exists ((EFetch (build_kwargs (cfg st))
               :: repeat (ERequest (build_kwargs (cfg st))) n)
              ++ [EPrint bar0; EStdout cursor_up] ++ tl).
      split.
      * rewrite Htl, Hst. cbn [emit trace update_cfg].
        rewrite Htr. now rewrite <- !app_assoc.
      * intros bar Hin. rewrite !printed_app in Hin.
        apply in_app_or in Hin. destruct Hin as [Hin|Hin];
          [destruct (Hquiet _ Hin)|].
        apply in_app_or in Hin. destruct Hin as [Hin|Hin].
        -- cbn in Hin. destruct Hin as [<-|[]]. eauto.
        -- destruct (Hbars _ Hin) as [l Hl]. eauto.
    + pose proof (process_batch_quiet E to from true acc (cd :: rest) st1)
        as Hq. rewrite Hp in Hq. cbn [fst snd] in Hq.
      inversion H; subst. eexists. split.
      * rewrite Hq by discriminate. exact Htr.
      * intros bar Hin. destruct (Hquiet _ Hin).
  - inversion H; subst. eexists. split; [exact Htr|].
    intros bar Hin. destruct (Hquiet _ Hin).
Qed.
(** ** The percentage *)

Lemma percentage_nonneg (num den : Z) :
  0 <= num -> 0 < den -> (0 <= percentage_of num den)%Q.
Proof.
  intros Hn Hd. unfold percentage_of.
  apply Qmult_le_0_compat; [|discriminate].
  unfold Qdiv. apply Qmult_le_0_compat.
  - unfold Qle. simpl. lia.
  - apply Qinv_le_0_compat. unfold Qle. simpl. lia.
Qed.

Lemma negative_false (num den : Z) : 0 <= num -> 0 < den -> negative num den = false.
Proof.
  intros Hn Hd. unfold negative.
  replace (num <? 0) with false by (symmetry; apply Z.ltb_ge; lia).
  replace (den <? 0) with false by (symmetry; apply Z.ltb_ge; lia).
  reflexivity.
Qed.

Lemma progress_bar_at_start (s e : Z) :
  s < e -> progress_bar (PyInt s) (PyInt s) (PyInt e) = Ok empty_bar.
Proof.
  intros H. rewrite progress_bar_ints.
  replace (e - s =? 0) with false by (symmetry; apply Z.eqb_neq; lia).
  rewrite Z.sub_diag.
  destruct (e - s) as [|p|p] eqn:Hd; try lia.
  reflexivity.
Qed.

(** ** C9 *)


(** ** Batches and the end time *)

Section EndTime.

Variable E : env.
Variable t : Z.

Lemma stamp_of_unix (cd : candle) (x : Z) :
  candle_unix E cd = Ok (PyInt x) -> stamp_of E cd = Some x.
Proof. unfold stamp_of. now intros ->. Qed.

Lemma unix_of_stamp (cd : candle) (x : Z) :
  stamp_of E cd = Some x -> candle_unix E cd = Ok (PyInt x).
Proof.
  unfold stamp_of. destruct (candle_unix E cd) as [[|z|s]|]; try discriminate.
  now intros [= ->].
Qed.

Lemma within_app (a b : list candle) :
  within E t (a ++ b) = within E t a && within E t b.
Proof. apply forallb_app. Qed.

(** In an ordered batch no candle is later than the last one. *)
Lemma ascending_last (batch : list candle) (tl : Z) :
  ascending E batch = true ->
  stamp_of E (last batch []) = Some tl ->
  forall cd x, In cd batch -> stamp_of E cd = Some x -> x <= tl.
Proof.
  induction batch as [|c0 r IH]; intros Hasc Hlast cd x Hin Hx; [destruct Hin|].
  cbn [ascending] in Hasc.
  destruct (stamp_of E c0) as [x0|] eqn:H0; [|discriminate].
  apply andb_prop in Hasc. destruct Hasc as [Hall Hr].
  destruct r as [|c1 r'].
  - destruct Hin as [<-|[]]. cbn [last] in Hlast.
    assert (x = tl) by congruence. lia.
  - change (last (c0 :: c1 :: r') []) with (last (c1 :: r') []) in Hlast.
    destruct Hin as [<-|Hin].
    + assert (Hx0 : x = x0) by congruence. subst x0.
      assert (Hl : In (last (c1 :: r') []) (c1 :: r')).
      { clear. generalize c1. induction r' as [|c2 r'' IH']; intros c.
        - left. reflexivity.
        - right. apply (IH' c2). }
      rewrite forallb_forall in Hall. specialize (Hall _ Hl).
      unfold not_before in Hall. rewrite Hlast in Hall.
      now apply Z.leb_le.
    + now apply (IH Hr Hlast cd x).
Qed.

(** A whole batch whose last candle is not later than [t] lies within
    [t]. *)
Lemma ascending_within (batch : list candle) (tl : Z) :
  ascending E batch = true ->
  stamp_of E (last batch []) = Some tl ->
  tl <= t ->
  within E t batch = true.
Proof.
  intros Hasc Hlast Hle. apply forallb_forall. intros cd Hin.
  unfold exceeds. destruct (stamp_of E cd) as [x|] eqn:Hx; [|reflexivity].
  pose proof (ascending_last batch tl Hasc Hlast cd x Hin Hx).
  apply negb_true_iff, Z.ltb_ge. lia.
Qed.

(** On an ordered batch the inner loop keeps exactly the candles that are
    not later than [t]. *)
Lemma truncate_filter (batch : list candle) :
  ascending E batch = true ->
  truncate E (PyInt t) batch
  = Ok (filter (fun cd => negb (exceeds E t cd)) batch).
Proof.
  induction batch as [|cd r IH]; intros Hasc; [reflexivity|].
  cbn [ascending] in Hasc.
  destruct (stamp_of E cd) as [x|] eqn:Hx; [|discriminate].
  apply andb_prop in Hasc. destruct Hasc as [Hall Hr].
  cbn [truncate filter]. unfold exceeds at 1. rewrite Hx.
  rewrite (unix_of_stamp _ _ Hx). cbn [rbind py_le].
  destruct (x <=? t) eqn:Hle.
  - apply Z.leb_le in Hle.
    replace (t <? x) with false by (symmetry; apply Z.ltb_ge; lia).
    cbn [negb]. now rewrite (IH Hr).
  - apply Z.leb_gt in Hle.
    replace (t <? x) with true by (symmetry; apply Z.ltb_lt; lia).
    cbn [negb]. f_equal. symmetry.
    clear IH Hr. induction r as [|c1 r' IH']; [reflexivity|].
    cbn [forallb] in Hall. apply andb_prop in Hall. destruct Hall as [H1 Hall].
    cbn [filter]. unfold exceeds at 1. unfold not_before in H1.
    destruct (stamp_of E c1) as [y|]; [|discriminate].
    apply Z.leb_le in H1.
    replace (t <? y) with true by (symmetry; apply Z.ltb_lt; lia).
    cbn [negb]. now apply IH'.
Qed.

Lemma truncate_within (batch kept : list candle) :
  truncate E (PyInt t) batch = Ok kept -> within E t kept = true.
Proof.
  revert kept. induction batch as [|cd r IH]; intros kept H.
  - inversion H. reflexivity.
  - cbn [truncate] in H.
    destruct (candle_unix E cd) as [v|] eqn:Hu; [|discriminate].
    cbn [rbind] in H. destruct v as [|x|s]; try discriminate.
    cbn [py_le rbind] in H. destruct (x <=? t) eqn:Hle.
    + destruct (truncate E (PyInt t) r) as [rest|]; [|discriminate].
      cbn [rbind] in H. inversion H; subst. cbn [within forallb].
      unfold exceeds. rewrite (stamp_of_unix _ _ Hu).
      apply Z.leb_le in Hle.
      replace (t <? x) with false by (symmetry; apply Z.ltb_ge; lia).
      cbn [negb andb]. now apply IH.
    + inversion H. reflexivity.
Qed.

Hypothesis Hordered : ordered_batches E.

(** One iteration keeps the accumulated result within [t]. *)
Lemma process_batch_within (from : pyval) (first : bool)
  (acc batch : list candle) (st st' : state) (out : step_outcome) :
  ascending E batch = true ->
  within E t acc = true ->
  process_batch E (PyInt t) from first acc batch st = (Ok out, st') ->
  match out with
  | Stop res => within E t res = true
  | Continue res _ => within E t res = true
  end.
Proof.
  intros Hasc Hacc H.
  destruct out as [res|res from'].
  - unfold process_batch in H.
    destruct (candle_unix E (last batch [])) as [lct|]; [|discriminate].
    cbn [is_none negb] in H.
    destruct (py_le lct (PyInt t)) as [[|]|]; try discriminate.
    + unfold move_window in H.
      destruct (lookup "time" (last batch [])); [|discriminate].
      destruct (if first then candle_unix E (hd [] batch) else Ok from);
        [|discriminate].
      destruct (progress_bar _ _ _); discriminate.
    + destruct (truncate E (PyInt t) batch) as [kept|] eqn:Htr; [|discriminate].
      inversion H; subst. rewrite within_app, Hacc.
      now apply truncate_within in Htr.
  - assert (Hle : exists lct, candle_unix E (last batch []) = Ok lct
                              /\ py_le lct (PyInt t) = Ok true).
    { unfold process_batch in H.
      destruct (candle_unix E (last batch [])) as [lct|]; [|discriminate].
      cbn [is_none negb] in H. exists lct. split; [reflexivity|].
      destruct (py_le lct (PyInt t)) as [[|]|]; try discriminate; auto.
      destruct (truncate E (PyInt t) batch); discriminate. }
    destruct Hle as (lct & Hl & Hle).
    destruct lct as [|tl|s]; try discriminate.
    cbn [py_le] in Hle. injection Hle as Hle'.
    apply Z.leb_le in Hle'.
    destruct (process_batch_continue _ _ _ _ _ _ _ _ _ _ H)
      as (_ & _ & _ & _ & _ & _ & _ & -> & _).
    rewrite within_app, Hacc.
    now apply (ascending_within batch tl Hasc (stamp_of_unix _ _ Hl)).
Qed.

(** The accumulated result of the pagination loop stays within [t]. *)
Lemma paginate_within (fuel : nat) :
  forall from first acc st res st',
    within E t acc = true ->
    paginate fuel E (PyInt t) from first acc st = Some (Ok res, st') ->
    within E t res = true.
Proof.
  induction fuel as [|k IH]; intros from first acc st res st' Hacc H;
    [discriminate|].
  cbn [paginate] in H.
  destruct (download_batch E st) as [rb st1] eqn:Hb.
  destruct rb as [[|cd rest]|e]; try discriminate.
  - inversion H; subst. exact Hacc.
  - pose proof (Hordered _ _ _ Hb) as Hasc.
    destruct (process_batch E (PyInt t) from first acc (cd :: rest) st1)
      as [rp st2] eqn:Hp.
    destruct rp as [out|e]; [|discriminate].
    pose proof (process_batch_within _ _ _ _ _ _ _ Hasc Hacc Hp) as Hout.
    destruct out as [res'|res' from'].
    + inversion H; subst. exact Hout.
    + eapply IH; eauto.
Qed.

(** A batch whose last candle is later than [t] is cut at [t] and ends the
    loop, in the state the batch call left. *)
Lemma paginate_truncates (k : nat) (from : pyval) (first : bool)
  (acc batch : list candle) (st st1 : state) (tl : Z) :
  download_batch E st = (Ok batch, st1) ->
  candle_unix E (last batch []) = Ok (PyInt tl) ->
  t < tl ->
  paginate (S k) E (PyInt t) from first acc st
  = Some (Ok (acc ++ filter (fun cd => negb (exceeds E t cd)) batch), st1).
Proof.
  intros Hb Hl Hlt. cbn [paginate]. rewrite Hb.
  pose proof (Hordered _ _ _ Hb) as Hasc.
  destruct batch as [|cd rest].
  - cbn in Hl. discriminate.
  - unfold process_batch. rewrite Hl. cbn [is_none negb py_le].
    replace (tl <=? t) with false by (symmetry; apply Z.leb_gt; lia).
    now rewrite (truncate_filter _ Hasc).
Qed.

Hypothesis Hhonours : honours_to_time E.

Lemma download_within (fuel : nat) (st : state) (res : list candle)
  (st' : state) :
  count (cfg st) = None ->
  to_time (cfg st) = PyInt t ->
  download fuel E st = Some (Ok res, st') ->
  within E t res = true.
Proof.
  intros Hc Ht H. unfold download in H.
  destruct (download_batch_spec E st) as (n & _ & Hcfg & _).
  destruct (download_batch E st) as [rb st1] eqn:Hb. cbn [snd] in Hcfg.
  destruct rb as [batch|e].
  - inversion H; subst. eapply Hhonours; [exact Hb|].
    unfold build_kwargs. cbn [kw_toTime]. now rewrite Hc, Ht.
  - destruct (is_MaxCountError e); [|discriminate].
    rewrite Hcfg, Ht in H.
    eapply paginate_within; [|exact H]. reflexivity.
Qed.

End EndTime.

(** ** C2 *)

(** ** Lists ordered by a key *)

Section Keyed.

Variable A : Type.
Variable key : A -> Z.


Lemma increasing_sorted (l : list A) :
  increasing (map key l) = true -> StronglySorted (key_lt A key) l.
Proof.
  induction l as [|a r IH]; intros H; [constructor|].
  destruct r as [|b r'].
  - constructor; constructor.
  - cbn [map increasing] in H. apply andb_prop in H. destruct H as [Hab Hr].
    apply Z.ltb_lt in Hab. specialize (IH Hr).
    constructor; [exact IH|].
    apply StronglySorted_inv in IH. destruct IH as [_ Hall].
    constructor; [exact Hab|].
    rewrite Forall_forall in Hall |- *. intros x Hx.
    specialize (Hall x Hx). unfold key_lt in *. lia.
Qed.

Lemma sorted_increasing (l : list A) :
  StronglySorted (key_lt A key) l -> increasing (map key l) = true.
Proof.
  induction 1 as [|a r Hs IH Hall]; [reflexivity|].
  destruct r as [|b r']; [reflexivity|].
  cbn [map increasing]. apply andb_true_intro. split; [|exact IH].
  apply Z.ltb_lt. rewrite Forall_forall in Hall. apply Hall. now left.
Qed.

Lemma sorted_filter (p : A -> bool) (l : list A) :
  StronglySorted (key_lt A key) l -> StronglySorted (key_lt A key) (filter p l).
Proof.
  induction 1 as [|a r Hs IH Hall]; [constructor|].
  cbn [filter]. destruct (p a); [|exact IH].
  constructor; [exact IH|].
  rewrite Forall_forall in Hall |- *. intros x Hx.
  apply filter_In in Hx. now apply Hall.
Qed.

Lemma sorted_app_inv (l1 l2 : list A) :
  StronglySorted (key_lt A key) (l1 ++ l2) ->
  StronglySorted (key_lt A key) l1 /\ StronglySorted (key_lt A key) l2
  /\ forall x y, In x l1 -> In y l2 -> key x < key y.
Proof.
  induction l1 as [|a r IH]; cbn [app]; intros H.
  - split; [constructor|]. split; [exact H|]. intros x y [].
  - apply StronglySorted_inv in H. destruct H as [Hs Hall].
    destruct (IH Hs) as (H1 & H2 & H12).
    rewrite Forall_forall in Hall.
    split; [|split; [exact H2|]].
    + constructor; [exact H1|]. apply Forall_forall. intros x Hx.
      apply Hall. apply in_or_app. now left.
    + intros x y [<-|Hx] Hy.
      * apply Hall. apply in_or_app. now right.
      * now apply H12.
Qed.

Lemma last_in (l : list A) (d : A) : l <> [] -> In (last l d) l.
Proof.
  induction l as [|a r IH]; [congruence|]. intros _.
  destruct r as [|b r']; [now left|].
  right. apply IH. discriminate.
Qed.

Lemma sorted_le_last (l : list A) (d : A) :
  StronglySorted (key_lt A key) l ->
  forall x, In x l -> key x <= key (last l d).
Proof.
  induction 1 as [|a r Hs IH Hall]; intros x Hx; [destruct Hx|].
  destruct r as [|b r'].
  - destruct Hx as [<-|[]]. cbn. lia.
  - change (last (a :: b :: r') d) with (last (b :: r') d).
    destruct Hx as [<-|Hx]; [|now apply IH].
    rewrite Forall_forall in Hall.
    assert (Hl : In (last (b :: r') d) (b :: r')) by (apply last_in; discriminate).
    specialize (Hall _ Hl). unfold key_lt in Hall. lia.
Qed.

Lemma sorted_hd_lt_last (a b : A) (r : list A) (d : A) :
  StronglySorted (key_lt A key) (a :: b :: r) -> key a < key (last (a :: b :: r) d).
Proof.
  intros H. apply StronglySorted_inv in H. destruct H as [_ Hall].
  rewrite Forall_forall in Hall.
  change (last (a :: b :: r) d) with (last (b :: r) d).
  apply Hall. apply last_in. discriminate.
Qed.

Lemma filter_all (p : A -> bool) (l : list A) :
  (forall x, In x l -> p x = true) -> filter p l = l.
Proof.
  induction l as [|a r IH]; intros H; [reflexivity|].
  cbn [filter]. rewrite (H a) by now left.
  f_equal. apply IH. intros x Hx. apply H. now right.
Qed.

Lemma filter_none (p : A -> bool) (l : list A) :
  (forall x, In x l -> p x = false) -> filter p l = [].
Proof.
  induction l as [|a r IH]; intros H; [reflexivity|].
  cbn [filter]. rewrite (H a) by now left.
  apply IH. intros x Hx. apply H. now right.
Qed.

Lemma filter_filter_implies (p q : A -> bool) (l : list A) :
  (forall x, In x l -> p x = true -> q x = true) ->
  filter p (filter q l) = filter p l.
Proof.
  induction l as [|a r IH]; intros H; [reflexivity|].
  cbn [filter]. destruct (q a) eqn:Hq.
  - cbn [filter]. destruct (p a); [f_equal|];
      apply IH; intros x Hx; apply H; now right.
  - destruct (p a) eqn:Hp.
    + rewrite (H a) in Hq by (auto; now left). discriminate.
    + apply IH. intros x Hx. apply H. now right.
Qed.

(** A page of an ordered list: its first [n] elements. The page is not
    empty; [lst] is its last element. What is strictly after [lst] is the
    rest of the list. *)
Lemma page_rest (n : nat) (l : list A) (d : A) :
  StronglySorted (key_lt A key) l ->
  firstn n l <> [] ->
  filter (fun x => key (last (firstn n l) d) <? key x) l = skipn n l.
Proof.
  intros Hs Hne.
  rewrite <- (firstn_skipn n l) in Hs.
  destruct (sorted_app_inv _ _ Hs) as (H1 & H2 & H12).
  assert (Hf : filter (fun x => key (last (firstn n l) d) <? key x)
                 (firstn n l ++ skipn n l) = skipn n l).
  { rewrite filter_app.
    rewrite filter_none, filter_all; [reflexivity| |].
    - intros x Hx. apply Z.ltb_lt. apply H12; [|exact Hx].
      now apply last_in.
    - intros x Hx. apply Z.ltb_ge. now apply sorted_le_last. }
  now rewrite firstn_skipn in Hf.
Qed.

Lemma filter_map_comm (B : Type) (f : A -> B) (p : B -> bool) (l : list A) :
  filter p (map f l) = map f (filter (fun x => p (f x)) l).
Proof.
  induction l as [|a r IH]; [reflexivity|].
  cbn [map filter]. destruct (p (f a)); cbn [map]; now rewrite IH.
Qed.

Lemma last_map (B : Type) (f : A -> B) (l : list A) (d : A) (e : B) :
  l <> [] -> last (map f l) e = f (last l d).
Proof.
  induction l as [|a r IH]; [congruence|]. intros _.
  destruct r as [|b r']; [reflexivity|].
  change (last (map f (a :: b :: r')) e) with (last (map f (b :: r')) e).
  change (last (a :: b :: r') d) with (last (b :: r') d).
  apply IH. discriminate.
Qed.

End Keyed.
(** ** Records of candlesticks *)

Lemma convert_candle_time (pr : string) (cs : candlestick) (r : candle) :
  convert_candle pr cs = Ok r ->
  lookup "time" r = Ok (PyStr (time_crop_fraction (cs_time cs))).
Proof.
  unfold convert_candle.
  destruct (price_fields pr "A" _ _) as [a|]; cbn [rbind]; [|discriminate].
  destruct (price_fields pr "B" _ _) as [b|]; cbn [rbind]; [|discriminate].
  destruct (price_fields pr "M" _ _) as [m|]; cbn [rbind]; [|discriminate].
  intros H. inversion H. reflexivity.
Qed.

Lemma record_convert (pr : string) (cs : candlestick) :
  supplied pr cs = true -> convert_candle pr cs = Ok (record pr cs).
Proof.
  unfold supplied, record. destruct (convert_candle pr cs); [reflexivity|discriminate].
Qed.

Lemma convert_candles_map (pr : string) (l : list candlestick) :
  forallb (supplied pr) l = true ->
  convert_candles pr l = Ok (map (record pr) l).
Proof.
  induction l as [|cs r IH]; intros H; [reflexivity|].
  cbn [forallb] in H. apply andb_prop in H. destruct H as [Hc Hr].
  cbn [convert_candles map]. rewrite (record_convert _ _ Hc), (IH Hr).
  reflexivity.
Qed.

Lemma convert_candles_inv (pr : string) (l : list candlestick)
  (batch : list candle) :
  convert_candles pr l = Ok batch ->
  Forall2 (fun cs r => convert_candle pr cs = Ok r) l batch.
Proof.
  revert batch. induction l as [|cs r IH]; intros batch H.
  - inversion H. constructor.
  - cbn [convert_candles] in H.
    destruct (convert_candle pr cs) as [x|] eqn:Hx; [|discriminate].
    cbn [rbind] in H.
    destruct (convert_candles pr r) as [xs|]; [|discriminate].
    cbn [rbind] in H. inversion H; subst. constructor; auto.
Qed.

Lemma read_response_ok (pr : string) (r : response) (batch : list candle) :
  read_response pr r = Ok batch ->
  status r = 200
  /\ exists cl, candles r = Some cl /\ convert_candles pr cl = Ok batch.
Proof.
  unfold read_response.
  destruct (status r =? 200) eqn:Hs; cbn [negb].
  - apply Z.eqb_eq in Hs. intros H. split; [exact Hs|].
    destruct (candles r) as [cl|]; [|discriminate]. eauto.
  - destruct (errorMessage r) as [m|]; cbn [body_get rbind]; [|discriminate].
    destruct (String.eqb m too_many); discriminate.
Qed.

Lemma unix_of_int (off : Z -> Z) (z : Z) : unix_of off (PyInt z) = Some z.
Proof. reflexivity. Qed.

Lemma unix_of_none (off : Z -> Z) : unix_of off PyNone = None.
Proof. reflexivity. Qed.

Lemma firstn_In (A : Type) (n : nat) (l : list A) (x : A) :
  In x (firstn n l) -> In x l.
Proof.
  intros H. rewrite <- (firstn_skipn n l). apply in_or_app. now left.
Qed.

Lemma sorted_firstn (A : Type) (key : A -> Z) (n : nat) (l : list A) :
  StronglySorted (key_lt A key) l -> StronglySorted (key_lt A key) (firstn n l).
Proof.
  intros H. rewrite <- (firstn_skipn n l) in H.
  now destruct (sorted_app_inv _ _ _ _ H).
Qed.

(** ** The client against the service *)

Section Service.

Variable off : Z -> Z.
Variable limit : Z.
Variable data : list candlestick.
Variable E : env.

Hypothesis Hapi : api E = service off limit data.
Hypothesis Hoff : utcoffset E = off.

Local Abbreviation ts := (stamp off).
Local Abbreviation sorted := (StronglySorted (key_lt candlestick (stamp off))).

Lemma converted_stamp (pr : string) (cs : candlestick) (r : candle) (x : Z) :
  convert_candle pr cs = Ok r -> stamp_of E r = Some x -> x = ts cs.
Proof.
  intros Hc. unfold stamp_of, candle_unix.
  rewrite (convert_candle_time _ _ _ Hc). cbn [rbind]. rewrite Hoff.
  unfold stamp, unix_of.
  destruct (time_to_unix off _) as [[|z|s]|]; try discriminate.
  now intros [= ->].
Qed.

Lemma converted_parseable (pr : string) (cs : candlestick) (r : candle) :
  convert_candle pr cs = Ok r -> parseable off cs = true ->
  stamp_of E r = Some (ts cs).
Proof.
  intros Hc. unfold parseable, stamp_of, candle_unix.
  rewrite (convert_candle_time _ _ _ Hc). cbn [rbind]. rewrite Hoff.
  unfold stamp, unix_of.
  destruct (time_to_unix off _) as [[|z|s]|]; try discriminate.
  reflexivity.
Qed.

Lemma record_unix (pr : string) (cs : candlestick) :
  supplied pr cs = true -> parseable off cs = true ->
  candle_unix E (record pr cs) = Ok (PyInt (ts cs)).
Proof.
  intros Hs Hp. apply unix_of_stamp.
  apply (converted_parseable pr); [now apply record_convert|exact Hp].
Qed.

Lemma record_time_unix (cs : candlestick) :
  parseable off cs = true ->
  unix_of off (PyStr (time_crop_fraction (cs_time cs))) = Some (ts cs).
Proof.
  unfold parseable, stamp.
  destruct (unix_of off _); [reflexivity|discriminate].
Qed.

Lemma converted_not_before (pr : string) (x : Z) (sel : list candlestick)
  (batch : list candle) :
  Forall2 (fun cs r => convert_candle pr cs = Ok r) sel batch ->
  (forall cs, In cs sel -> parseable off cs = true /\ x <= ts cs) ->
  forallb (not_before E x) batch = true.
Proof.
  induction 1 as [|cs r sel' batch' Hc Hrest IH]; intros H; [reflexivity|].
  cbn [forallb]. apply andb_true_intro. split.
  - destruct (H cs (or_introl eq_refl)) as [Hp Hle].
    unfold not_before. rewrite (converted_parseable _ _ _ Hc Hp).
    now apply Z.leb_le.
  - apply IH. intros cs' Hin. apply H. now right.
Qed.

Lemma converted_ascending (pr : string) (sel : list candlestick)
  (batch : list candle) :
  Forall2 (fun cs r => convert_candle pr cs = Ok r) sel batch ->
  sorted sel ->
  (forall cs, In cs sel -> parseable off cs = true) ->
  ascending E batch = true.
Proof.
  induction 1 as [|cs r sel' batch' Hc Hrest IH]; intros Hs Hp; [reflexivity|].
  apply StronglySorted_inv in Hs. destruct Hs as [Hs Hall].
  cbn [ascending].
  rewrite (converted_parseable _ _ _ Hc (Hp cs (or_introl eq_refl))).
  apply andb_true_intro. split.
  - apply (converted_not_before pr _ sel'); [exact Hrest|].
    intros cs' Hin. split; [apply Hp; now right|].
    rewrite Forall_forall in Hall. specialize (Hall _ Hin).
    unfold key_lt in Hall. lia.
  - apply IH; [exact Hs|]. intros cs' Hin. apply Hp. now right.
Qed.

Lemma converted_within (pr : string) (t : Z) (sel : list candlestick)
  (batch : list candle) :
  Forall2 (fun cs r => convert_candle pr cs = Ok r) sel batch ->
  (forall cs, In cs sel -> ts cs <= t) ->
  within E t batch = true.
Proof.
  induction 1 as [|cs r sel' batch' Hc Hrest IH]; intros H; [reflexivity|].
  cbn [within forallb]. apply andb_true_intro. split.
  - unfold exceeds. destruct (stamp_of E r) as [x|] eqn:Hx; [|reflexivity].
    apply (converted_stamp _ _ _ _ Hc) in Hx. subst x.
    apply negb_true_iff, Z.ltb_ge. apply H. now left.
  - apply IH. intros cs' Hin. apply H. now right.
Qed.

(** What the service answers with: candlesticks it holds, in their order,
    and none after the end time when the request carries one. *)
Lemma serve_answer (kw : kwargs) (r : response) :
  serve off limit data kw = Returns r ->
  status r = 200 ->
  exists sel,
    candles r = Some sel
    /\ (sorted data -> sorted sel)
    /\ (forall cs, In cs sel -> In cs data)
    /\ (forall t, kw_count kw = None -> kw_toTime kw = Some (PyInt t) ->
                  forall cs, In cs sel -> ts cs <= t).
Proof.
  unfold serve, bad_request.
  destruct (unix_of off (kw_fromTime kw)) as [f|];
    [|intros H; injection H as <-; cbn; discriminate].
  set (after := filter _ data).
  assert (Hafter_s : sorted data -> sorted after)
    by (intros; now apply sorted_filter).
  assert (Hafter_in : forall cs, In cs after -> In cs data)
    by (intros cs Hin; now apply filter_In in Hin).
  destruct (kw_count kw) as [n|].
  - destruct (limit <? n); intros H; injection H as <-; cbn; [discriminate|].
    intros _. eexists. split; [reflexivity|]. split; [|split].
    + intros Hs. apply sorted_firstn. auto.
    + intros cs Hin. apply Hafter_in. eapply firstn_In; eauto.
    + discriminate.
  - match goal with |- context [limit <? Z.of_nat (List.length ?u)] =>
      set (upto := u) end.
    destruct (limit <? _); intros H; injection H as <-; cbn; [discriminate|].
    intros _. exists upto. split; [reflexivity|].
    subst upto. destruct (kw_toTime kw) as [v|].
    + destruct (unix_of off v) as [t0|] eqn:Hv.
      * split; [|split].
        -- intros Hs. apply sorted_filter. auto.
        -- intros cs Hin. apply filter_In in Hin. apply Hafter_in, Hin.
        -- intros t _ [= ->] cs Hin. rewrite unix_of_int in Hv.
           injection Hv as <-. apply filter_In in Hin.
           now apply Z.leb_le.
      * split; [auto|]. split; [auto|].
        intros t _ [= ->]. rewrite unix_of_int in Hv. discriminate.
    + split; [auto|]. split; [auto|]. intros t _. discriminate.
Qed.

Lemma download_batch_service (st : state) (batch : list candle) (st1 : state) :
  download_batch E st = (Ok batch, st1) ->
  exists sel,
    Forall2 (fun cs r => convert_candle (price (cfg st)) cs = Ok r) sel batch
    /\ (sorted data -> sorted sel)
    /\ (forall cs, In cs sel -> In cs data)
    /\ (forall t, kw_toTime (build_kwargs (cfg st)) = Some (PyInt t) ->
                  forall cs, In cs sel -> ts cs <= t).
Proof.
  intros H.
  destruct (download_batch_spec E st) as (n & _ & _ & _ & _ & _ & Hres).
  rewrite H in Hres. cbn [fst] in Hres.
  destruct Hres as [(resp & Hlast & Hr)|[(_ & Hr & _)|(e & _ & _ & Hr)]];
    try discriminate.
  rewrite Hapi in Hlast. unfold service in Hlast.
  symmetry in Hr. apply read_response_ok in Hr.
  destruct Hr as (H200 & cl & Hcl & Hconv).
  destruct (serve_answer _ _ Hlast H200) as (sel & Hsel & Hs & Hin & Hto).
  rewrite Hcl in Hsel. inversion Hsel; subst cl.
  exists sel. split; [now apply convert_candles_inv|].
  split; [exact Hs|]. split; [exact Hin|].
  intros t Ht. apply Hto; [|exact Ht].
  unfold build_kwargs in Ht |- *. cbn [kw_toTime kw_count] in *.
  destruct (count (cfg st)); [discriminate|reflexivity].
Qed.

Hypothesis Hparse : forallb (parseable off) data = true.
Hypothesis Hsorted : sorted data.

Lemma service_ordered : ordered_batches E.
Proof.
  intros st batch st1 H.
  destruct (download_batch_service _ _ _ H) as (sel & Hconv & Hs & Hin & _).
  apply (converted_ascending (price (cfg st)) sel); auto.
  intros cs Hcs. rewrite forallb_forall in Hparse. auto.
Qed.

Lemma service_honours : honours_to_time E.
Proof.
  intros st batch st1 t H Ht.
  destruct (download_batch_service _ _ _ H) as (sel & Hconv & _ & _ & Hto).
  apply (converted_within (price (cfg st)) _ sel); auto.
Qed.

Variable pr : string.
Variable t : Z.

Hypothesis Hsupplied : forallb (supplied pr) data = true.

Lemma fetched_in_data (cur : Z) (cs : candlestick) :
  In cs (unbounded_fetch off cur data) -> In cs data /\ cur < ts cs.
Proof.
  unfold unbounded_fetch. intros H. apply filter_In in H.
  destruct H as [H1 H2]. split; [exact H1|now apply Z.ltb_lt].
Qed.

Lemma in_data_parseable (cs : candlestick) : In cs data -> parseable off cs = true.
Proof. revert cs. now apply forallb_forall. Qed.

Lemma in_data_supplied (cs : candlestick) : In cs data -> supplied pr cs = true.
Proof. revert cs. now apply forallb_forall. Qed.

(** The inner loop on the records of a page. *)
Lemma truncate_records (page : list candlestick) :
  sorted page ->
  (forall cs, In cs page -> In cs data) ->
  truncate E (PyInt t) (map (record pr) page)
  = Ok (map (record pr) (filter (fun cs => ts cs <=? t) page)).
Proof.
  intros Hs Hin.
  assert (Hconv : Forall2 (fun cs r => convert_candle pr cs = Ok r) page
                    (map (record pr) page)).
  { apply convert_candles_inv, convert_candles_map.
    apply forallb_forall. intros cs Hcs. apply in_data_supplied. auto. }
  rewrite truncate_filter.
  - f_equal. rewrite filter_map_comm. f_equal.
    apply filter_ext_in. intros cs Hcs.
    unfold exceeds.
    rewrite (converted_parseable pr cs (record pr cs)).
    + rewrite Z.leb_antisym. reflexivity.
    + apply record_convert, in_data_supplied. auto.
    + apply in_data_parseable. auto.
  - apply (converted_ascending pr page); auto.
    intros cs Hcs. apply in_data_parseable. auto.
Qed.

(** A request by range that covers more candles than the service allows
    in one answer is refused, which the Batch Fetcher reports as
    MaxCountError. *)
Lemma download_batch_refused (st : state) (f : Z) :
  count (cfg st) = None ->
  from_time (cfg st) = PyInt f ->
  to_time (cfg st) = PyInt t ->
  limit < Z.of_nat (List.length (window off f t data)) ->
  download_batch E st
  = (Raise MaxCountError,
     mkState (cfg st) (S (requests st))
       (trace st ++ [EFetch (build_kwargs (cfg st));
                     ERequest (build_kwargs (cfg st))])).
Proof.
  intros Hc Hf Ht Hmany. unfold download_batch.
  cbn [get_response]. unfold call_api. cbn [emit cfg requests trace].
  rewrite Hapi. unfold service, serve.
  set (kw := build_kwargs (cfg st)).
  assert (Hk1 : kw_fromTime kw = PyInt f) by exact Hf.
  assert (Hk2 : kw_count kw = None) by exact Hc.
  assert (Hk3 : kw_includeFirst kw = false) by reflexivity.
  assert (Hk4 : kw_toTime kw = Some (PyInt t)).
  { subst kw. unfold build_kwargs. cbn [kw_toTime]. now rewrite Hc, Ht. }
  rewrite Hk1, Hk2, Hk3, Hk4, !unix_of_int.
  fold (unbounded_fetch off f data). fold (window off f t data).
  replace (limit <? Z.of_nat (List.length (window off f t data))) with true
    by (symmetry; apply Z.ltb_lt; lia).
  unfold bad_request, read_response. cbn [status candles errorMessage].
  change (400 =? 200) with false. cbn [negb body_get rbind].
  change (String.eqb too_many too_many) with true.
  now rewrite <- app_assoc.
Qed.

(** A request without count and without end time, to a service that may
    answer with all it holds, is answered with everything after the
    start. *)
Lemma download_batch_unbounded (st : state) (f : Z) :
  Z.of_nat (List.length data) <= limit ->
  count (cfg st) = None ->
  price (cfg st) = pr ->
  from_time (cfg st) = PyInt f ->
  to_time (cfg st) = PyNone ->
  fst (download_batch E st)
  = Ok (map (record pr) (unbounded_fetch off f data)).
Proof.
  intros Hall Hc Hp Hf Ht. unfold download_batch.
  cbn [get_response]. unfold call_api. cbn [emit cfg requests trace].
  rewrite Hapi. unfold service, serve.
  set (kw := build_kwargs (cfg st)).
  assert (Hk1 : kw_fromTime kw = PyInt f) by exact Hf.
  assert (Hk2 : kw_count kw = None) by exact Hc.
  assert (Hk3 : kw_includeFirst kw = false) by reflexivity.
  assert (Hk4 : kw_toTime kw = Some PyNone).
  { subst kw. unfold build_kwargs. cbn [kw_toTime]. now rewrite Hc, Ht. }
  rewrite Hk1, Hk2, Hk3, Hk4, unix_of_int, unix_of_none.
  fold (unbounded_fetch off f data).
  replace (limit <? Z.of_nat (List.length (unbounded_fetch off f data)))
    with false.
  - unfold read_response. cbn [fst status candles errorMessage].
    change (200 =? 200) with true. cbn [negb body_get rbind].
    rewrite Hp. apply convert_candles_map.
    apply forallb_forall. intros cs Hin.
    apply in_data_supplied. now apply fetched_in_data in Hin.
  - symmetry. apply Z.ltb_ge.
    pose proof (filter_length_le (fun cs => f <? ts cs) data).
    unfold unbounded_fetch. lia.
Qed.

(** The window of a request is open on the left: a batch holds only
    candles strictly after the start time of the configuration. *)
Lemma download_batch_open_left (st : state) (batch : list candle)
  (st1 : state) (cur : Z) :
  download_batch E st = (Ok batch, st1) ->
  unix_of off (from_time (cfg st)) = Some cur ->
  forall cd x, In cd batch -> stamp_of E cd = Some x -> cur < x.
Proof.
  intros H Hcur.
  destruct (download_batch_spec E st) as (m & _ & _ & _ & _ & _ & Hres).
  rewrite H in Hres. cbn [fst] in Hres.
  destruct Hres as [(resp & Hlast & Hr)|[(_ & Hr & _)|(e & _ & _ & Hr)]];
    try discriminate.
  rewrite Hapi in Hlast. unfold service, serve in Hlast.
  set (kw := build_kwargs (cfg st)) in *.
  assert (Hk1 : kw_fromTime kw = from_time (cfg st)) by reflexivity.
  assert (Hk3 : kw_includeFirst kw = false) by reflexivity.
  rewrite Hk1, Hk3, Hcur in Hlast.
  symmetry in Hr. apply read_response_ok in Hr.
  destruct Hr as (H200 & cl & Hcl & Hconv).
  apply convert_candles_inv in Hconv.
  assert (Hsel : forall cs, In cs cl -> cur < ts cs).
  { set (after := filter (fun cs => cur <? ts cs) data) in Hlast.
    assert (Ha : forall cs, In cs after -> cur < ts cs).
    { intros cs Hin. apply filter_In in Hin. now apply Z.ltb_lt. }
    destruct (kw_count kw) as [c|].
    - destruct (limit <? c); injection Hlast as <-; cbn in H200, Hcl;
        [discriminate|].
      injection Hcl as <-. intros cs Hin. apply Ha. eapply firstn_In; eauto.
    - match type of Hlast with context [List.length ?u] => set (upto := u) in * end.
      assert (Hu : forall cs, In cs upto -> cur < ts cs).
      { subst upto. destruct (kw_toTime kw) as [v|]; auto.
        destruct (unix_of off v); auto.
        intros cs Hin. apply filter_In in Hin. apply Ha, Hin. }
      destruct (limit <? _); injection Hlast as <-; cbn in H200, Hcl;
        [discriminate|].
      injection Hcl as <-. exact Hu. }
  clear Hlast Hcl H.
  induction Hconv as [|cs r cl' batch' Hc Hrest IH]; intros cd x Hin Hx;
    [destruct Hin|].
  destruct Hin as [<-|Hin].
  - apply (converted_stamp _ _ _ _ Hc) in Hx. subst x. apply Hsel. now left.
  - apply (IH (fun cs' Hcs' => Hsel cs' (or_intror Hcs')) cd x Hin Hx).
Qed.

Variable n : Z.

Hypothesis Hn : 2 <= n <= limit.

(** A request by count is answered at the first attempt with the first
    [n] candles after the start of the window. *)
Lemma download_batch_count (st : state) (cur : Z) :
  count (cfg st) = Some n ->
  price (cfg st) = pr ->
  unix_of off (from_time (cfg st)) = Some cur ->
  download_batch E st
  = (Ok (map (record pr)
           (firstn (Z.to_nat n) (unbounded_fetch off cur data))),
     mkState (cfg st) (S (requests st))
       (trace st ++ [EFetch (build_kwargs (cfg st));
                     ERequest (build_kwargs (cfg st))])).
Proof.
  intros Hc Hp Hcur. unfold download_batch.
  cbn [get_response]. unfold call_api. cbn [emit cfg requests trace].
  rewrite Hapi. unfold service, serve.
  set (kw := build_kwargs (cfg st)).
  assert (Hk1 : kw_fromTime kw = from_time (cfg st)) by reflexivity.
  assert (Hk2 : kw_count kw = Some n) by exact Hc.
  assert (Hk3 : kw_includeFirst kw = false) by reflexivity.
  rewrite Hk1, Hk2, Hk3, Hcur.
  replace (limit <? n) with false by (symmetry; apply Z.ltb_ge; lia).
  unfold read_response. cbn [status candles errorMessage].
  change (200 =? 200) with true. cbn [negb body_get rbind].
  rewrite Hp. fold (unbounded_fetch off cur data).
  rewrite convert_candles_map.
  - now rewrite <- app_assoc.
  - apply forallb_forall. intros cs Hin. apply firstn_In in Hin.
    apply in_data_supplied. now apply fetched_in_data in Hin.
Qed.

(** The pagination loop against the service: from a window that starts at
    [cur] it returns what it had accumulated, followed by the records of
    the candlesticks after [cur] that are not later than [t]. *)
Lemma paginate_service (fuel : nat) :
  forall cur acc st from first,
    count (cfg st) = Some n ->
    price (cfg st) = pr ->
    unix_of off (from_time (cfg st)) = Some cur ->
    (List.length (unbounded_fetch off cur data) < fuel)%nat ->
    (if first : bool
     then (2 <= List.length (unbounded_fetch off cur data))%nat
     else exists F, from = PyInt F /\ F < t) ->
    exists st',
      paginate fuel E (PyInt t) from first acc st
      = Some (Ok (acc ++ map (record pr)
                    (filter (fun cs => ts cs <=? t)
                       (unbounded_fetch off cur data))), st').
Proof.
  induction fuel as [|k IH]; intros cur acc st from first Hc Hp Hcur Hlen Hfirst;
    [lia|].
  cbn [paginate]. rewrite (download_batch_count st cur Hc Hp Hcur).
  set (A := unbounded_fetch off cur data) in *.
  set (N := Z.to_nat n).
  assert (HN : (2 <= N)%nat) by (subst N; lia).
  assert (HsA : sorted A) by (apply sorted_filter; exact Hsorted).
  destruct (firstn N A) as [|b0 brest] eqn:Hpage.
  - assert (HA : A = []).
    { destruct A as [|a r]; [reflexivity|].
      destruct N; [lia|discriminate]. }
    rewrite HA. cbn [map filter]. rewrite app_nil_r. eauto.
  - set (page := b0 :: brest) in *.
    assert (Hpne : page <> []) by discriminate.
    assert (Hpin : forall cs, In cs page -> In cs A).
    { intros cs Hcs. rewrite <- Hpage in Hcs. eapply firstn_In; eauto. }
    assert (Hpdata : forall cs, In cs page -> In cs data).
    { intros cs Hcs. now apply (fetched_in_data cur), Hpin. }
    assert (Hsp : sorted page).
    { rewrite <- Hpage. now apply sorted_firstn. }
    set (lastcs := last page b0).
    assert (Hlin : In lastcs page) by (now apply last_in).
    assert (Hrest : filter (fun x => ts lastcs <? ts x) A = skipn N A).
    { subst lastcs. rewrite <- Hpage. apply page_rest; [exact HsA|].
      rewrite Hpage. discriminate. }
    assert (Hsplit : A = page ++ skipn N A).
    { rewrite <- Hpage. symmetry. apply firstn_skipn. }
    assert (Hle_last : forall cs, In cs page -> ts cs <= ts lastcs).
    { intros cs Hcs. subst lastcs. now apply sorted_le_last. }
    assert (Hgt_last : forall cs, In cs (skipn N A) -> ts lastcs < ts cs).
    { intros cs Hcs. rewrite <- Hrest in Hcs. apply filter_In in Hcs.
      now apply Z.ltb_lt. }
    change (map (record pr) page) with (record pr b0 :: map (record pr) brest).
    cbv beta iota.
    change (record pr b0 :: map (record pr) brest) with (map (record pr) page).
    unfold process_batch.
    rewrite (last_map _ _ (record pr) page b0 []) by exact Hpne.
    fold lastcs.
    rewrite (record_unix pr lastcs)
      by (auto using in_data_supplied, in_data_parseable).
    cbn [is_none negb py_le].
    destruct (ts lastcs <=? t) eqn:Hle.
    + apply Z.leb_le in Hle.
      unfold move_window.
      rewrite (last_map _ _ (record pr) page b0 []) by exact Hpne.
      fold lastcs.
      rewrite (convert_candle_time pr lastcs (record pr lastcs))
        by (apply record_convert; auto using in_data_supplied).
      assert (Hstart : exists F,
                 (if first then candle_unix E (hd [] (map (record pr) page))
                  else Ok from) = Ok (PyInt F) /\ F < t).
      { destruct first.
        - exists (ts b0). split.
          + cbn [page map hd]. apply record_unix.
            * apply in_data_supplied, Hpdata. now left.
            * apply in_data_parseable, Hpdata. now left.
          + assert (Hb : exists b1 r, brest = b1 :: r).
            { destruct brest as [|b1 r]; [|eauto].
              exfalso. destruct A as [|a0 [|a1 r]]; cbn [List.length] in Hfirst;
                try lia.
              destruct N as [|[|N']]; try lia. discriminate. }
            destruct Hb as (b1 & r & Hb).
            assert (ts b0 < ts lastcs).
            { subst lastcs page. rewrite Hb in *.
              now apply sorted_hd_lt_last. }
            lia.
        - destruct Hfirst as (F & -> & HF). eauto. }
      destruct Hstart as (F & -> & HF).
      rewrite progress_bar_ints.
      replace (t - F =? 0) with false by (symmetry; apply Z.eqb_neq; lia).
      set (st2 := emit _ (emit _ (update_cfg _ _))).
      destruct (IH (ts lastcs) (acc ++ map (record pr) page) st2 (PyInt F) false)
        as [st' Hrun].
      * exact Hc.
      * exact Hp.
      * subst st2. cbn [emit update_cfg cfg set_from_time from_time].
        apply record_time_unix. auto using in_data_parseable.
      * assert (Hnext : unbounded_fetch off (ts lastcs) data = skipn N A).
        { rewrite <- Hrest. subst A. unfold unbounded_fetch.
          symmetry. apply filter_filter_implies.
          intros x _ Hx. apply Z.ltb_lt in Hx. apply Z.ltb_lt.
          pose proof (proj2 (fetched_in_data cur lastcs (Hpin _ Hlin))).
          lia. }
        rewrite Hnext. rewrite length_skipn.
        assert (List.length A <> 0%nat).
        { rewrite Hsplit. subst page. cbn [app List.length]. lia. }
        lia.
      * eauto.
      * exists st'. rewrite Hrun.
        assert (Hnext : unbounded_fetch off (ts lastcs) data = skipn N A).
        { rewrite <- Hrest. subst A. unfold unbounded_fetch.
          symmetry. apply filter_filter_implies.
          intros x _ Hx. apply Z.ltb_lt in Hx. apply Z.ltb_lt.
          pose proof (proj2 (fetched_in_data cur lastcs (Hpin _ Hlin))).
          lia. }
        rewrite Hnext.
        assert (Hf : filter (fun cs => ts cs <=? t) A
                     = page ++ filter (fun cs => ts cs <=? t) (skipn N A)).
        { rewrite Hsplit at 1. rewrite filter_app.
          rewrite (filter_all _ _ page); [reflexivity|].
          intros cs Hcs. apply Z.leb_le. specialize (Hle_last cs Hcs). lia. }
        rewrite Hf, map_app, <- app_assoc. reflexivity.
    + apply Z.leb_gt in Hle.
      rewrite (truncate_records page Hsp Hpdata).
      assert (Hf : filter (fun cs => ts cs <=? t) A
                   = filter (fun cs => ts cs <=? t) page).
      { rewrite Hsplit at 1. rewrite filter_app.
        rewrite (filter_none _ _ (skipn N A)); [now rewrite app_nil_r|].
        intros cs Hcs. apply Z.leb_gt. specialize (Hgt_last cs Hcs). lia. }
      rewrite Hf. eauto.
Qed.

End Service.

Lemma sorted_keys (A : Type) (key : A -> Z) (l : list A) :
  StronglySorted (key_lt A key) l -> StronglySorted Z.lt (map key l).
Proof.
  induction 1 as [|a r Hs IH Hall]; [constructor|].
  cbn [map]. constructor; [exact IH|].
  rewrite Forall_forall in Hall |- *. intros x Hx.
  apply in_map_iff in Hx. destruct Hx as (y & <- & Hy). now apply Hall.
Qed.
(** ** C1 *)

Lemma restrict_window (off : Z -> Z) (data : list candlestick) (f t : Z) :
  StronglySorted (key_lt candlestick (stamp off)) data ->
  restrict off (Z.max f (earliest_available off data)) t
    (unbounded_fetch off f data)
  = filter (fun cs => stamp off cs <=? t) (unbounded_fetch off f data).
Proof.
  intros Hs. unfold restrict. apply filter_ext_in. intros cs Hin.
  unfold unbounded_fetch in Hin. apply filter_In in Hin.
  destruct Hin as [Hin Hf]. apply Z.ltb_lt in Hf.
  replace (Z.max f (earliest_available off data) <=? stamp off cs) with true;
    [reflexivity|].
  symmetry. apply Z.leb_le.
  assert (earliest_available off data <= stamp off cs); [|lia].
  destruct data as [|c0 r]; [destruct Hin|]. cbn [earliest_available].
  destruct Hin as [<-|Hin]; [lia|].
  apply StronglySorted_inv in Hs. destruct Hs as [_ Hall].
  rewrite Forall_forall in Hall. specialize (Hall _ Hin).
  unfold key_lt in Hall. lia.
Qed.

Lemma records_stamps (off : Z -> Z) (E : env) (pr : string)
  (l : list candlestick) :
  utcoffset E = off ->
  (forall cs, In cs l -> supplied pr cs = true /\ parseable off cs = true) ->
  map (stamp_of E) (map (record pr) l) = map (fun cs => Some (stamp off cs)) l.
Proof.
  intros Hoff H. rewrite map_map. apply map_ext_in. intros cs Hin.
  destruct (H cs Hin) as [Hs Hp].
  apply (converted_parseable off E Hoff pr); [now apply record_convert|exact Hp].
Qed.



(** * Further properties of the code *)

(** ** [time_crop_fraction] *)

Lemma chars_crop (s : string) :
  chars (time_crop_fraction s) = crop_chars false (chars s).
Proof.
  unfold time_crop_fraction, chars. apply list_ascii_of_string_of_list_ascii.
Qed.

Lemma string_of_chars (s : string) : string_of_list_ascii (chars s) = s.
Proof. apply string_of_list_ascii_of_string. Qed.

Lemma chars_append (a b : string) : chars (a ++ b) = chars a ++ chars b.
Proof.
  unfold chars. induction a as [|ch a IH]; [reflexivity|].
  simpl. now rewrite IH.
Qed.

Lemma crop_chars_dot_free (s : list ascii) :
  forall b, dot_free (crop_chars b s) = true.
Proof.
  unfold dot_free.
  induction s as [|ch r IH]; intros b; [reflexivity|].
  cbn [crop_chars]. destruct b.
  - destruct (Ascii.eqb ch "010"%char) eqn:Hn; [|apply IH].
    cbn [forallb]. rewrite (IH false).
    apply Ascii.eqb_eq in Hn. subst ch. reflexivity.
  - destruct (Ascii.eqb ch "."%char) eqn:Hd; [apply IH|].
    cbn [forallb]. rewrite Hd. apply IH.
Qed.

Lemma crop_chars_id (s : list ascii) :
  dot_free s = true -> crop_chars false s = s.
Proof.
  induction s as [|ch r IH]; intros H; [reflexivity|].
  cbn [dot_free forallb] in H. apply andb_prop in H. destruct H as [Hc Hr].
  cbn [crop_chars]. apply negb_true_iff in Hc. rewrite Hc.
  f_equal. now apply IH.
Qed.

Lemma crop_chars_skips_line (s : list ascii) :
  single_line s = true -> crop_chars true s = [].
Proof.
  induction s as [|ch r IH]; intros H; [reflexivity|].
  cbn [single_line forallb] in H. apply andb_prop in H. destruct H as [Hc Hr].
  cbn [crop_chars]. apply negb_true_iff in Hc. rewrite Hc. now apply IH.
Qed.

Lemma crop_chars_before_dot (s : list ascii) :
  single_line s = true -> crop_chars false s = before_dot s.
Proof.
  induction s as [|ch r IH]; intros H; [reflexivity|].
  cbn [single_line forallb] in H. apply andb_prop in H. destruct H as [Hc Hr].
  cbn [crop_chars before_dot]. destruct (Ascii.eqb ch "."%char).
  - now apply crop_chars_skips_line.
  - f_equal. now apply IH.
Qed.

Lemma before_dot_app (a b : list ascii) :
  dot_free a = true -> before_dot (a ++ "."%char :: b) = a.
Proof.
  induction a as [|ch r IH]; intros H; [reflexivity|].
  cbn [dot_free forallb] in H. apply andb_prop in H. destruct H as [Hc Hr].
  cbn [app before_dot]. apply negb_true_iff in Hc. rewrite Hc.
  f_equal. now apply IH.
Qed.

(** X1. The cropped time holds no dot; a time without a dot is returned as
    it is; and cropping twice is cropping once. *)
Theorem X1_crop_removes_dots (s : string) :
  dot_free (chars (time_crop_fraction s)) = true
  /\ (dot_free (chars s) = true -> time_crop_fraction s = s)
  /\ time_crop_fraction (time_crop_fraction s) = time_crop_fraction s.
Proof.
  assert (H1 : dot_free (chars (time_crop_fraction s)) = true).
  { rewrite chars_crop. apply crop_chars_dot_free. }
  assert (H2 : forall x, dot_free (chars x) = true -> time_crop_fraction x = x).
  { intros x Hx. unfold time_crop_fraction.
    rewrite (crop_chars_id _ Hx). apply string_of_chars. }
  split; [exact H1|]. split; [apply H2|]. apply H2. exact H1.
Qed.

(** At a UNIX time without a fraction. *)
Lemma X1_crop_removes_dots_witness :
  dot_free (chars "1549886400") = true
  /\ time_crop_fraction "1549886400" = "1549886400"%string.
Proof.
  split; [reflexivity|].
  exact (proj1 (proj2 (X1_crop_removes_dots "1549886400")) eq_refl).
Defined.

(** X2. Of a time on a single line, what is kept is what stands before the
    first dot. *)
Theorem X2_crop_single_line (s : string) :
  single_line (chars s) = true ->
  chars (time_crop_fraction s) = before_dot (chars s).
Proof.
  intros H. rewrite chars_crop. now apply crop_chars_before_dot.
Qed.

(** At an RFC3339 time with nanoseconds. *)
Lemma X2_crop_single_line_witness :
  chars (time_crop_fraction "2019-02-20T09:00:00.000000000Z")
  = before_dot (chars "2019-02-20T09:00:00.000000000Z").
Proof.
  apply X2_crop_single_line. reflexivity.
Defined.

(** ** UNIX times of the API *)

Lemma digit_plain (ch : ascii) :
  is_digit ch = true ->
  Ascii.eqb ch "."%char = false /\ Ascii.eqb ch "010"%char = false.
Proof.
  destruct ch as [[] [] [] [] [] [] [] []]; vm_compute; split; congruence.
Qed.

Lemma digits_plain (s : list ascii) :
  forallb is_digit s = true -> dot_free s = true /\ single_line s = true.
Proof.
  induction s as [|ch r IH]; intros H; [split; reflexivity|].
  cbn [forallb] in H. apply andb_prop in H. destruct H as [Hc Hr].
  destruct (digit_plain ch Hc) as [H1 H2]. destruct (IH Hr) as [H3 H4].
  unfold dot_free, single_line in *. cbn [forallb]. rewrite H1, H2.
  cbn [negb andb]. split; assumption.
Qed.

(** X3. A time the API writes in its UNIX format, whole seconds followed
    by a dot and a fraction, is normalised to the whole seconds, whatever
    the local time zone. *)
Theorem X3_unix_format_time (off : Z -> Z) (secs frac : string) :
  bare_integer secs = true ->
  single_line (chars frac) = true ->
  normalise_time off (secs ++ "." ++ frac)
  = Ok (PyInt (decimal_value secs)).
Proof.
  intros Hs Hf. unfold normalise_time.
  assert (Hd : forallb is_digit (chars secs) = true).
  { unfold bare_integer in Hs. apply andb_prop in Hs. apply Hs. }
  destruct (digits_plain _ Hd) as [Hdot Hline].
  assert (Hcrop : time_crop_fraction (secs ++ "." ++ frac) = secs).
  { unfold time_crop_fraction. rewrite !chars_append.
    change (chars ".") with ["."%char]. cbn [app].
    rewrite crop_chars_before_dot.
    - rewrite (before_dot_app _ _ Hdot). apply string_of_chars.
    - unfold single_line in *. rewrite forallb_app. rewrite Hline.
      cbn [forallb andb]. exact Hf. }
  rewrite Hcrop. now apply time_to_unix_digits.
Qed.

(** At the time of the documentation, in a zone one hour east of UTC. *)
Lemma X3_unix_format_time_witness :
  normalise_time one_hour_east "1549886400.000000000" = Ok (PyInt 1549886400).
Proof.
  exact (X3_unix_format_time one_hour_east "1549886400" "000000000"
           eq_refl eq_refl).
Defined.
(** ** [time_to_unix] *)

Lemma strptime_str_raises (s : string) (fmt : list item) (e : exn) :
  strptime (PyStr s) fmt = Raise e -> e = ValueError.
Proof.
  unfold strptime.
  destruct (match_pat fmt (chars s)) as [|[caps [|x r]] m];
    try (intros H; inversion H; reflexivity).
  destruct (datetime_valid (build_datetime caps));
    intros H; inversion H; reflexivity.
Qed.

Lemma py_int_str_raises (s : string) (e : exn) :
  py_int (PyStr s) = Raise e -> e = ValueError.
Proof.
  cbn [py_int]. unfold int_of_chars.
  match goal with |- context [match ?b with Some _ => _ | None => _ end] =>
    destruct b end; intros H; inversion H; reflexivity.
Qed.

Lemma time_to_unix_str (off : Z -> Z) (s : string) :
  (exists n, time_to_unix off (PyStr s) = Ok (PyInt n))
  \/ time_to_unix off (PyStr s) = Raise ValueError.
Proof.
  unfold time_to_unix.
  destruct (strptime (PyStr s) fmt_datetime) as [t|e1] eqn:H1; [eauto|].
  apply strptime_str_raises in H1. subst e1. cbn [catches_value_type].
  destruct (strptime (PyStr s) fmt_date) as [t|e2] eqn:H2; [eauto|].
  apply strptime_str_raises in H2. subst e2. cbn [catches_value_type].
  destruct (py_int (PyStr s)) as [n|e3] eqn:H3; [eauto|].
  apply py_int_str_raises in H3. subst e3. now right.
Qed.



(** ** The normalisation of the configuration *)

Lemma time_to_unix_int_result (off : Z -> Z) (v r : pyval) :
  time_to_unix off v = Ok r -> is_none v = false -> exists n, r = PyInt n.
Proof.
  destruct v as [|z|s]; [discriminate| |].
  - intros H _. inversion H. eauto.
  - intros H _. destruct (time_to_unix_str off s) as [[n Hn]|Hn];
      rewrite Hn in H; inversion H. eauto.
Qed.

(** X6. After the normalisation both times of the configuration are
    integers: a start that is not set is [MIN_TIME], an end that is not
    set is the current time, an integer is kept; no other key changes. *)
Theorem X6_normalise (E : env) (cf cf' : config) :
  normalise E cf = Ok cf' ->
  (exists f t, from_time cf' = PyInt f /\ to_time cf' = PyInt t)
  /\ (from_time cf = PyNone -> from_time cf' = PyInt MIN_TIME)
  /\ (to_time cf = PyNone -> to_time cf' = PyInt (clock E))
  /\ (forall f, from_time cf = PyInt f -> from_time cf' = PyInt f)
  /\ (forall t, to_time cf = PyInt t -> to_time cf' = PyInt t)
  /\ cf' = set_to_time (to_time cf') (set_from_time (from_time cf') cf).
Proof.
  unfold normalise.
  set (cf1 := if is_none (from_time cf)
              then set_from_time (PyInt MIN_TIME) cf else cf).
  set (cf2 := if is_none (to_time cf1)
              then set_to_time (PyInt (clock E)) cf1 else cf1).
  assert (Hfrom : from_time cf2
                  = if is_none (from_time cf) then PyInt MIN_TIME
                    else from_time cf).
  { subst cf2 cf1. destruct cf as [a b c d e f g h i j fr to k l].
    destruct fr, to; reflexivity. }
  assert (Hto : to_time cf2
                = if is_none (to_time cf) then PyInt (clock E)
                  else to_time cf).
  { subst cf2 cf1. destruct cf as [a b c d e f g h i j fr to k l].
    destruct fr, to; reflexivity. }
  assert (Hrest : forall x y,
             set_to_time y (set_from_time x cf2)
             = set_to_time y (set_from_time x cf)).
  { intros x y. subst cf2 cf1. destruct cf as [a b c d e f g h i j fr to k l].
    destruct fr, to; reflexivity. }
  assert (H1 : is_none (from_time cf2) = false).
  { rewrite Hfrom. destruct (from_time cf); reflexivity. }
  assert (H2 : is_none (to_time cf2) = false).
  { rewrite Hto. destruct (to_time cf); reflexivity. }
  destruct (time_to_unix (utcoffset E) (from_time cf2)) as [f|] eqn:Hf;
    [|discriminate].
  cbn [rbind].
  change (to_time (set_from_time f cf2)) with (to_time cf2).
  destruct (time_to_unix (utcoffset E) (to_time cf2)) as [t|] eqn:Ht;
    [|discriminate].
  cbn [rbind]. intros H. injection H as <-.
  destruct (time_to_unix_int_result _ _ _ Hf H1) as [nf ->].
  destruct (time_to_unix_int_result _ _ _ Ht H2) as [nt ->].
  rewrite Hfrom in Hf. rewrite Hto in Ht.
  assert (Hf' : from_time (set_to_time (PyInt nt) (set_from_time (PyInt nf) cf2))
                = PyInt nf) by reflexivity.
  assert (Ht' : to_time (set_to_time (PyInt nt) (set_from_time (PyInt nf) cf2))
                = PyInt nt) by reflexivity.
  rewrite Hf', Ht'.
  split; [exists nf, nt; split; reflexivity|].
  split.
  { intros Hn. rewrite Hn in Hf. cbn [is_none] in Hf. now inversion Hf. }
  split.
  { intros Hn. rewrite Hn in Ht. cbn [is_none] in Ht. now inversion Ht. }
  split.
  { intros x Hn. rewrite Hn in Hf. cbn [is_none] in Hf. now inversion Hf. }
  split.
  { intros x Hn. rewrite Hn in Ht. cbn [is_none] in Ht. now inversion Ht. }
  apply Hrest.
Qed.

(** A configuration without a start and with a date as its end. *)
Lemma X6_normalise_witness :
  from_time
    (set_to_time (PyInt 1550620800)
       (set_from_time (PyInt MIN_TIME)
          (sample_config PyNone (PyStr "2019-02-20"))))
  = PyInt MIN_TIME.
Proof.
  exact (proj1 (proj2 (X6_normalise
                         (sample_env flaky_api
                            (sample_config PyNone (PyStr "2019-02-20")))
                         (sample_config PyNone (PyStr "2019-02-20"))
                         (set_to_time (PyInt 1550620800)
                            (set_from_time (PyInt MIN_TIME)
                               (sample_config PyNone (PyStr "2019-02-20"))))
                         eq_refl)) eq_refl).
Defined.
(** ** The Range Downloader without an end time *)

(** X7. When no end time is set and the span does not fit in one batch,
    the download ends with TypeError as soon as a batch that is not empty
    has been received: the progress bar subtracts the start from None.
    (The top level always sets an end time.) *)
Theorem X7_no_end_time (k : nat) (E : env) (st st1 st3 : state)
  (batch : list candle) (th tl : Z) :
  to_time (cfg st) = PyNone ->
  download_batch E st = (Raise MaxCountError, st1) ->
  download_batch E
    (update_cfg (fun cf => set_count MAX_API_CANDLES (set_to_time PyNone cf))
       st1)
  = (Ok batch, st3) ->
  batch <> [] ->
  candle_unix E (hd [] batch) = Ok (PyInt th) ->
  candle_unix E (last batch []) = Ok (PyInt tl) ->
  exists st4, download (S k) E st = Some (Raise TypeError, st4).
Proof.
  intros Hto H1 H2 Hne Hhd Hlast.
  destruct (download_batch_spec E st) as (n & _ & Hcfg & _).
  rewrite H1 in Hcfg. cbn [snd] in Hcfg.
  unfold download. rewrite H1. cbn [is_MaxCountError].
  rewrite Hcfg, Hto. cbn [paginate]. rewrite H2.
  destruct batch as [|cd r]; [congruence|].
  unfold process_batch. rewrite Hlast. cbn [is_none negb].
  unfold move_window.
  destruct (candle_unix_has_time _ _ _ Hlast) as [tv ->].
  rewrite Hhd. cbn [progress_bar py_sub rbind]. eauto.
Qed.

(** A service that refuses a request by range and answers a request by
    count with one candle. *)
Lemma X7_no_end_time_witness :
  exists st4,
    download 1 (sample_env lone_candle_api
                  (sample_config (PyInt 1550000000) PyNone))
      (mkState (sample_config (PyInt 1550000000) PyNone) 0 [])
    = Some (Raise TypeError, st4).
Proof.
  eapply (X7_no_end_time 0
            (sample_env lone_candle_api
               (sample_config (PyInt 1550000000) PyNone))
            (mkState (sample_config (PyInt 1550000000) PyNone) 0 [])).
  - reflexivity.
  - vm_compute. reflexivity.
  - vm_compute. reflexivity.
  - discriminate.
  - vm_compute. reflexivity.
  - vm_compute. reflexivity.
Defined.

(** ** The Batch Fetcher: exceptions that are not retried *)

(** X8. An exception of the API client that is neither a connection error
    nor a timeout is not retried: the Batch Fetcher raises it after the
    one request. *)
Theorem X8_no_retry (E : env) (st : state) (e : exn) :
  api E (requests st) (build_kwargs (cfg st)) = Throws e ->
  connection_level e = false ->
  download_batch E st
  = (Raise e,
     mkState (cfg st) (S (requests st))
       (trace st ++ [EFetch (build_kwargs (cfg st));
                     ERequest (build_kwargs (cfg st))])).
Proof.
  intros Ha Hc. unfold download_batch. cbn [get_response].
  unfold call_api. cbn [emit cfg requests trace]. rewrite Ha, Hc.
  now rewrite <- app_assoc.
Qed.

(** A request interrupted from the keyboard. *)
Lemma X8_no_retry_witness :
  fst (download_batch
         (sample_env interrupted_api (sample_config (PyInt 0) (PyInt 9)))
         (mkState (sample_config (PyInt 0) (PyInt 9)) 0 []))
  = Raise KeyboardInterrupt.
Proof.
  rewrite (X8_no_retry
             (sample_env interrupted_api (sample_config (PyInt 0) (PyInt 9)))
             (mkState (sample_config (PyInt 0) (PyInt 9)) 0 [])
             KeyboardInterrupt eq_refl eq_refl).
  reflexivity.
Defined.

(** ** The Batch Fetcher: what an answer is read as *)

(** ** The width of the progress bar *)

Lemma round_half_even_bounds (q : Q) (a b : Z) :
  (inject_Z a <= q)%Q -> (q <= inject_Z b)%Q ->
  a <= round_half_even q <= b.
Proof.
  destruct q as [n d]. unfold Qle, round_half_even.
  cbn [Qnum Qden inject_Z]. intros H1 H2.
  set (D := Zpos d) in *.
  assert (HD : 0 < D) by (subst D; lia).
  pose proof (Z.div_mod n D ltac:(lia)) as Hdm.
  pose proof (Z.mod_pos_bound n D HD) as Hm.
  destruct (2 * (n mod D) <? D) eqn:E1.
  - apply Z.ltb_lt in E1. nia.
  - apply Z.ltb_ge in E1.
    destruct (D <? 2 * (n mod D)) eqn:E2.
    + nia.
    + apply Z.ltb_ge in E2. destruct (Z.even (n / D)); nia.
Qed.

Lemma percentage_half_bounds (num den : Z) :
  0 <= num <= den -> 0 < den ->
  (inject_Z 0 <= percentage_of num den / 2)%Q
  /\ (percentage_of num den / 2 <= inject_Z 50)%Q.
Proof.
  intros Hn Hd. unfold percentage_of.
  destruct den as [|p|p]; try lia.
  unfold Qle, Qdiv, Qmult, Qinv. cbn. split; nia.
Qed.

Lemma string_length_chars (l : list ascii) :
  String.length (string_of_list_ascii l) = List.length l.
Proof. induction l as [|ch r IH]; simpl; congruence. Qed.

Lemma string_length_append (a b : string) :
  String.length (a ++ b) = (String.length a + String.length b)%nat.
Proof. induction a as [|ch r IH]; simpl; congruence. Qed.

Lemma str_repeat_length (ch : ascii) (k : Z) :
  String.length (str_repeat ch k) = Z.to_nat k.
Proof.
  unfold str_repeat. rewrite string_length_chars. apply repeat_length.
Qed.

(** X10. While the current time lies between the start and the end, the
    bar has fifty cells: [k] hashes followed by [50 - k] dots, with [k]
    between 0 and 50; the percentage printed has no sign. *)
Theorem X10_bar_width (s cur e : Z) :
  s <= cur <= e -> s < e ->
  exists k,
    0 <= k <= 50
    /\ progress_bar (PyInt s) (PyInt cur) (PyInt e)
       = Ok ("[" ++ str_repeat "#" k ++ str_repeat "." (50 - k) ++ "] "
               ++ format_1f false (percentage_of (cur - s) (e - s)) ++ "%")%string
    /\ (String.length (str_repeat "#" k ++ str_repeat "." (50 - k)) = 50)%nat.
Proof.
  intros Hc He.
  exists (round_half_even (percentage_of (cur - s) (e - s) / 2)).
  destruct (percentage_half_bounds (cur - s) (e - s)) as [Hlo Hhi]; try lia.
  pose proof (round_half_even_bounds _ 0 50 Hlo Hhi) as Hk.
  split; [exact Hk|]. split.
  - rewrite progress_bar_ints.
    replace (e - s =? 0) with false by (symmetry; apply Z.eqb_neq; lia).
    rewrite negative_false by lia. reflexivity.
  - rewrite string_length_append, !str_repeat_length. lia.
Qed.

(** Halfway through a range of one hundred seconds. *)
Lemma X10_bar_width_witness :
  exists k,
    0 <= k <= 50
    /\ (String.length (str_repeat "#" k ++ str_repeat "." (50 - k)) = 50)%nat.
Proof.
  destruct (X10_bar_width 0 50 100 ltac:(lia) ltac:(lia)) as (k & Hk & _ & Hl).
  exists k. split; assumption.
Defined.

(** X11. When the current time has reached the end, the bar is full and
    reads 100.0%. *)
Theorem X11_bar_full (s e : Z) :
  s < e ->
  progress_bar (PyInt s) (PyInt e) (PyInt e)
  = Ok ("[" ++ str_repeat "#" 50 ++ "] 100.0%")%string.
Proof.
  intros He. rewrite progress_bar_ints.
  replace (e - s =? 0) with false by (symmetry; apply Z.eqb_neq; lia).
  rewrite negative_false by lia.
  set (d := e - s). assert (Hd : 0 < d) by (subst d; lia).
  assert (Hhalf : round_half_even (percentage_of d d / 2) = 50).
  { assert (H : 50 <= round_half_even (percentage_of d d / 2) <= 50); [|lia].
    apply round_half_even_bounds;
      unfold percentage_of; destruct d as [|p|p]; try lia;
      unfold Qle, Qdiv, Qmult, Qinv; cbn; nia. }
  assert (Hten : round_half_even (percentage_of d d * 10) = 1000).
  { assert (H : 1000 <= round_half_even (percentage_of d d * 10) <= 1000);
      [|lia].
    apply round_half_even_bounds;
      unfold percentage_of; destruct d as [|p|p]; try lia;
      unfold Qle, Qdiv, Qmult, Qinv; cbn; nia. }
  unfold render_bar, format_1f. rewrite Hhalf, Hten. reflexivity.
Qed.

(** At the end of a range of one hundred seconds. *)
Lemma X11_bar_full_witness :
  progress_bar (PyInt 0) (PyInt 100) (PyInt 100)
  = Ok ("[" ++ str_repeat "#" 50 ++ "] 100.0%")%string.
Proof.
  apply X11_bar_full. lia.
Defined.
(** ** The fields of a record *)

(** X12. A candlestick is made into a record exactly when it carries every
    price class that was requested, and AttributeError is raised
    otherwise. The keys of the record depend on the price classes only:
    the time, the four ask fields, the four bid fields, the four midpoint
    fields, the volume, in this order whatever the order of the letters;
    the time is the cropped time and the volume is the volume. *)
Theorem X12_record_fields (pr : string) (cs : candlestick) :
  (requested_present pr cs = true ->
   exists r,
     convert_candle pr cs = Ok r
     /\ keys r = field_names pr
     /\ lookup "time" r = Ok (PyStr (time_crop_fraction (cs_time cs)))
     /\ lookup "volume" r = Ok (PyInt (cs_volume cs)))
  /\ (requested_present pr cs = false ->
      convert_candle pr cs = Raise AttributeError).
Proof.
  unfold requested_present, convert_candle, price_fields, field_names,
    component.
  destruct (contains "A" pr), (contains "B" pr), (contains "M" pr),
    (cs_ask cs), (cs_bid cs), (cs_mid cs); cbn;
    (split; [intros H; try discriminate; eexists; repeat split; reflexivity
            |intros H; try discriminate; reflexivity]).
Qed.

(** A candlestick with midpoint prices, asked for as such. *)
Lemma X12_record_fields_witness :
  exists r,
    convert_candle "M" (mid_stick "1550653200.000000000" 7) = Ok r
    /\ keys r = ["time"; "open"; "high"; "low"; "close"; "volume"]%string.
Proof.
  destruct (proj1 (X12_record_fields "M" (mid_stick "1550653200.000000000" 7))
              eq_refl) as (r & Hr & Hk & _).
  exists r. split; [exact Hr|exact Hk].
Defined.

(** ** The configuration after a download *)

Lemma moved_window_refl (cf : config) : moved_window cf cf.
Proof. destruct cf. reflexivity. Qed.

Lemma moved_window_trans (a b c : config) :
  moved_window a b -> moved_window b c -> moved_window a c.
Proof.
  unfold moved_window. intros H1 H2. rewrite H2 at 1. rewrite H1 at 1.
  reflexivity.
Qed.

Lemma process_batch_cfg (E : env) (to from : pyval) (first : bool)
  (acc batch : list candle) (st : state) :
  moved_window (cfg st)
    (cfg (snd (process_batch E to from first acc batch st))).
Proof.
  assert (Hmove : forall res lct,
             moved_window (cfg st)
               (cfg (snd (move_window E from first res batch lct to st)))).
  { intros res lct. unfold move_window.
    destruct (lookup "time" (last batch [])) as [tv|];
      [|apply moved_window_refl].
    destruct (if first then candle_unix E (hd [] batch) else Ok from);
      [|reflexivity].
    destruct (progress_bar _ _ _); reflexivity. }
  unfold process_batch.
  destruct (candle_unix E (last batch [])) as [lct|];
    [|apply moved_window_refl].
  destruct (negb (is_none to)); [|apply Hmove].
  destruct (py_le lct to) as [[|]|]; try apply moved_window_refl;
    [apply Hmove|].
  destruct (truncate E to batch); apply moved_window_refl.
Qed.

Lemma paginate_cfg (E : env) (to : pyval) (fuel : nat) :
  forall from first acc st r st',
    paginate fuel E to from first acc st = Some (r, st') ->
    moved_window (cfg st) (cfg st').
Proof.
  induction fuel as [|k IH]; intros from first acc st r st' H;
    [discriminate|].
  cbn [paginate] in H.
  destruct (download_batch_spec E st) as (n & _ & Hcfg & _).
  destruct (download_batch E st) as [rb st1]. cbn [snd] in Hcfg.
  rewrite <- Hcfg.
  destruct rb as [[|cd rest]|e].
  - inversion H; subst. apply moved_window_refl.
  - pose proof (process_batch_cfg E to from first acc (cd :: rest) st1) as Hp.
    destruct (process_batch E to from first acc (cd :: rest) st1)
      as [rp st2]. cbn [snd] in Hp.
    destruct rp as [[res|res from']|e].
    + inversion H; subst. exact Hp.
    + apply IH in H. eapply moved_window_trans; eauto.
    + inversion H; subst. exact Hp.
  - inversion H; subst. apply moved_window_refl.
Qed.

(** X13. A download that had to paginate leaves the configuration changed:
    the end time is None, the count is [MAX_API_CANDLES], the start time
    is where the window was moved to, and no other key is touched. (A
    second download with the same configuration asks by count.) *)
Theorem X13_config_after_pagination (fuel : nat) (E : env) (st st' : state)
  r :
  fst (download_batch E st) = Raise MaxCountError ->
  download fuel E st = Some (r, st') ->
  to_time (cfg st') = PyNone
  /\ count (cfg st') = Some MAX_API_CANDLES
  /\ moved_window
       (set_count MAX_API_CANDLES (set_to_time PyNone (cfg st))) (cfg st').
Proof.
  intros H1 H. unfold download in H.
  destruct (download_batch_spec E st) as (n & _ & Hcfg & _).
  destruct (download_batch E st) as [rb st1]. cbn [fst snd] in *.
  subst rb. cbn [is_MaxCountError] in H.
  apply paginate_cfg in H. cbn [update_cfg cfg] in H. rewrite Hcfg in H.
  split; [|split; [|exact H]]; rewrite H; reflexivity.
Qed.

(** A service that refuses a request by range; its one candle is later
    than the end time. *)
Lemma X13_config_after_pagination_witness :
  exists st',
    download 1 (sample_env lone_candle_api
                  (sample_config (PyInt 1550000000) (PyInt 1550653100)))
      (mkState (sample_config (PyInt 1550000000) (PyInt 1550653100)) 0 [])
    = Some (Ok [], st')
    /\ to_time (cfg st') = PyNone
    /\ count (cfg st') = Some MAX_API_CANDLES.
Proof.
  eexists. split; [vm_compute; reflexivity|].
  destruct (X13_config_after_pagination 1
              (sample_env lone_candle_api
                 (sample_config (PyInt 1550000000) (PyInt 1550653100)))
              (mkState (sample_config (PyInt 1550000000) (PyInt 1550653100))
                 0 [])
              _ (Ok []) eq_refl eq_refl) as (H1 & H2 & _).
  split; assumption.
Defined.

(** ** What the loop accumulates *)

(** X14. The inner loop keeps a prefix of the batch: the kept candles are
    not later than the end time, and the first candle that is left out,
    if there is one, is later. *)
Theorem X14_truncate_prefix (E : env) (t : Z) (batch kept : list candle) :
  truncate E (PyInt t) batch = Ok kept ->
  exists rest,
    batch = kept ++ rest
    /\ within E t kept = true
    /\ match rest with
       | [] => True
       | cd :: _ => exceeds E t cd = true
       end.
Proof.
  revert kept. induction batch as [|cd r IH]; intros kept H.
  - inversion H. exists []. repeat split.
  - cbn [truncate] in H.
    destruct (candle_unix E cd) as [v|] eqn:Hu; [|discriminate].
    cbn [rbind] in H. destruct v as [|x|s]; try discriminate.
    cbn [py_le rbind] in H. destruct (x <=? t) eqn:Hle.
    + destruct (truncate E (PyInt t) r) as [k|]; [|discriminate].
      cbn [rbind] in H. injection H as <-.
      destruct (IH k eq_refl) as (rest & -> & Hw & Hr).
      exists rest. split; [reflexivity|]. split; [|exact Hr].
      cbn [within forallb]. unfold exceeds.
      rewrite (stamp_of_unix _ _ _ Hu). apply Z.leb_le in Hle.
      replace (t <? x) with false by (symmetry; apply Z.ltb_ge; lia).
      exact Hw.
    + injection H as <-. exists (cd :: r). split; [reflexivity|].
      split; [reflexivity|].
      unfold exceeds. rewrite (stamp_of_unix _ _ _ Hu).
      apply Z.ltb_lt. apply Z.leb_gt in Hle. lia.
Qed.

(** X15. The pagination loop only appends: what it returns begins with
    what had been accumulated. *)
Theorem X15_accumulation (E : env) (to : pyval) (fuel : nat) :
  forall from first acc st res st',
    paginate fuel E to from first acc st = Some (Ok res, st') ->
    exists more, res = acc ++ more.
Proof.
  induction fuel as [|k IH]; intros from first acc st res st' H;
    [discriminate|].
  cbn [paginate] in H.
  destruct (download_batch E st) as [rb st1].
  destruct rb as [[|cd rest]|e]; try discriminate.
  - inversion H; subst. exists []. now rewrite app_nil_r.
  - destruct (process_batch E to from first acc (cd :: rest) st1)
      as [rp st2] eqn:Hp.
    destruct rp as [[res'|res' from']|e]; try discriminate.
    + assert (Hstop : exists kept, res' = acc ++ kept).
      { unfold process_batch in Hp.
        destruct (candle_unix E (last (cd :: rest) [])) as [lct|];
          [|discriminate].
        assert (Hm : forall x, move_window E from first (acc ++ cd :: rest)
                                 (cd :: rest) lct to st1
                               <> (Ok (Stop x), st2)).
        { intros x. unfold move_window.
          destruct (lookup "time" (last (cd :: rest) [])); [|discriminate].
          destruct (if first then candle_unix E (hd [] (cd :: rest))
                    else Ok from); [|discriminate].
          destruct (progress_bar _ _ _); discriminate. }
        destruct (negb (is_none to)); [|now apply Hm in Hp].
        destruct (py_le lct to) as [[|]|]; try discriminate;
          [now apply Hm in Hp|].
        destruct (truncate E to (cd :: rest)) as [kept|]; [|discriminate].
        inversion Hp. eauto. }
      inversion H; subst. exact Hstop.
    + destruct (process_batch_continue _ _ _ _ _ _ _ _ _ _ Hp)
        as (_ & _ & _ & _ & _ & _ & _ & -> & _).
      apply IH in H. destruct H as [more ->].
      exists ((cd :: rest) ++ more). now rewrite app_assoc.
Qed.

(** Three records cut at the time of the second. *)
Lemma X14_truncate_prefix_witness :
  exists rest,
    map (record "M") three_sticks
    = map (record "M") (firstn 2 three_sticks) ++ rest.
Proof.
  destruct (X14_truncate_prefix
              (sample_env flaky_api (sample_config (PyInt 0) (PyInt 9)))
              1550653260 (map (record "M") three_sticks)
              (map (record "M") (firstn 2 three_sticks))
              ltac:(vm_compute; reflexivity)) as (rest & H & _).
  exists rest. exact H.
Defined.

(** Three candles fetched by count, after one record that was there. *)
Lemma X15_accumulation_witness :
  exists res more,
    option_map fst
      (paginate 2 (sample_env (service utc 5000 three_sticks)
                     (sample_config (PyInt 1550653000) (PyInt 1550653400)))
         (PyInt 1550653400) (PyInt 1550653000) true
         [[("time"%string, PyStr "1550652000")]]
         (mkState (set_count MAX_API_CANDLES
                     (set_to_time PyNone
                        (sample_config (PyInt 1550653000) (PyInt 1550653400))))
            1 []))
    = Some (Ok res)
    /\ res = [[("time"%string, PyStr "1550652000")]] ++ more.
Proof.
  destruct (paginate 2 (sample_env (service utc 5000 three_sticks)
                     (sample_config (PyInt 1550653000) (PyInt 1550653400)))
         (PyInt 1550653400) (PyInt 1550653000) true
         [[("time"%string, PyStr "1550652000")]]
         (mkState (set_count MAX_API_CANDLES
                     (set_to_time PyNone
                        (sample_config (PyInt 1550653000) (PyInt 1550653400))))
            1 [])) as [[[res|e] st']|] eqn:Hrun;
    [|vm_compute in Hrun; discriminate|vm_compute in Hrun; discriminate].
  destruct (X15_accumulation _ _ _ _ _ _ _ _ _ Hrun) as [more Hmore].
  exists res, more. split; [reflexivity|exact Hmore].
Defined.
(** ** [write] *)

Lemma mem_string_in (k : string) (ks : list string) :
  In k ks -> mem_string k ks = true.
Proof.
  intros H. unfold mem_string. apply existsb_exists.
  exists k. split; [exact H|apply String.eqb_refl].
Qed.

Lemma row_fits_self (line : candle) : row_fits (keys line) line = true.
Proof.
  unfold row_fits. apply forallb_forall. intros k Hk.
  now apply mem_string_in.
Qed.

Lemma write_rows_ok (fieldnames : list string) (lines : list candle) :
  forall st,
    forallb (row_fits fieldnames) lines = true ->
    write_rows fieldnames lines st
    = (Ok tt,
       mkState (cfg st) (requests st)
         (trace st
          ++ map (fun line => ERow (map (get_cell line) fieldnames)) lines)).
Proof.
  induction lines as [|line r IH]; intros st H.
  - cbn. rewrite app_nil_r. destruct st; reflexivity.
  - cbn [forallb] in H. apply andb_prop in H. destruct H as [Hl Hr].
    cbn [write_rows]. unfold writerow. unfold row_fits in Hl. rewrite Hl.
    rewrite (IH _ Hr). cbn [emit cfg requests trace map].
    now rewrite <- app_assoc.
Qed.

Lemma write_rows_foreign (fieldnames : list string) (good : list candle)
  (bad : candle) (more : list candle) :
  forall st,
    forallb (row_fits fieldnames) good = true ->
    row_fits fieldnames bad = false ->
    write_rows fieldnames (good ++ bad :: more) st
    = (Raise ValueError,
       mkState (cfg st) (requests st)
         (trace st
          ++ map (fun line => ERow (map (get_cell line) fieldnames)) good)).
Proof.
  induction good as [|line r IH]; intros st H Hb.
  - cbn [app write_rows map]. unfold writerow. unfold row_fits in Hb.
    rewrite Hb. rewrite app_nil_r. destruct st; reflexivity.
  - cbn [forallb] in H. apply andb_prop in H. destruct H as [Hl Hr].
    cbn [app write_rows]. unfold writerow. unfold row_fits in Hl. rewrite Hl.
    rewrite (IH _ Hr Hb). cbn [emit cfg requests trace map].
    now rewrite <- app_assoc.
Qed.

(** X16. Written to a file that can be opened, candles whose keys are all
    keys of the first one give a header row with the keys of the first
    candle, in their order, and then one row for each candle, in order,
    with its values under the header's keys; nothing else changes. *)
Theorem X16_write_rows (E : env) (name : string) (first : candle)
  (rest : list candle) (st : state) :
  open_error E name = None ->
  forallb (row_fits (keys first)) rest = true ->
  write E name (first :: rest) st
  = (Ok tt,
     mkState (cfg st) (requests st)
       (trace st
        ++ EOpen name :: ERow (map PyStr (keys first))
           :: map (fun line => ERow (map (get_cell line) (keys first)))
                (first :: rest))).
Proof.
  intros Ho Hr. unfold write. rewrite Ho.
  rewrite write_rows_ok.
  - cbn [emit cfg requests trace]. now rewrite <- !app_assoc.
  - cbn [forallb]. now rewrite row_fits_self, Hr.
Qed.

(** Two records of the same download. *)
Lemma X16_write_rows_witness :
  fst (write (sample_env flaky_api (sample_config (PyInt 0) (PyInt 9)))
         "candles.csv"
         (map (record "M") (firstn 2 three_sticks))
         (mkState (sample_config (PyInt 0) (PyInt 9)) 0 []))
  = Ok tt.
Proof.
  change (map (record "M") (firstn 2 three_sticks))
    with (record "M" (mid_stick "1550653200.000000000" 7)
          :: [record "M" (mid_stick "1550653260.000000000" 3)]).
  rewrite (X16_write_rows
             (sample_env flaky_api (sample_config (PyInt 0) (PyInt 9)))
             "candles.csv"
             (record "M" (mid_stick "1550653200.000000000" 7))
             [record "M" (mid_stick "1550653260.000000000" 3)]
             (mkState (sample_config (PyInt 0) (PyInt 9)) 0 [])
             eq_refl eq_refl).
  reflexivity.
Defined.

(** X17. A candle with a key that the first candle does not have stops
    the writing with ValueError; the header and the rows of the candles
    before it have been written and stay in the file. *)
Theorem X17_write_foreign_key (E : env) (name : string) (first : candle)
  (good : list candle) (bad : candle) (more : list candle) (st : state) :
  open_error E name = None ->
  forallb (row_fits (keys first)) good = true ->
  row_fits (keys first) bad = false ->
  write E name (first :: good ++ bad :: more) st
  = (Raise ValueError,
     mkState (cfg st) (requests st)
       (trace st
        ++ EOpen name :: ERow (map PyStr (keys first))
           :: map (fun line => ERow (map (get_cell line) (keys first)))
                (first :: good))).
Proof.
  intros Ho Hg Hb. unfold write. rewrite Ho.
  change (first :: good ++ bad :: more) with ((first :: good) ++ bad :: more).
  rewrite write_rows_foreign.
  - cbn [emit cfg requests trace]. now rewrite <- !app_assoc.
  - cbn [forallb]. now rewrite row_fits_self, Hg.
  - exact Hb.
Qed.

(** A record with midpoint prices followed by one with ask prices. *)
Lemma X17_write_foreign_key_witness :
  fst (write (sample_env flaky_api (sample_config (PyInt 0) (PyInt 9)))
         "candles.csv"
         (record "M" (mid_stick "1550653200.000000000" 7)
          :: [] ++ [("time"%string, PyStr "1550653260");
                    ("openAsk"%string, PyStr "1.13370")] :: [])
         (mkState (sample_config (PyInt 0) (PyInt 9)) 0 []))
  = Raise ValueError.
Proof.
  exact (f_equal fst
           (X17_write_foreign_key
              (sample_env flaky_api (sample_config (PyInt 0) (PyInt 9)))
              "candles.csv"
              (record "M" (mid_stick "1550653200.000000000" 7)) []
              [("time"%string, PyStr "1550653260");
               ("openAsk"%string, PyStr "1.13370")] []
              (mkState (sample_config (PyInt 0) (PyInt 9)) 0 [])
              eq_refl eq_refl eq_refl)).
Defined.

(** ** The top level: when nothing is written *)

(** X18. When the output file cannot be opened, the candles that were
    downloaded are dropped: the program prints that it cannot write, with
    the message of the error, and ends normally; the file is not
    touched. *)
Theorem X18_cannot_open (fuel : nat) (E : env) (st st1 : state)
  (candles : list candle) (msg : string) :
  download fuel E (emit (EPrint "Downloading candles...") st)
  = Some (Ok candles, st1) ->
  open_error E (output (cfg st1)) = Some msg ->
  run fuel E st
  = Some (Normal,
          trace st1
          ++ [EStdout clear_line; EPrint "Writing to csv file...";
              EPrint ("Can't write to an output csv file: " ++ msg)])
  /\ file_events (trace st1) = file_events (trace st).
Proof.
  intros Hd Ho. split.
  - unfold run. rewrite Hd. unfold write. cbn [emit cfg].
    rewrite Ho. cbn [finish handler emit trace cfg].
    now rewrite <- !app_assoc.
  - apply download_no_files in Hd. cbn [emit trace] in Hd.
    rewrite file_events_app in Hd. cbn in Hd. now rewrite app_nil_r in Hd.
Qed.

(** Two candles downloaded, and an output file that is locked. *)
Lemma X18_cannot_open_witness :
  exists tr,
    run 0 (locked_env (service utc 5000 three_sticks)
             (sample_config (PyInt 1550653000) (PyInt 1550653260)))
        (mkState (sample_config (PyInt 1550653000) (PyInt 1550653260)) 0 [])
    = Some (Normal, tr)
    /\ last tr (EStdout "")
       = EPrint "Can't write to an output csv file: [Errno 13] Permission denied".
Proof.
  destruct (download 0
              (locked_env (service utc 5000 three_sticks)
                 (sample_config (PyInt 1550653000) (PyInt 1550653260)))
              (emit (EPrint "Downloading candles...")
                 (mkState (sample_config (PyInt 1550653000)
                             (PyInt 1550653260)) 0 [])))
    as [[[candles|e] st1]|] eqn:Hd;
    [|vm_compute in Hd; discriminate|vm_compute in Hd; discriminate].
  assert (Ho : open_error
                 (locked_env (service utc 5000 three_sticks)
                    (sample_config (PyInt 1550653000) (PyInt 1550653260)))
                 (output (cfg st1))
               = Some "[Errno 13] Permission denied"%string) by reflexivity.
  destruct (X18_cannot_open _ _ _ _ _ _ Hd Ho) as [Hrun _].
  eexists. split; [exact Hrun|].
  match goal with
  | |- last (?l ++ [?a; ?b; ?c]) _ = _ =>
      change (l ++ [a; b; c]) with (l ++ ([a; b] ++ [c]));
      rewrite app_assoc; apply last_last
  end.
Defined.

(** X19. "No results." is what the program prints when the first answer
    has status 200 and no candles in its body: one request, the message,
    a normal end, and no file. *)
Theorem X19_no_results (fuel : nat) (E : env) (st : state) (r : response) :
  api E (requests st) (build_kwargs (cfg st)) = Returns r ->
  status r = 200 ->
  candles r = None ->
  run fuel E st
  = Some (Normal,
          trace st
          ++ [EPrint "Downloading candles...";
              EFetch (build_kwargs (cfg st));
              ERequest (build_kwargs (cfg st));
              EPrint "No results."]).
Proof.
  intros Ha Hs Hc. unfold run, download, download_batch.
  cbn [get_response]. unfold call_api. cbn [emit cfg requests trace].
  rewrite Ha. unfold read_response. rewrite Hs, Hc.
  change (200 =? 200) with true.
  cbn [negb body_get rbind is_MaxCountError finish handler cfg trace].
  now rewrite <- !app_assoc.
Qed.

(** An API whose answers have no candles. *)
Lemma X19_no_results_witness :
  exists tr,
    run 0 (sample_env bare_api (sample_config (PyInt 0) (PyInt 9)))
        (mkState (sample_config (PyInt 0) (PyInt 9)) 0 [])
    = Some (Normal, tr)
    /\ printed tr = ["Downloading candles..."; "No results."]%string.
Proof.
  eexists. split.
  - apply (X19_no_results 0
             (sample_env bare_api (sample_config (PyInt 0) (PyInt 9)))
             (mkState (sample_config (PyInt 0) (PyInt 9)) 0 [])
             (mkResponse 200 None None)); reflexivity.
  - reflexivity.
Defined.
(** ** The keys of the candles of a download *)

Lemma convert_candle_keys (pr : string) (cs : candlestick) (r : candle) :
  convert_candle pr cs = Ok r -> keys r = field_names pr.
Proof.
  unfold convert_candle, price_fields, field_names, component.
  destruct (contains "A" pr), (contains "B" pr), (contains "M" pr),
    (cs_ask cs), (cs_bid cs), (cs_mid cs); cbn;
    intros H; inversion H; reflexivity.
Qed.

Lemma field_names_nodup (pr : string) : NoDup (field_names pr).
Proof.
  unfold field_names.
  destruct (contains "A" pr), (contains "B" pr), (contains "M" pr);
    cbn; repeat constructor; cbn; intuition discriminate.
Qed.

Lemma download_batch_keys (E : env) (st st1 : state) (batch : list candle) :
  download_batch E st = (Ok batch, st1) ->
  forall cd, In cd batch -> keys cd = field_names (price (cfg st)).
Proof.
  intros H.
  destruct (download_batch_spec E st) as (n & _ & _ & _ & _ & _ & Hres).
  rewrite H in Hres. cbn [fst] in Hres.
  destruct Hres as [(resp & _ & Hr)|[(_ & Hr & _)|(e & _ & _ & Hr)]];
    try discriminate.
  symmetry in Hr. apply read_response_ok in Hr.
  destruct Hr as (_ & cl & _ & Hconv). apply convert_candles_inv in Hconv.
  clear H. induction Hconv as [|cs r cl' batch' Hc Hrest IH]; intros cd Hin.
  - destruct Hin.
  - destruct Hin as [<-|Hin].
    + now apply convert_candle_keys in Hc.
    + now apply IH.
Qed.

Lemma truncate_incl (E : env) (to : pyval) (batch kept : list candle) :
  truncate E to batch = Ok kept -> incl kept batch.
Proof.
  revert kept. induction batch as [|cd r IH]; intros kept H.
  - inversion H. apply incl_refl.
  - cbn [truncate] in H.
    destruct (candle_unix E cd) as [v|]; [|discriminate].
    cbn [rbind] in H. destruct (py_le v to) as [[|]|]; try discriminate;
      cbn [rbind] in H.
    + destruct (truncate E to r) as [k|]; [|discriminate].
      cbn [rbind] in H. injection H as <-.
      intros x [<-|Hx]; [now left|]. right. now apply (IH k).
    + injection H as <-. intros x [].
Qed.

Lemma process_batch_incl (E : env) (to from : pyval) (first : bool)
  (acc batch : list candle) (st st' : state) (out : step_outcome) :
  process_batch E to from first acc batch st = (Ok out, st') ->
  forall cd,
    In cd (match out with Stop res => res | Continue res _ => res end) ->
    In cd acc \/ In cd batch.
Proof.
  intros H. destruct out as [res|res from'].
  - unfold process_batch in H.
    destruct (candle_unix E (last batch [])) as [lct|]; [|discriminate].
    assert (Hm : forall x, move_window E from first (acc ++ batch) batch lct
                             to st <> (Ok (Stop x), st')).
    { intros x. unfold move_window.
      destruct (lookup "time" (last batch [])); [|discriminate].
      destruct (if first then candle_unix E (hd [] batch) else Ok from);
        [|discriminate].
      destruct (progress_bar _ _ _); discriminate. }
    destruct (negb (is_none to)); [|now apply Hm in H].
    destruct (py_le lct to) as [[|]|]; try discriminate;
      [now apply Hm in H|].
    destruct (truncate E to batch) as [kept|] eqn:Ht; [|discriminate].
    inversion H; subst. intros cd Hin. apply in_app_or in Hin.
    destruct Hin as [Hin|Hin]; [now left|right].
    now apply (truncate_incl _ _ _ _ Ht).
  - destruct (process_batch_continue _ _ _ _ _ _ _ _ _ _ H)
      as (_ & _ & _ & _ & _ & _ & _ & -> & _).
    intros cd Hin. now apply in_app_or in Hin.
Qed.

Lemma moved_window_price (cf cf' : config) :
  moved_window cf cf' -> price cf' = price cf.
Proof. unfold moved_window. intros ->. reflexivity. Qed.

Lemma paginate_keys (E : env) (to : pyval) (fuel : nat) :
  forall from first acc st res st',
    (forall cd, In cd acc -> keys cd = field_names (price (cfg st))) ->
    paginate fuel E to from first acc st = Some (Ok res, st') ->
    forall cd, In cd res -> keys cd = field_names (price (cfg st)).
Proof.
  induction fuel as [|k IH]; intros from first acc st res st' Hacc H;
    [discriminate|].
  cbn [paginate] in H.
  destruct (download_batch_spec E st) as (n & _ & Hcfg & _).
  destruct (download_batch E st) as [rb st1] eqn:Hb. cbn [snd] in Hcfg.
  destruct rb as [[|c0 rest]|e]; try discriminate.
  - inversion H; subst. exact Hacc.
  - pose proof (download_batch_keys _ _ _ _ Hb) as Hbatch.
    pose proof (process_batch_cfg E to from first acc (c0 :: rest) st1) as Hp.
    destruct (process_batch E to from first acc (c0 :: rest) st1)
      as [rp st2] eqn:Hpb. cbn [snd] in Hp.
    destruct rp as [out|e]; [|discriminate].
    pose proof (process_batch_incl _ _ _ _ _ _ _ _ _ Hpb) as Hin.
    assert (Hout : forall cd,
               In cd (match out with
                      | Stop r => r
                      | Continue r _ => r
                      end) ->
               keys cd = field_names (price (cfg st))).
    { intros cd Hcd. destruct (Hin cd Hcd); auto. }
    destruct out as [res'|res' from'].
    + inversion H; subst. exact Hout.
    + apply moved_window_price in Hp. rewrite Hcfg in Hp.
      rewrite <- Hp. eapply IH; [|exact H].
      intros cd Hcd. rewrite Hp. auto.
Qed.

(** X20. The candles of a download all have the same keys, those that the
    price classes of the configuration determine, whether the download had
    to paginate or not. *)
Theorem X20_homogeneous_keys (fuel : nat) (E : env) (st st' : state)
  (res : list candle) :
  download fuel E st = Some (Ok res, st') ->
  forall cd, In cd res -> keys cd = field_names (price (cfg st)).
Proof.
  unfold download. intros H.
  destruct (download_batch_spec E st) as (n & _ & Hcfg & _).
  destruct (download_batch E st) as [rb st1] eqn:Hb. cbn [snd] in Hcfg.
  destruct rb as [batch|e].
  - inversion H; subst. now apply (download_batch_keys _ _ _ _ Hb).
  - destruct (is_MaxCountError e); [|discriminate].
    intros cd Hin.
    apply (paginate_keys _ _ _ _ _ _ _ _ _
             (fun x (Hx : In x []) => match Hx with end) H) in Hin.
    cbn [update_cfg cfg] in Hin. rewrite Hcfg in Hin. exact Hin.
Qed.

(** Two of three candles, fetched in one batch; the second one. *)
Lemma X20_homogeneous_keys_witness :
  download 0
    (sample_env (service utc 5000 three_sticks)
       (sample_config (PyInt 1550653000) (PyInt 1550653260)))
    (mkState (sample_config (PyInt 1550653000) (PyInt 1550653260)) 0 [])
  = Some (Ok (map (record "M") (firstn 2 three_sticks)),
          snd (download_batch
                 (sample_env (service utc 5000 three_sticks)
                    (sample_config (PyInt 1550653000) (PyInt 1550653260)))
                 (mkState (sample_config (PyInt 1550653000)
                             (PyInt 1550653260)) 0 [])))
  /\ keys (record "M" (mid_stick "1550653260.000000000" 3))
     = ["time"; "open"; "high"; "low"; "close"; "volume"]%string.
Proof.
  split; [reflexivity|].
  apply (X20_homogeneous_keys 0
           (sample_env (service utc 5000 three_sticks)
              (sample_config (PyInt 1550653000) (PyInt 1550653260)))
           (mkState (sample_config (PyInt 1550653000) (PyInt 1550653260)) 0 [])
           (snd (download_batch
                   (sample_env (service utc 5000 three_sticks)
                      (sample_config (PyInt 1550653000) (PyInt 1550653260)))
                   (mkState (sample_config (PyInt 1550653000)
                               (PyInt 1550653260)) 0 [])))
           (map (record "M") (firstn 2 three_sticks))
           eq_refl).
  right. left. reflexivity.
Defined.

(** ** The file the program writes *)

Lemma get_cell_values (line : candle) :
  NoDup (keys line) -> map (get_cell line) (keys line) = map snd line.
Proof.
  induction line as [|[k v] r IH]; intros Hn; [reflexivity|].
  cbn [keys map fst snd] in *. inversion Hn as [|x l Hnot Hd]; subst.
  f_equal.
  - unfold get_cell. cbn [lookup]. now rewrite String.eqb_refl.
  - rewrite <- (IH Hd). apply map_ext_in. intros k' Hk'.
    unfold get_cell. cbn [lookup].
    destruct (String.eqb k' k) eqn:He; [|reflexivity].
    apply String.eqb_eq in He. subst k'. contradiction.
Qed.

(** X21. When the download returns at least one candle and the output
    file can be opened, the program writes the header with the keys the
    price classes determine and then the values of every downloaded
    candle, one row each, in the order of the download, prints "Done."
    and ends normally. *)
Theorem X21_file_written (fuel : nat) (E : env) (st st1 : state)
  (first : candle) (rest : list candle) :
  download fuel E (emit (EPrint "Downloading candles...") st)
  = Some (Ok (first :: rest), st1) ->
  open_error E (output (cfg st1)) = None ->
  run fuel E st
  = Some (Normal,
          trace st1
          ++ [EStdout clear_line; EPrint "Writing to csv file...";
              EOpen (output (cfg st1));
              ERow (map PyStr (field_names (price (cfg st))))]
          ++ map (fun cd => ERow (map snd cd)) (first :: rest)
          ++ [EPrint "Done."]).
Proof.
  intros Hd Ho.
  assert (Hkeys : forall cd, In cd (first :: rest) ->
                             keys cd = field_names (price (cfg st))).
  { unfold download in Hd.
    destruct (download_batch_spec E (emit (EPrint "Downloading candles...") st))
      as (n & _ & Hcfg & _).
    destruct (download_batch E (emit (EPrint "Downloading candles...") st))
      as [rb st0] eqn:Hb. cbn [snd emit cfg] in Hcfg.
    destruct rb as [batch|e].
    - inversion Hd; subst.
      exact (download_batch_keys _ _ _ _ Hb).
    - destruct (is_MaxCountError e); [|discriminate].
      intros cd Hin.
      apply (paginate_keys _ _ _ _ _ _ _ _ _
               (fun x (Hx : In x []) => match Hx with end) Hd) in Hin.
      cbn [update_cfg cfg] in Hin. rewrite Hcfg in Hin. exact Hin. }
  assert (Hfirst : keys first = field_names (price (cfg st)))
    by (apply Hkeys; now left).
  unfold run. rewrite Hd.
  set (st2 := emit (EPrint "Writing to csv file...")
                (emit (EStdout clear_line) st1)).
  change (output (cfg st2)) with (output (cfg st1)).
  unfold write. rewrite Ho. rewrite write_rows_ok.
  - f_equal. f_equal. subst st2. cbn [emit trace cfg requests].
    rewrite Hfirst. rewrite <- !app_assoc. cbn [app].
    assert (Hrows : map (fun line => ERow (map (get_cell line)
                                            (field_names (price (cfg st)))))
                      (first :: rest)
                    = map (fun cd => ERow (map snd cd)) (first :: rest)).
    { apply map_ext_in. intros cd Hcd. f_equal.
      rewrite <- (Hkeys cd Hcd). apply get_cell_values.
      rewrite (Hkeys cd Hcd). apply field_names_nodup. }
    now rewrite Hrows.
  - apply forallb_forall. intros cd Hcd.
    unfold row_fits. rewrite (Hkeys cd Hcd), <- Hfirst.
    apply forallb_forall. intros k Hk. now apply mem_string_in.
Qed.

(** Two of three candles, fetched in one batch and written. *)
Lemma X21_file_written_witness :
  exists tr,
    run 0 (sample_env (service utc 5000 three_sticks)
             (sample_config (PyInt 1550653000) (PyInt 1550653260)))
        (mkState (sample_config (PyInt 1550653000) (PyInt 1550653260)) 0 [])
    = Some (Normal, tr)
    /\ printed tr
       = ["Downloading candles..."; "Writing to csv file..."; "Done."]%string
    /\ file_events tr
       = [EOpen "candles.csv";
          ERow [PyStr "time"; PyStr "open"; PyStr "high"; PyStr "low";
                PyStr "close"; PyStr "volume"];
          ERow [PyStr "1550653200"; PyStr "1.13370"; PyStr "1.13400";
                PyStr "1.13350"; PyStr "1.13390"; PyInt 7];
          ERow [PyStr "1550653260"; PyStr "1.13370"; PyStr "1.13400";
                PyStr "1.13350"; PyStr "1.13390"; PyInt 3]].
Proof.
  eexists. split.
  - apply (X21_file_written 0
             (sample_env (service utc 5000 three_sticks)
                (sample_config (PyInt 1550653000) (PyInt 1550653260)))
             (mkState (sample_config (PyInt 1550653000) (PyInt 1550653260))
                0 [])
             (snd (download_batch
                     (sample_env (service utc 5000 three_sticks)
                        (sample_config (PyInt 1550653000) (PyInt 1550653260)))
                     (emit (EPrint "Downloading candles...")
                        (mkState (sample_config (PyInt 1550653000)
                                    (PyInt 1550653260)) 0 []))))
             (record "M" (mid_stick "1550653200.000000000" 7))
             [record "M" (mid_stick "1550653260.000000000" 3)]);
      reflexivity.
  - split; vm_compute; reflexivity.
Defined.
(** ** The requests of a paginated download *)

Lemma moved_window_count (cf cf' : config) :
  moved_window cf cf' -> count cf' = count cf /\ to_time cf' = to_time cf.
Proof. unfold moved_window. intros ->. split; reflexivity. Qed.

Lemma paginate_requests (E : env) (to : pyval) (fuel : nat) :
  forall from first acc st r st',
    paginate fuel E to from first acc st = Some (r, st') ->
    exists tl,
      trace st' = trace st ++ tl
      /\ forall kw, In (ERequest kw) tl ->
                    kw_count kw = count (cfg st)
                    /\ kw_includeFirst kw = false
                    /\ (count (cfg st) <> None -> kw_toTime kw = None).
Proof.
  induction fuel as [|k IH]; intros from first acc st r st' H;
    [discriminate|].
  cbn [paginate] in H.
  destruct (download_batch_spec E st) as (n & _ & Hcfg & _ & Htr & _).
  destruct (download_batch E st) as [rb st1]. cbn [snd] in Hcfg, Htr.
  set (kw0 := build_kwargs (cfg st)) in *.
  assert (Hkw0 : forall kw, In (ERequest kw) (EFetch kw0 :: repeat (ERequest kw0) n) ->
                            kw_count kw = count (cfg st)
                            /\ kw_includeFirst kw = false
                            /\ (count (cfg st) <> None -> kw_toTime kw = None)).
  { intros kw [Hin|Hin]; [discriminate|].
    apply repeat_spec in Hin. injection Hin as ->.
    subst kw0. unfold build_kwargs. cbn [kw_count kw_includeFirst kw_toTime].
    split; [reflexivity|]. split; [reflexivity|].
    destruct (count (cfg st)); [reflexivity|congruence]. }
  assert (Hend : forall st2, trace st2 = trace st1 ->
            exists tl, trace st2 = trace st ++ tl
              /\ forall kw, In (ERequest kw) tl ->
                   kw_count kw = count (cfg st)
                   /\ kw_includeFirst kw = false
                   /\ (count (cfg st) <> None -> kw_toTime kw = None)).
  { intros st2 H2. eexists. split; [rewrite H2; exact Htr|exact Hkw0]. }
  destruct rb as [[|cd rest]|e].
  - inversion H; subst. now apply Hend.
  - pose proof (process_batch_cfg E to from first acc (cd :: rest) st1) as Hmv.
    destruct (process_batch E to from first acc (cd :: rest) st1)
      as [rp st2] eqn:Hp. cbn [snd] in Hmv.
    destruct rp as [[res|res from']|e].
    + pose proof (process_batch_quiet E to from first acc (cd :: rest) st1)
        as Hq. rewrite Hp in Hq. cbn [fst snd] in Hq.
      inversion H; subst. apply Hend. apply Hq. discriminate.
    + destruct (process_batch_continue _ _ _ _ _ _ _ _ _ _ Hp)
        as (lct & tlast & bar0 & _ & _ & _ & _ & _ & Hst).
      apply IH in H. destruct H as (tl & Htl & Hreq).
      apply moved_window_count in Hmv. rewrite Hcfg in Hmv.
      destruct Hmv as [Hc Ht].
      exists ((EFetch kw0 :: repeat (ERequest kw0) n)
              ++ [EPrint bar0; EStdout cursor_up] ++ tl).
      split.
      * rewrite Htl, Hst. cbn [emit trace update_cfg].
        rewrite Htr. now rewrite <- !app_assoc.
      * intros kw Hin. apply in_app_or in Hin. destruct Hin as [Hin|Hin];
          [now apply Hkw0|].
        apply in_app_or in Hin. destruct Hin as [Hin|Hin].
        -- destruct Hin as [Hin|[Hin|[]]]; discriminate.
        -- rewrite <- Hc. now apply Hreq.
    + pose proof (process_batch_quiet E to from first acc (cd :: rest) st1)
        as Hq. rewrite Hp in Hq. cbn [fst snd] in Hq.
      inversion H; subst. apply Hend. apply Hq. discriminate.
  - inversion H; subst. now apply Hend.
Qed.

(** X22. In a download that paginates, every request after those of the
    first attempt asks for [MAX_API_CANDLES] candles, with the first
    candle excluded and without an end time: the end time is never sent
    again, it is only enforced by the client. *)
Theorem X22_paginated_requests (fuel : nat) (E : env) (st st' : state) r :
  fst (download_batch E st) = Raise MaxCountError ->
  download fuel E st = Some (r, st') ->
  exists n tl,
    trace st'
    = trace st
      ++ (EFetch (build_kwargs (cfg st))
          :: repeat (ERequest (build_kwargs (cfg st))) n)
      ++ tl
    /\ forall kw, In (ERequest kw) tl ->
                  kw_count kw = Some MAX_API_CANDLES
                  /\ kw_includeFirst kw = false
                  /\ kw_toTime kw = None.
Proof.
  intros H1 H. unfold download in H.
  destruct (download_batch_spec E st) as (n & _ & Hcfg & _ & Htr & _).
  destruct (download_batch E st) as [rb st1]. cbn [fst snd] in *.
  subst rb. cbn [is_MaxCountError] in H.
  apply paginate_requests in H. destruct H as (tl & Htl & Hreq).
  cbn [update_cfg cfg trace set_count count] in Htl, Hreq.
  exists n, tl. split.
  - rewrite Htl, Htr. now rewrite <- app_assoc.
  - intros kw Hin. destruct (Hreq kw Hin) as (Hc & Hi & Ht).
    split; [exact Hc|]. split; [exact Hi|]. apply Ht. discriminate.
Qed.

(** A service that refuses a request by range; its one candle is later
    than the end time. *)
Lemma X22_paginated_requests_witness :
  exists st' n tl,
    download 1 (sample_env lone_candle_api
                  (sample_config (PyInt 1550000000) (PyInt 1550653100)))
      (mkState (sample_config (PyInt 1550000000) (PyInt 1550653100)) 0 [])
    = Some (Ok [], st')
    /\ trace st'
       = (EFetch (build_kwargs
                    (sample_config (PyInt 1550000000) (PyInt 1550653100)))
          :: repeat (ERequest
                       (build_kwargs
                          (sample_config (PyInt 1550000000)
                             (PyInt 1550653100)))) n)
         ++ tl
    /\ forall kw, In (ERequest kw) tl -> kw_toTime kw = None.
Proof.
  set (cf := sample_config (PyInt 1550000000) (PyInt 1550653100)).
  set (E := sample_env lone_candle_api cf).
  set (st := mkState cf 0 []).
  destruct (download 1 E st) as [[r st']|] eqn:Hd;
    [|vm_compute in Hd; discriminate].
  destruct (X22_paginated_requests 1 E st st' r eq_refl Hd)
    as (n & tl & Htr & Hreq).
  exists st', n, tl. split; [|split].
  - vm_compute in Hd. inversion Hd. reflexivity.
  - exact Htr.
  - intros kw Hin. apply (Hreq kw Hin).
Defined.

(** ** A time of the configuration that cannot be read *)

(** X23. A start or end time of the configuration that is a string and
    neither a datetime, a date nor an integer ends the program with
    ValueError unhandled, before anything is printed or requested. *)
Theorem X23_bad_config_time (fuel : nat) (E : env) (file : string)
  (cf : config) (s : string) :
  run_path E file = Some cf ->
  time_to_unix (utcoffset E) (PyStr s) = Raise ValueError ->
  from_time cf = PyStr s \/ to_time cf = PyStr s ->
  main fuel E file = Some (Unhandled ValueError, []).
Proof.
  intros Hrun Hbad Hwhich. unfold main. rewrite Hrun.
  assert (Hn : exists e, normalise E cf = Raise e).
  { unfold normalise.
    destruct cf as [a b c d e f g h i j fr to k l].
    cbn [from_time to_time] in Hwhich.
    destruct Hwhich as [->| ->].
    - destruct to; cbn [is_none from_time to_time set_from_time set_to_time];
        rewrite Hbad; cbn [rbind]; eauto.
    - destruct fr; cbn [is_none from_time to_time set_from_time set_to_time];
        try rewrite Hbad;
        match goal with
        | |- context [time_to_unix ?o ?v] =>
            destruct (time_to_unix o v) eqn:Hv
        end; cbn [rbind from_time to_time set_from_time]; try rewrite Hbad;
        cbn [rbind]; eauto. }
  destruct Hn as [e Hn]. rewrite Hn.
  assert (He : e = ValueError).
  { unfold normalise in Hn.
    match type of Hn with
    | context [time_to_unix ?o (from_time ?c)] =>
        destruct (time_to_unix o (from_time c)) as [f|e1] eqn:H1
    end; cbn [rbind] in Hn.
    - match type of Hn with
      | context [time_to_unix ?o ?v] =>
          destruct (time_to_unix o v) as [t|e2] eqn:H2
      end; cbn [rbind] in Hn; [discriminate|].
      injection Hn as <-.
      match type of H2 with
      | time_to_unix ?o ?v = _ => destruct v as [|z|s'] eqn:Hv
      end; try discriminate.
      destruct (time_to_unix_str (utcoffset E) s') as [[m Hm]|Hm];
        rewrite Hm in H2; congruence.
    - injection Hn as <-.
      match type of H1 with
      | time_to_unix ?o ?v = _ => destruct v as [|z|s'] eqn:Hv
      end; try discriminate.
      destruct (time_to_unix_str (utcoffset E) s') as [[m Hm]|Hm];
        rewrite Hm in H1; congruence. }
  now subst e.
Qed.

(** A configuration whose start is a word. *)
Lemma X23_bad_config_time_witness :
  main 0 (sample_env flaky_api (sample_config (PyStr "yesterday") (PyInt 9)))
       "config.py"
  = Some (Unhandled ValueError, []).
Proof.
  apply (X23_bad_config_time 0
           (sample_env flaky_api (sample_config (PyStr "yesterday") (PyInt 9)))
           "config.py"
           (sample_config (PyStr "yesterday") (PyInt 9)) "yesterday").
  - reflexivity.
  - reflexivity.
  - left. reflexivity.
Defined.
